(** * The IOSM WWAN session multiplexer

    A shallow embedding of the WWAN root device of the IOSM driver (the
    [ipc_wwan_*] functions): its table of VLAN sessions, its transmit
    and receive paths and its accounting, together with the properties
    the specification states about them.

    Conventions of the embedding.
    - C integers are [Z].  [u16] values are kept in [0, 65536) by the
      conversions the source performs ([to_u16]); [unsigned long]
      counters wrap modulo 2^64.
    - [ipc_wwan->vlan_devs] is the kcalloc'ed array, a [list] of
      [max_devs] entries, or NULL ([None]).  An access [vlan_devs[i]]
      outside the array is undefined behaviour in C; the embedding stops
      there with [Fault], keeping the state reached so far.  The same
      holds for bytes outside the linear buffer of a socket buffer and
      for the panics of [skb_push] and [skb_put].
    - The IPC memory layer and the kernel are external.  Every call into
      them is appended to a trace; what they return is given by oracles
      that may depend on the whole trace so far.
    - The mutex and the spinlock are not modelled: every function runs
      alone. *)

From stdpp Require Import base list.
From Stdlib Require Import ZArith Lia.

Local Open Scope Z_scope.

(** ** Constants *)

(** errno values and netdev return codes of the kernel. *)
Definition EIO : Z := 5.
Definition EXDEV : Z := 18.
Definition ENODEV : Z := 19.
Definition EINVAL : Z := 22.
Definition NETDEV_TX_OK : Z := 0.
Definition NETDEV_TX_BUSY : Z := 16.

(** linux/if_ether.h, linux/if_vlan.h *)
Definition ETH_ALEN : Z := 6.
Definition ETH_HLEN : Z := 14.
Definition VLAN_ETH_HLEN : Z := 18.
Definition ETH_P_802_3 : Z := 1.
Definition ETH_P_802_2 : Z := 4.
Definition ETH_P_802_3_MIN : Z := 1536.
Definition ETH_P_IP : Z := 2048.
Definition ETH_P_8021Q : Z := 33024.
Definition ETH_P_IPV6 : Z := 34525.

(** iosm_ipc_wwan.c *)
Definition WWAN_MIN_TXQ : Z := 1.
Definition WWAN_MAX_RXQ : Z := 1.
Definition WWAN_DEFAULT_TXQ : Z := 0.
Definition WWAN_ROOT_VLAN_TAG : Z := 0.
Definition IPC_MEM_MIN_MTU_SIZE : Z := 68.
Definition IPC_MEM_MAX_MTU_SIZE : Z := 1024 * 1024.
Definition IPC_MEM_VLAN_TO_SESSION : Z := 1.
Definition IPC_WWAN_ALIGN : Z := 4.

(** iosm_ipc_wwan.h *)
Definition IMEM_WWAN_DATA_VLAN_ID_START : Z := 1.
Definition IMEM_WWAN_CTRL_VLAN_ID_START : Z := 257.
Definition IMEM_WWAN_CTRL_VLAN_ID_END : Z := 512.

(** iosm_ipc_chnl_cfg.h, enum ipc_wwan_id *)
Definition IPC_WWAN_DSS_ID_0 : Z := 257.
Definition IPC_WWAN_DSS_ID_1 : Z := 258.
Definition IPC_WWAN_DSS_ID_2 : Z := 259.
Definition IPC_WWAN_DSS_ID_3 : Z := 260.
Definition IPC_WWAN_DSS_ID_4 : Z := 261.

Definition to_u16 (x : Z) : Z := x mod 65536.
Definition to_ulong (x : Z) : Z := x mod 2 ^ 64.

(** ** Data model *)

Record net_device_stats : Type := {
  rx_packets : Z;
  tx_packets : Z;
  rx_bytes : Z;
  tx_bytes : Z
}.

Definition zero_stats : net_device_stats :=
  {| rx_packets := 0; tx_packets := 0; rx_bytes := 0; tx_bytes := 0 |}.

(** struct ipc_vlan_info *)
Record ipc_vlan_info : Type := {
  vlan_id : Z;
  ch_id : Z;
  stats : net_device_stats
}.

Definition zero_vlan_info : ipc_vlan_info :=
  {| vlan_id := 0; ch_id := 0; stats := zero_stats |}.

Definition set_ch_id (c : Z) (e : ipc_vlan_info) : ipc_vlan_info :=
  {| vlan_id := vlan_id e; ch_id := c; stats := stats e |}.

Definition set_vlan_id (v : Z) (e : ipc_vlan_info) : ipc_vlan_info :=
  {| vlan_id := v; ch_id := ch_id e; stats := stats e |}.

Definition set_stats (f : net_device_stats -> net_device_stats)
    (e : ipc_vlan_info) : ipc_vlan_info :=
  {| vlan_id := vlan_id e; ch_id := ch_id e; stats := f (stats e) |}.

(** The fields of struct net_device the driver reads or writes. *)
Record net_device : Type := {
  dev_addr : list Z;
  ndev_stats : net_device_stats
}.

(** struct iosm_wwan.  The back pointer [netdev] is one-to-one and is
    embedded; the locks, [dev] and [ops_instance] carry no data. *)
Record iosm_wwan : Type := {
  vlan_devs : option (list ipc_vlan_info);
  netdev : net_device;
  vlan_devs_nr : Z;
  max_devs : Z;
  max_ip_devs : Z;
  is_registered : bool
}.

(** struct sk_buff, linear part.  Offsets are relative to [head]. *)
Record sk_buff : Type := {
  head : Z;
  buf : list Z;
  data : Z;
  len : Z;
  mac_header : Z;
  protocol : Z;
  vlan_present : bool;
  vlan_tci : Z
}.

(** Calls that leave the driver. *)
Inductive call : Type :=
| WwanOpen (vid : Z)
| WwanClose (vid ch : Z)
| WwanTransmit (vid ch : Z) (skb : sk_buff)
| DevAllocSkb (size : Z)
| KfreeSkb (skb : option sk_buff)
| NetifRx (skb : sk_buff).

Record sys : Type := {
  wwan : iosm_wwan;
  trace : list call
}.

Inductive fault : Type :=
| VlanDevsIndex (i : Z)
| SkbRange (off : Z)
| SkbPanic.

Inductive outcome (A : Type) : Type :=
| Done (a : A) (s : sys)
| Fault (s : sys) (f : fault).
Arguments Done {A} a s.
Arguments Fault {A} s f.

Definition M (A : Type) : Type := sys -> outcome A.

Definition ret {A} (a : A) : M A := fun s => Done a s.

Definition bind {A B} (c : M A) (k : A -> M B) : M B :=
  fun s => match c s with
           | Done a s' => k a s'
           | Fault s' f => Fault s' f
           end.

Declare Scope wwan_scope.
Delimit Scope wwan_scope with wwan.
Notation "'do' x <- c ; k" := (bind c (fun x => k))
  (at level 10, x name, c at level 100, k at level 200) : wwan_scope.
Notation "'do'' p <- c ; k" := (bind c (fun x => let p := x in k))
  (at level 10, p pattern, c at level 100, k at level 200) : wwan_scope.
Local Open Scope wwan_scope.

Definition get_wwan : M iosm_wwan := fun s => Done (wwan s) s.

Definition put_wwan (w : iosm_wwan) : M unit :=
  fun s => Done tt {| wwan := w; trace := trace s |}.

Definition get_trace : M (list call) := fun s => Done (trace s) s.

Definition emit (c : call) : M unit :=
  fun s => Done tt {| wwan := wwan s; trace := trace s ++ [c] |}.

Definition raise {A} (f : fault) : M A := fun s => Fault s f.

Definition with_vlan_devs (l : list ipc_vlan_info) (w : iosm_wwan) : iosm_wwan :=
  {| vlan_devs := Some l; netdev := netdev w; vlan_devs_nr := vlan_devs_nr w;
     max_devs := max_devs w; max_ip_devs := max_ip_devs w;
     is_registered := is_registered w |}.

Definition with_vlan_devs_nr (n : Z) (w : iosm_wwan) : iosm_wwan :=
  {| vlan_devs := vlan_devs w; netdev := netdev w; vlan_devs_nr := n;
     max_devs := max_devs w; max_ip_devs := max_ip_devs w;
     is_registered := is_registered w |}.

Definition with_ndev_stats (f : net_device_stats -> net_device_stats)
    (w : iosm_wwan) : iosm_wwan :=
  {| vlan_devs := vlan_devs w;
     netdev := {| dev_addr := dev_addr (netdev w);
                  ndev_stats := f (ndev_stats (netdev w)) |};
     vlan_devs_nr := vlan_devs_nr w;
     max_devs := max_devs w; max_ip_devs := max_ip_devs w;
     is_registered := is_registered w |}.

(** [ipc_wwan->vlan_devs[i]] as an rvalue. *)
Definition vlan_devs_load (i : Z) : M ipc_vlan_info :=
  do w <- get_wwan;
  match vlan_devs w with
  | Some l =>
      if 0 <=? i
      then match l !! Z.to_nat i with
           | Some e => ret e
           | None => raise (VlanDevsIndex i)
           end
      else raise (VlanDevsIndex i)
  | None => raise (VlanDevsIndex i)
  end.

(** [ipc_wwan->vlan_devs[i] = f (ipc_wwan->vlan_devs[i])]. *)
Definition vlan_devs_store (i : Z) (f : ipc_vlan_info -> ipc_vlan_info) : M unit :=
  do e <- vlan_devs_load i;
  do w <- get_wwan;
  match vlan_devs w with
  | Some l => put_wwan (with_vlan_devs (<[Z.to_nat i := f e]> l) w)
  | None => raise (VlanDevsIndex i)
  end.

(** ** The driver *)

Section Driver.

(** What the IPC memory layer and the allocator answer, given the calls
    made so far.  [IPC_MEM_MAX_CHANNELS] is defined in iosm_ipc_imem.h. *)
Variable wwan_open_result : list call -> Z -> Z.
Variable wwan_transmit_result : list call -> Z -> Z -> sk_buff -> Z.
Variable dev_alloc_skb_result : list call -> Z -> option sk_buff.
Variable IPC_MEM_MAX_CHANNELS : Z.

Definition imem_sys_wwan_open (vid : Z) : M Z :=
  do t <- get_trace;
  do _ <- emit (WwanOpen vid);
  ret (wwan_open_result t vid).

Definition imem_sys_wwan_close (vid ch : Z) : M unit :=
  emit (WwanClose vid ch).

Definition imem_sys_wwan_transmit (vid ch : Z) (skb : sk_buff) : M Z :=
  do t <- get_trace;
  do _ <- emit (WwanTransmit vid ch skb);
  ret (wwan_transmit_result t vid ch skb).

Definition dev_alloc_skb (size : Z) : M (option sk_buff) :=
  do t <- get_trace;
  do _ <- emit (DevAllocSkb size);
  ret (dev_alloc_skb_result t size).

(** *** Session table *)

(** The loop of [ipc_wwan_get_vlan_devs_nr], [n] iterations left. *)
Fixpoint get_vlan_devs_nr_loop (n : nat) (i : Z) (tag : Z) : M Z :=
  match n with
  | O => ret (- EINVAL)
  | S n' =>
      do e <- vlan_devs_load i;
      if vlan_id e =? tag then ret i
      else get_vlan_devs_nr_loop n' (i + 1) tag
  end.

Definition ipc_wwan_get_vlan_devs_nr (tag : Z) : M Z :=
  do w <- get_wwan;
  match vlan_devs w with
  | Some _ => get_vlan_devs_nr_loop (Z.to_nat (vlan_devs_nr w)) 0 tag
  | None => ret (- EINVAL)
  end.

Definition ipc_wwan_add_vlan (vid : Z) : M Z :=
  do w <- get_wwan;
  if (512 <=? vid) || negb (bool_decide (is_Some (vlan_devs w)))
  then ret (- EINVAL)
  else if vid =? WWAN_ROOT_VLAN_TAG then ret 0
  else
    do ch <- imem_sys_wwan_open vid;
    do _ <- vlan_devs_store (vlan_devs_nr w) (set_ch_id ch);
    do e <- vlan_devs_load (vlan_devs_nr w);
    if ch_id e <? 0 then ret (- ENODEV)
    else
      do _ <- vlan_devs_store (vlan_devs_nr w) (set_vlan_id vid);
      do w' <- get_wwan;
      do _ <- put_wwan (with_vlan_devs_nr (vlan_devs_nr w' + 1) w');
      ret 0.

(** The re-alignment loop of [ipc_wwan_remove_vlan]:
    [vlan_devs[i] = vlan_devs[i + 1]], [n] iterations left. *)
Fixpoint realign_loop (n : nat) (i : Z) : M unit :=
  match n with
  | O => ret tt
  | S n' =>
      do e <- vlan_devs_load (i + 1);
      do _ <- vlan_devs_store i (fun _ => e);
      realign_loop n' (i + 1)
  end.

Definition ipc_wwan_remove_vlan (vid : Z) : M Z :=
  do ch_nr <- ipc_wwan_get_vlan_devs_nr vid;
  if ch_nr <? 0 then ret ch_nr
  else
    do e <- vlan_devs_load ch_nr;
    if ch_id e <? 0 then ret (- EINVAL)
    else
      do _ <- imem_sys_wwan_close vid (ch_id e);
      do _ <- vlan_devs_store ch_nr (set_ch_id (-1));
      do w <- get_wwan;
      do _ <- realign_loop (Z.to_nat (vlan_devs_nr w - ch_nr)) ch_nr;
      do w' <- get_wwan;
      do _ <- put_wwan (with_vlan_devs_nr (vlan_devs_nr w' - 1) w');
      ret 0.

Definition ipc_wwan_mux_session_to_vlan_tag (id : Z) : Z :=
  to_u16 (id + IPC_MEM_VLAN_TO_SESSION).

Definition ipc_wwan_vlan_to_mux_session_id (tag : Z) : Z :=
  tag - IPC_MEM_VLAN_TO_SESSION.

Definition ipc_wwan_vlan_rx_add_vid (vid : Z) : M Z :=
  if negb (vid =? IPC_WWAN_DSS_ID_4) then ipc_wwan_add_vlan vid
  else ret 0.

Definition ipc_wwan_vlan_rx_kill_vid (vid : Z) : M Z :=
  if vid =? WWAN_ROOT_VLAN_TAG then ret 0
  else ipc_wwan_remove_vlan vid.

(** *** Socket buffers

    The helpers of linux/skbuff.h, linux/etherdevice.h and
    linux/if_vlan.h the driver calls, on the linear part of the buffer. *)

Definition with_buf (b : list Z) (skb : sk_buff) : sk_buff :=
  {| head := head skb; buf := b; data := data skb; len := len skb;
     mac_header := mac_header skb; protocol := protocol skb;
     vlan_present := vlan_present skb; vlan_tci := vlan_tci skb |}.

Definition with_data_len (d l : Z) (skb : sk_buff) : sk_buff :=
  {| head := head skb; buf := buf skb; data := d; len := l;
     mac_header := mac_header skb; protocol := protocol skb;
     vlan_present := vlan_present skb; vlan_tci := vlan_tci skb |}.

Definition with_mac_header (m : Z) (skb : sk_buff) : sk_buff :=
  {| head := head skb; buf := buf skb; data := data skb; len := len skb;
     mac_header := m; protocol := protocol skb;
     vlan_present := vlan_present skb; vlan_tci := vlan_tci skb |}.

Definition with_protocol (p : Z) (skb : sk_buff) : sk_buff :=
  {| head := head skb; buf := buf skb; data := data skb; len := len skb;
     mac_header := mac_header skb; protocol := p;
     vlan_present := vlan_present skb; vlan_tci := vlan_tci skb |}.

(** [(uintptr_t)skb->data] *)
Definition skb_data_ptr (skb : sk_buff) : Z := head skb + data skb.

Definition skb_load (skb : sk_buff) (off : Z) : M Z :=
  if 0 <=? off
  then match buf skb !! Z.to_nat off with
       | Some b => ret b
       | None => raise (SkbRange off)
       end
  else raise (SkbRange off).

Definition skb_store (skb : sk_buff) (off : Z) (b : Z) : M sk_buff :=
  do _ <- skb_load skb off;
  ret (with_buf (<[Z.to_nat off := b]> (buf skb)) skb).

(** A [__be16] field, as the number it carries on the wire. *)
Definition skb_load_be16 (skb : sk_buff) (off : Z) : M Z :=
  do hi <- skb_load skb off;
  do lo <- skb_load skb (off + 1);
  ret (hi * 256 + lo).

Definition skb_store_be16 (skb : sk_buff) (off : Z) (v : Z) : M sk_buff :=
  do skb <- skb_store skb off (v / 256);
  skb_store skb (off + 1) (v mod 256).

(** [skb_pull]: the new data pointer, NULL when [n > skb->len]. *)
Definition skb_pull (skb : sk_buff) (n : Z) : Z * sk_buff :=
  if len skb <? n then (0, skb)
  else
    let skb' := with_data_len (data skb + n) (len skb - n) skb in
    (skb_data_ptr skb', skb').

(** [skb_push]: panics when the data pointer would pass [head]. *)
Definition skb_push (skb : sk_buff) (n : Z) : M (Z * sk_buff) :=
  let skb' := with_data_len (data skb - n) (len skb + n) skb in
  if data skb' <? 0 then raise SkbPanic
  else ret (skb_data_ptr skb', skb').

Definition skb_reserve (skb : sk_buff) (n : Z) : sk_buff :=
  with_data_len (data skb + n) (len skb) skb.

(** [skb_put]: panics when the tail would pass the end of the buffer. *)
Definition skb_put (skb : sk_buff) (n : Z) : M sk_buff :=
  let skb' := with_data_len (data skb) (len skb + n) skb in
  if Z.of_nat (length (buf skb)) <? data skb' + len skb' then raise SkbPanic
  else ret skb'.

(** [memcpy(dst->data, src->data, n)] *)
Definition skb_memcpy (dst src : sk_buff) (n : Z) : M sk_buff :=
  if (data src <? 0) || (Z.of_nat (length (buf src)) <? data src + n)
  then raise (SkbRange (data src + n))
  else if (data dst <? 0) || (Z.of_nat (length (buf dst)) <? data dst + n)
  then raise (SkbRange (data dst + n))
  else
    let bytes := take (Z.to_nat n) (drop (Z.to_nat (data src)) (buf src)) in
    ret (with_buf (take (Z.to_nat (data dst)) (buf dst) ++ bytes ++
                   drop (Z.to_nat (data dst + n)) (buf dst)) dst).

(** [ether_addr_copy(skb->head + off, addr)].  [dev_addr] is a zeroed
    array of MAX_ADDR_LEN bytes; bytes the list does not give are 0. *)
Definition ether_addr_copy (skb : sk_buff) (off : Z) (addr : list Z) : M sk_buff :=
  do skb <- skb_store skb off (addr !!! 0%nat);
  do skb <- skb_store skb (off + 1) (addr !!! 1%nat);
  do skb <- skb_store skb (off + 2) (addr !!! 2%nat);
  do skb <- skb_store skb (off + 3) (addr !!! 3%nat);
  do skb <- skb_store skb (off + 4) (addr !!! 4%nat);
  skb_store skb (off + 5) (addr !!! 5%nat).

(** [vlan_get_tag]: the device sets NETIF_F_HW_VLAN_CTAG_TX, so the tag
    is the hardware-accelerated one.  Returns the result code and the
    value left in [*vlan_tci]. *)
Definition vlan_get_tag (skb : sk_buff) : Z * Z :=
  if vlan_present skb then (0, vlan_tci skb) else (- EINVAL, 0).

(** [eth_type_trans]: records the MAC header, pulls it, and classifies
    the frame by its [h_proto].  The packet type is not modelled. *)
Definition eth_type_trans (skb : sk_buff) : M (Z * sk_buff) :=
  let eth := data skb in
  let skb := with_mac_header (data skb) skb in
  let skb := snd (skb_pull skb ETH_HLEN) in
  do h_proto <- skb_load_be16 skb (eth + 12);
  if ETH_P_802_3_MIN <=? h_proto then ret (h_proto, skb)
  else if 2 <=? len skb then
    do sap <- skb_load_be16 skb (data skb);
    if sap =? 65535 then ret (ETH_P_802_3, skb)
    else ret (ETH_P_802_2, skb)
  else ret (ETH_P_802_2, skb).

(** *** Transmit path *)

(** The out-parameter [is_ip] is [None] for a NULL pointer. *)
Definition ipc_wwan_pull_header (skb : sk_buff) (is_ip : option bool)
    : M (Z * option bool * sk_buff) :=
  do' (proto, header_size) <-
    (if protocol skb =? ETH_P_8021Q then
       do proto <- skb_load_be16 skb (mac_header skb + 16);
       ret (proto, if len skb <? VLAN_ETH_HLEN then 0 else VLAN_ETH_HLEN)
     else
       do proto <- skb_load_be16 skb (mac_header skb + 12);
       ret (proto, if len skb <? ETH_HLEN then 0 else ETH_HLEN));
  if (0 <? header_size) && bool_decide (is_Some is_ip) then
    let is_ip' := (proto =? ETH_P_IP) || (proto =? ETH_P_IPV6) in
    let '(p, skb') := skb_pull skb header_size in
    if p =? 0 then ret (0, Some is_ip', skb')
    else ret (header_size, Some is_ip', skb')
  else ret (header_size, is_ip, skb).

Definition ipc_wwan_skb_align (skb : sk_buff) : M (option sk_buff) :=
  let offset := Z.land (skb_data_ptr skb) (IPC_WWAN_ALIGN - 1) in
  if offset =? 0 then ret (Some skb)
  else
    do n <- dev_alloc_skb (len skb + (IPC_WWAN_ALIGN - 1));
    match n with
    | None => ret None
    | Some new_skb =>
        let offset := Z.land (skb_data_ptr new_skb) (IPC_WWAN_ALIGN - 1) in
        let new_skb :=
          if negb (offset =? 0)
          then skb_reserve new_skb (IPC_WWAN_ALIGN - offset)
          else new_skb in
        do new_skb <- skb_memcpy new_skb skb (len skb);
        do new_skb <- skb_put new_skb (len skb);
        ret (Some new_skb)
    end.

(** The [exit] label of [ipc_wwan_transmit]. *)
Definition transmit_exit (skb : option sk_buff) (r : Z) : M Z :=
  do _ <- emit (KfreeSkb skb);
  ret r.

(** [ipc_wwan_transmit] from the call of [imem_sys_wwan_transmit] on. *)
Definition transmit_send (tag idx header_size : Z) (skb : sk_buff) : M Z :=
  do e <- vlan_devs_load idx;
  do r <- imem_sys_wwan_transmit tag (ch_id e) skb;
  if r =? 0 then ret NETDEV_TX_OK
  else if r =? -2 then
    do' (p, skb') <- skb_push skb header_size;
    if p =? 0 then transmit_exit (Some skb') (- EIO)
    else ret NETDEV_TX_BUSY
  else transmit_exit (Some skb) (- EIO).

Definition ipc_wwan_transmit (skb : sk_buff) : M Z :=
  let tag := snd (vlan_get_tag skb) in
  if tag =? WWAN_ROOT_VLAN_TAG then transmit_exit (Some skb) (- EINVAL)
  else
    do' (header_size, is_ip, skb) <- ipc_wwan_pull_header skb (Some false);
    let is_ip := default false is_ip in
    if header_size =? 0 then transmit_exit (Some skb) (- EINVAL)
    else
      do idx <- ipc_wwan_get_vlan_devs_nr tag;
      do w <- get_wwan;
      do unknown <-
        (if (idx <? 0) || (max_devs w <=? idx) then ret true
         else do e <- vlan_devs_load idx; ret (ch_id e <? 0));
      if unknown : bool then transmit_exit (Some skb) (- EINVAL)
      else if (0 <? tag) && (tag <? 256) then
        if negb is_ip then transmit_exit (Some skb) (- EXDEV)
        else transmit_send tag idx header_size skb
      else if (256 <? tag) && (tag <? 512) then
        if is_ip then transmit_exit (Some skb) (- EXDEV)
        else
          do a <- ipc_wwan_skb_align skb;
          match a with
          | None => transmit_exit None (- EINVAL)
          | Some skb => transmit_send tag idx header_size skb
          end
      else transmit_exit (Some skb) (- EXDEV).

Definition ipc_wwan_select_queue (w : iosm_wwan) (skb : sk_buff) : Z :=
  let '(r, tag) := vlan_get_tag skb in
  if r <? 0 then WWAN_DEFAULT_TXQ
  else if (IMEM_WWAN_DATA_VLAN_ID_START <=? tag) && (tag <=? max_ip_devs w)
  then tag
  else if ((IMEM_WWAN_CTRL_VLAN_ID_START <=? tag) &&
           (tag <=? IMEM_WWAN_CTRL_VLAN_ID_END)) ||
          (tag =? WWAN_ROOT_VLAN_TAG)
  then WWAN_DEFAULT_TXQ
  else 65535.

(** *** Accounting and the receive path *)

Definition count_tx (n : Z) (s : net_device_stats) : net_device_stats :=
  {| rx_packets := rx_packets s;
     tx_packets := to_ulong (tx_packets s + 1);
     rx_bytes := rx_bytes s;
     tx_bytes := to_ulong (tx_bytes s + n) |}.

Definition count_rx (n : Z) (s : net_device_stats) : net_device_stats :=
  {| rx_packets := to_ulong (rx_packets s + 1);
     tx_packets := tx_packets s;
     rx_bytes := to_ulong (rx_bytes s + n);
     tx_bytes := tx_bytes s |}.

Definition ipc_wwan_update_stats (id : Z) (n : Z) (tx : bool) : M unit :=
  do idx <- ipc_wwan_get_vlan_devs_nr (ipc_wwan_mux_session_to_vlan_tag id);
  do w <- get_wwan;
  if (idx <? 0) || (max_devs w <=? idx) then ret tt
  else if tx then
    do _ <- vlan_devs_store idx (set_stats (count_tx n));
    do w <- get_wwan;
    put_wwan (with_ndev_stats (count_tx n) w)
  else
    do _ <- vlan_devs_store idx (set_stats (count_rx n));
    do w <- get_wwan;
    put_wwan (with_ndev_stats (count_rx n) w).

Definition ipc_wwan_receive (skb : sk_buff) (dss : bool) : M Z :=
  let eth := data skb in
  if skb_data_ptr skb =? 0 then
    do _ <- emit (KfreeSkb (Some skb));
    ret (-1)
  else
    do w <- get_wwan;
    do skb <- ether_addr_copy skb eth (dev_addr (netdev w));
    do skb <- ether_addr_copy skb (eth + ETH_ALEN) (dev_addr (netdev w));
    do b <- skb_load skb (eth + ETH_ALEN + (ETH_ALEN - 1));
    do skb <- skb_store skb (eth + ETH_ALEN + (ETH_ALEN - 1)) (Z.lxor b 1);
    do skb <- skb_store_be16 skb (eth + 12) ETH_P_802_3;
    do skb <-
      (if negb dss then
         do b <- skb_load skb (data skb + ETH_HLEN);
         if Z.land b 240 =? 64 then skb_store_be16 skb (eth + 12) ETH_P_IP
         else if Z.land b 240 =? 96 then skb_store_be16 skb (eth + 12) ETH_P_IPV6
         else ret skb
       else ret skb);
    do' (proto, skb) <- eth_type_trans skb;
    let skb := with_protocol proto skb in
    let tag := snd (vlan_get_tag skb) in
    do _ <- ipc_wwan_update_stats (ipc_wwan_vlan_to_mux_session_id tag)
                                  (len skb) false;
    do _ <- emit (NetifRx skb);
    ret 0.

(** *** Initialisation

    [netdev_ok], [kcalloc_ok] and [register_ok] say whether
    [alloc_etherdev_mqs], [kcalloc] and [register_netdev] succeed, [ops]
    whether [ops_instance] is non-NULL, [addr] is the random address. *)
Definition ipc_wwan_init (netdev_ok ops kcalloc_ok register_ok : bool)
    (addr : list Z) (max_sessions : Z) : option iosm_wwan :=
  if negb netdev_ok || negb ops then None
  else
    let max_devs := max_sessions + IPC_MEM_MAX_CHANNELS in
    let w :=
      {| vlan_devs :=
           if kcalloc_ok && (0 <=? max_devs)
           then Some (replicate (Z.to_nat max_devs) zero_vlan_info)
           else None;
         netdev := {| dev_addr := addr; ndev_stats := zero_stats |};
         vlan_devs_nr := 0;
         max_devs := max_devs;
         max_ip_devs := max_sessions;
         is_registered := false |} in
    if negb register_ok then None
    else Some {| vlan_devs := vlan_devs w; netdev := netdev w;
                 vlan_devs_nr := vlan_devs_nr w; max_devs := max_devs;
                 max_ip_devs := max_ip_devs w; is_registered := true |}.

End Driver.

(** ** Vocabulary of the properties *)

(** The live sessions: the first [vlan_devs_nr] entries of the table. *)
Definition live_sessions (w : iosm_wwan) : list ipc_vlan_info :=
  match vlan_devs w with
  | Some l => take (Z.to_nat (vlan_devs_nr w)) l
  | None => []
  end.

(** The session count lies within the allocated table. *)
Definition table_ok (w : iosm_wwan) : Prop :=
  match vlan_devs w with
  | Some l => 0 <= vlan_devs_nr w <= Z.of_nat (length l)
  | None => True
  end.

(** Every live session is bound to a valid channel. *)
Definition live_channels_valid (w : iosm_wwan) : Prop :=
  Forall (fun e => 0 <= ch_id e) (live_sessions w).

Definition wwan_inv (w : iosm_wwan) : Prop :=
  table_ok w /\ live_channels_valid w.

(** What the lookup loop computes on a list of entries, counting
    indices from [i]. *)
Fixpoint find_tag (l : list ipc_vlan_info) (i tag : Z) : Z :=
  match l with
  | [] => - EINVAL
  | e :: l' => if vlan_id e =? tag then i else find_tag l' (i + 1) tag
  end.

Definition set_table (l : list ipc_vlan_info) (s : sys) : sys :=
  {| wwan := with_vlan_devs l (wwan s); trace := trace s |}.

Definition set_count (n : Z) (s : sys) : sys :=
  {| wwan := with_vlan_devs_nr n (wwan s); trace := trace s |}.

Definition traced (c : call) (s : sys) : sys :=
  {| wwan := wwan s; trace := trace s ++ [c] |}.

(** The upper nibble of a byte, and the first nibble of what follows
    the data pointer of a frame. *)
Definition first_nibble (b : Z) : Z := Z.shiftr b 4.

Definition payload_nibble (skb : sk_buff) : option Z :=
  first_nibble <$> buf skb !! Z.to_nat (data skb).

(** The ethertype field of the MAC header a frame records. *)
Definition frame_h_proto (skb : sk_buff) : option Z :=
  match buf skb !! Z.to_nat (mac_header skb + 12),
        buf skb !! Z.to_nat (mac_header skb + 13) with
  | Some hi, Some lo => Some (hi * 256 + lo)
  | _, _ => None
  end.

(** The protocol class a tag stands for disagrees with [is_ip]. *)
Definition class_mismatch (tag : Z) (is_ip : bool) : bool :=
  if (0 <? tag) && (tag <? 256) then negb is_ip
  else if (256 <? tag) && (tag <? 512) then is_ip
  else true.

(** The header of a frame lies inside its linear buffer. *)
Definition skb_ok (skb : sk_buff) : Prop :=
  0 <= data skb /\ 0 <= len skb /\
  data skb + len skb <= Z.of_nat (length (buf skb)).

(** The session a frame is sent on: the lookup finds the tag at a
    valid index whose channel id is valid. *)
Definition resolved (s : sys) (tag idx : Z) (e : ipc_vlan_info) : Prop :=
  ipc_wwan_get_vlan_devs_nr tag s = Done idx s /\
  0 <= idx < max_devs (wwan s) /\
  vlan_devs_load idx s = Done e s /\
  0 <= ch_id e.

(** [skb'] is [skb] with bytes of the 14-byte header at its data
    pointer rewritten, and nothing else changed. *)
Definition header_rewritten (skb skb' : sk_buff) : Prop :=
  head skb' = head skb /\ data skb' = data skb /\ len skb' = len skb /\
  mac_header skb' = mac_header skb /\ protocol skb' = protocol skb /\
  vlan_present skb' = vlan_present skb /\ vlan_tci skb' = vlan_tci skb /\
  length (buf skb') = length (buf skb) /\
  forall j, (j < Z.to_nat (data skb) \/ Z.to_nat (data skb + ETH_HLEN) <= j)%nat ->
            buf skb' !! j = buf skb !! j.

Definition poke (off b : Z) (skb : sk_buff) : sk_buff :=
  with_buf (<[Z.to_nat off := b]> (buf skb)) skb.

(** ** Example configurations

    A transport that hands out channel ids in the order of the calls
    made so far and accepts every frame, an allocator that is out of
    memory, and a root device with eight reserved channels (the eight
    entries of [modem_cfg] in iosm_ipc_chnl_cfg.c). *)

Definition ex_open : list call -> Z -> Z :=
  fun t _ => Z.of_nat (length t).

Definition ex_transmit : list call -> Z -> Z -> sk_buff -> Z :=
  fun _ _ _ _ => 0.

Definition ex_alloc : list call -> Z -> option sk_buff :=
  fun _ _ => None.

Definition ex_addr : list Z := [2; 0; 0; 0; 0; 1].

Definition ex_wwan (max_sessions : Z) : iosm_wwan :=
  default
    {| vlan_devs := None;
       netdev := {| dev_addr := []; ndev_stats := zero_stats |};
       vlan_devs_nr := 0; max_devs := 0; max_ip_devs := 0;
       is_registered := false |}
    (ipc_wwan_init 8 true true true true ex_addr max_sessions).

Definition ex_sys (max_sessions : Z) : sys :=
  {| wwan := ex_wwan max_sessions; trace := [] |}.

(** The state an operation leaves, or the state itself on a fault. *)
Definition after {A} (o : outcome A) : sys :=
  match o with
  | Done _ s => s
  | Fault s _ => s
  end.

(** The root device configured for [max_sessions] sessions after a
    first session with tag 1 was added. *)
Definition ex_one_session (max_sessions : Z) : sys :=
  after (ipc_wwan_add_vlan ex_open 1 (ex_sys max_sessions)).

(** An Ethernet frame with two bytes of headroom, carrying [tag] as its
    hardware-accelerated VLAN tag. *)
Definition ex_frame (tag ethertype : Z) (payload : list Z) : sk_buff :=
  {| head := 4096;
     buf := [0; 0] ++ [2; 0; 0; 0; 0; 1] ++ [2; 0; 0; 0; 0; 2] ++
            [ethertype / 256; ethertype mod 256] ++ payload;
     data := 2;
     len := 14 + Z.of_nat (length payload);
     mac_header := 2;
     protocol := ethertype;
     vlan_present := true;
     vlan_tci := tag |}.

(** ** Further vocabulary *)

(** Every live session carries a tag that [ipc_wwan_vlan_rx_add_vid]
    lets through to the table: not the root tag, not IPC_WWAN_DSS_ID_4,
    and below 512. *)
Definition live_tags_valid (w : iosm_wwan) : Prop :=
  Forall (fun e => vlan_id e <> WWAN_ROOT_VLAN_TAG /\
                   vlan_id e <> IPC_WWAN_DSS_ID_4 /\ vlan_id e < 512)
         (live_sessions w).

(** The table has the size [max_devs] announces. *)
Definition table_sized (w : iosm_wwan) : Prop :=
  match vlan_devs w with
  | Some l => Z.of_nat (length l) = max_devs w
  | None => True
  end.

(** The tags and channel ids of the live sessions, in table order. *)
Definition bindings (w : iosm_wwan) : list (Z * Z) :=
  (fun e => (vlan_id e, ch_id e)) <$> live_sessions w.

(** The bytes a frame carries: [len] bytes from its data pointer. *)
Definition skb_payload (skb : sk_buff) : list Z :=
  take (Z.to_nat (len skb)) (drop (Z.to_nat (data skb)) (buf skb)).

(** A command that, when it returns, has not touched the state. *)
Definition pure_state {A} (c : M A) : Prop :=
  forall s a s', c s = Done a s' -> s' = s.

(** The frees and the hand-overs to the transport among some calls. *)
Fixpoint frees (t : list call) : nat :=
  match t with
  | [] => 0
  | KfreeSkb _ :: t' => S (frees t')
  | _ :: t' => frees t'
  end.

Fixpoint sends (t : list call) : nat :=
  match t with
  | [] => 0
  | WwanTransmit _ _ _ :: t' => S (sends t')
  | _ :: t' => sends t'
  end.

(** The twelve address bytes [ipc_wwan_receive] writes in front of a
    frame: the address of the root device as destination, and the same
    address with the low bit of its last byte flipped as source. *)
Definition rx_addresses (addr : list Z) : list Z :=
  [addr !!! 0%nat; addr !!! 1%nat; addr !!! 2%nat;
   addr !!! 3%nat; addr !!! 4%nat; addr !!! 5%nat;
   addr !!! 0%nat; addr !!! 1%nat; addr !!! 2%nat;
   addr !!! 3%nat; addr !!! 4%nat; Z.lxor (addr !!! 5%nat) 1].


(** The calls the network stack and the transport layer make into the
    driver once the root device is registered: the two VLAN callbacks
    and the transmit callback of [ipc_wwandev_ops], and the exported
    [ipc_wwan_receive] and [ipc_wwan_update_stats]. *)
Inductive entry : Type :=
| RxAddVid (vid : Z)
| RxKillVid (vid : Z)
| StartXmit (skb : sk_buff)
| Receive (skb : sk_buff) (dss : bool)
| UpdateStats (id n : Z) (tx : bool).

Definition enter (wwan_open_result : list call -> Z -> Z)
    (wwan_transmit_result : list call -> Z -> Z -> sk_buff -> Z)
    (dev_alloc_skb_result : list call -> Z -> option sk_buff)
    (c : entry) : M Z :=
  match c with
  | RxAddVid vid => ipc_wwan_vlan_rx_add_vid wwan_open_result vid
  | RxKillVid vid => ipc_wwan_vlan_rx_kill_vid vid
  | StartXmit skb =>
      ipc_wwan_transmit wwan_transmit_result dev_alloc_skb_result skb
  | Receive skb dss => ipc_wwan_receive skb dss
  | UpdateStats id n tx => do _ <- ipc_wwan_update_stats id n tx; ret 0
  end.

(** A sequence of such calls, with the results they return. *)
Fixpoint enter_all (wwan_open_result : list call -> Z -> Z)
    (wwan_transmit_result : list call -> Z -> Z -> sk_buff -> Z)
    (dev_alloc_skb_result : list call -> Z -> option sk_buff)
    (cs : list entry) : M (list Z) :=
  match cs with
  | [] => ret []
  | c :: cs' =>
      do r <- enter wwan_open_result wwan_transmit_result
                dev_alloc_skb_result c;
      do rs <- enter_all wwan_open_result wwan_transmit_result
                 dev_alloc_skb_result cs';
      ret (r :: rs)
  end.

(** What holds of the root device between any two calls. *)
Definition driver_inv (w : iosm_wwan) : Prop :=
  wwan_inv w /\ table_sized w /\ live_tags_valid w.

(** The calls of the trace that go to the transport layer. *)
Definition transport_call (c : call) : bool :=
  match c with
  | WwanOpen _ | WwanClose _ _ | WwanTransmit _ _ _ => true
  | _ => false
  end.

(** The results a driver without a table gives. *)
Definition result_without_table (c : entry) (r : Z) : Prop :=
  match c with
  | RxAddVid vid => r = if vid =? IPC_WWAN_DSS_ID_4 then 0 else - EINVAL
  | RxKillVid vid => r = if vid =? WWAN_ROOT_VLAN_TAG then 0 else - EINVAL
  | StartXmit _ => r = - EINVAL
  | Receive skb _ => r = if skb_data_ptr skb =? 0 then -1 else 0
  | UpdateStats _ _ _ => r = 0
  end.

(** ** The administration callbacks of the root device

    [ipc_wwan_open], [ipc_wwan_stop], [ipc_wwan_change_mtu],
    [ipc_wwan_change_mac_addr], [ipc_wwan_ioctl], [ipc_wwan_tx_flowctrl]
    and [ipc_wwan_is_tx_stopped] work on fields of struct net_device the
    session table does not use.  [tx_stopped] holds the driver's stop
    bit of each of the TX queues [alloc_etherdev_mqs] allocated;
    [running] is [netif_running], [live_addr_change] the flag
    IFF_LIVE_ADDR_CHANGE; neither is written by the driver. *)

Definition EBUSY : Z := 16.
Definition EADDRNOTAVAIL : Z := 99.
Definition SIOCSIFHWADDR : Z := 35108.
Definition SIZEOF_SOCKADDR : Z := 16.

Record net_admin : Type := {
  ndev : net_device;
  addr_len : Z;
  mtu : Z;
  running : bool;
  live_addr_change : bool;
  tx_stopped : list bool
}.

Definition with_addr_len (n : Z) (a : net_admin) : net_admin :=
  {| ndev := ndev a; addr_len := n; mtu := mtu a; running := running a;
     live_addr_change := live_addr_change a; tx_stopped := tx_stopped a |}.

Definition with_mtu (n : Z) (a : net_admin) : net_admin :=
  {| ndev := ndev a; addr_len := addr_len a; mtu := n; running := running a;
     live_addr_change := live_addr_change a; tx_stopped := tx_stopped a |}.

Definition with_tx_stopped (q : list bool) (a : net_admin) : net_admin :=
  {| ndev := ndev a; addr_len := addr_len a; mtu := mtu a;
     running := running a; live_addr_change := live_addr_change a;
     tx_stopped := q |}.

(** Writes the six bytes [b] over the start of [dev->dev_addr]. *)
Definition with_dev_addr (b : list Z) (a : net_admin) : net_admin :=
  {| ndev := {| dev_addr := b ++ drop 6 (dev_addr (ndev a));
                ndev_stats := ndev_stats (ndev a) |};
     addr_len := addr_len a; mtu := mtu a; running := running a;
     live_addr_change := live_addr_change a; tx_stopped := tx_stopped a |}.

(** The first six bytes of [sa_data]. *)
Definition sa_addr (sock_data : list Z) : list Z :=
  (fun i => sock_data !!! i) <$> seq 0 6.

Definition is_zero_ether_addr (addr : list Z) : bool :=
  forallb (fun b => b =? 0) (sa_addr addr).

Definition is_multicast_ether_addr (addr : list Z) : bool :=
  Z.land (addr !!! 0%nat) 1 =? 1.

Definition is_valid_ether_addr (addr : list Z) : bool :=
  negb (is_multicast_ether_addr addr) && negb (is_zero_ether_addr addr).

(** [eth_mac_addr]: refuses when the device runs without
    IFF_LIVE_ADDR_CHANGE or when the address is not valid, and copies
    the address otherwise. *)
Definition eth_mac_addr (a : net_admin) (sock_data : list Z)
    : Z * net_admin :=
  if negb (live_addr_change a) && running a then (- EBUSY, a)
  else if negb (is_valid_ether_addr sock_data) then (- EADDRNOTAVAIL, a)
  else (0, with_dev_addr (sa_addr sock_data) a).

Definition ipc_wwan_open (a : net_admin) : Z * net_admin :=
  if addr_len a <? ETH_ALEN then (- ENODEV, a)
  else (0, with_tx_stopped (replicate (length (tx_stopped a)) false) a).

Definition ipc_wwan_stop (a : net_admin) : Z * net_admin :=
  (0, with_tx_stopped (replicate (length (tx_stopped a)) true) a).

Definition ipc_wwan_change_mtu (a : net_admin) (new_mtu : Z)
    : Z * net_admin :=
  if (new_mtu <? IPC_MEM_MIN_MTU_SIZE) || (IPC_MEM_MAX_MTU_SIZE <? new_mtu)
  then (- EINVAL, a)
  else (0, with_mtu new_mtu a).

Definition ipc_wwan_change_mac_addr (a : net_admin) (sock_data : list Z)
    : Z * net_admin :=
  if is_zero_ether_addr sock_data
  then (0, with_dev_addr (replicate 6 0) (with_addr_len 1 a))
  else eth_mac_addr a sock_data.

(** [access_ok] is the answer of the kernel for the user pointer. *)
Definition ipc_wwan_ioctl (a : net_admin) (cmd : Z) (access_ok : bool)
    (sock_data : list Z) : Z * net_admin :=
  if negb (cmd =? SIOCSIFHWADDR) || negb access_ok ||
     (SIZEOF_SOCKADDR <? addr_len a)
  then (- EINVAL, a)
  else ipc_wwan_change_mac_addr a sock_data.

(** [netif_stop_subqueue] and [netif_wake_subqueue] index the TX queues
    without a check: a session whose tag is not below their number has
    no queue ([None]). *)
Definition ipc_wwan_tx_flowctrl (a : net_admin) (id : Z) (on : bool)
    : option net_admin :=
  let vid := ipc_wwan_mux_session_to_vlan_tag id in
  if vid <? Z.of_nat (length (tx_stopped a))
  then Some (with_tx_stopped (<[Z.to_nat vid := on]> (tx_stopped a)) a)
  else None.

Definition ipc_wwan_is_tx_stopped (a : net_admin) (id : Z) : option bool :=
  let vid := ipc_wwan_mux_session_to_vlan_tag id in
  tx_stopped a !! Z.to_nat vid.

(** The calls that administer the root device. *)
Inductive admin_call : Type :=
| NdoOpen
| NdoStop
| NdoChangeMtu (new_mtu : Z)
| NdoSetMacAddress (sock_data : list Z)
| NdoDoIoctl (cmd : Z) (access_ok : bool) (sock_data : list Z)
| TxFlowctrl (id : Z) (on : bool).

Definition administer (c : admin_call) (a : net_admin)
    : option (Z * net_admin) :=
  match c with
  | NdoOpen => Some (ipc_wwan_open a)
  | NdoStop => Some (ipc_wwan_stop a)
  | NdoChangeMtu new_mtu => Some (ipc_wwan_change_mtu a new_mtu)
  | NdoSetMacAddress sock_data => Some (ipc_wwan_change_mac_addr a sock_data)
  | NdoDoIoctl cmd access_ok sock_data =>
      Some (ipc_wwan_ioctl a cmd access_ok sock_data)
  | TxFlowctrl id on =>
      match ipc_wwan_tx_flowctrl a id on with
      | Some a' => Some (0, a')
      | None => None
      end
  end.

Fixpoint administer_all (cs : list admin_call) (a : net_admin)
    : option net_admin :=
  match cs with
  | [] => Some a
  | c :: cs' =>
      match administer c a with
      | Some (_, a') => administer_all cs' a'
      | None => None
      end
  end.

(** The root device as [ipc_wwan_init] and [ether_setup] leave it:
    [WWAN_MIN_TXQ + max_sessions] queues, none stopped by the driver. *)
Definition ex_admin (max_sessions : Z) : net_admin :=
  {| ndev := netdev (ex_wwan max_sessions);
     addr_len := ETH_ALEN; mtu := 1500; running := false;
     live_addr_change := false;
     tx_stopped := replicate (Z.to_nat (WWAN_MIN_TXQ + max_sessions)) false |}.

(** ** Further example configurations *)

(** A transport that refuses every channel, and an allocator that hands
    out a zeroed buffer of the size asked for at an odd address. *)
Definition ex_open_fail : list call -> Z -> Z := fun _ _ => -1.

Definition ex_alloc_ok : list call -> Z -> option sk_buff :=
  fun _ size =>
    Some {| head := 8193; buf := replicate (Z.to_nat size) 0; data := 0;
            len := 0; mac_header := 0; protocol := 0;
            vlan_present := false; vlan_tci := 0 |}.

(** The frame of [ex_frame] in a buffer one byte further, so that its
    payload is not aligned. *)
Definition ex_odd_frame (tag ethertype : Z) (payload : list Z) : sk_buff :=
  {| head := 4097;
     buf := buf (ex_frame tag ethertype payload);
     data := 2;
     len := 14 + Z.of_nat (length payload);
     mac_header := 2;
     protocol := ethertype;
     vlan_present := true;
     vlan_tci := tag |}.

(** The root device after the sessions 1 and 2 were added, after the
    control session 257 was added, and a root device whose table could
    not be allocated. *)
Definition ex_two_sessions (max_sessions : Z) : sys :=
  after (ipc_wwan_add_vlan ex_open 2 (ex_one_session max_sessions)).

Definition ex_control_session (max_sessions : Z) : sys :=
  after (ipc_wwan_add_vlan ex_open 257 (ex_sys max_sessions)).

Definition ex_no_table : sys :=
  {| wwan := default (ex_wwan 1)
               (ipc_wwan_init 8 true true false true ex_addr 1);
     trace := [] |}.
(** ** Proof automation *)

(** Runs the first command of a sequence whose outcome [H] gives. *)
Ltac mrun H := unfold bind at 1; rewrite H; cbv beta iota.

(** Settles a closed side condition by evaluation. *)
Ltac by_eval :=
  vm_compute; repeat split; first [reflexivity | discriminate | lia].

(** ** Properties *)

Section Properties.

Variable wwan_open_result : list call -> Z -> Z.
Variable wwan_transmit_result : list call -> Z -> Z -> sk_buff -> Z.
Variable dev_alloc_skb_result : list call -> Z -> option sk_buff.

(** *** Table accesses *)

Lemma vlan_devs_load_ok s l i e :
  vlan_devs (wwan s) = Some l -> 0 <= i -> l !! Z.to_nat i = Some e ->
  vlan_devs_load i s = Done e s.
Proof.
  intros Hl Hi He. unfold vlan_devs_load, bind, get_wwan. rewrite Hl.
  destruct (Z.leb_spec 0 i); [|lia]. by rewrite He.
Qed.

Lemma vlan_devs_load_fault s l i :
  vlan_devs (wwan s) = Some l -> i < 0 \/ Z.of_nat (length l) <= i ->
  vlan_devs_load i s = Fault s (VlanDevsIndex i).
Proof.
  intros Hl Hi. unfold vlan_devs_load, bind, get_wwan. rewrite Hl.
  destruct (Z.leb_spec 0 i); [|done].
  rewrite (lookup_ge_None_2 l (Z.to_nat i)) by lia. done.
Qed.

Lemma vlan_devs_load_inv s i e s' :
  vlan_devs_load i s = Done e s' ->
  s' = s /\ 0 <= i /\
  exists l, vlan_devs (wwan s) = Some l /\ l !! Z.to_nat i = Some e.
Proof.
  unfold vlan_devs_load, bind, get_wwan.
  destruct (vlan_devs (wwan s)) as [l|] eqn:Hl; [|done].
  destruct (Z.leb_spec 0 i); [|done].
  destruct (l !! Z.to_nat i) as [e'|] eqn:He; [|done].
  unfold ret. intros [= -> ->]. eauto.
Qed.

Lemma vlan_devs_store_ok s l i e f :
  vlan_devs (wwan s) = Some l -> 0 <= i -> l !! Z.to_nat i = Some e ->
  vlan_devs_store i f s = Done tt (set_table (<[Z.to_nat i := f e]> l) s).
Proof.
  intros Hl Hi He. unfold vlan_devs_store, bind.
  rewrite (vlan_devs_load_ok s l i e) by done.
  unfold get_wwan. by rewrite Hl.
Qed.

Lemma vlan_devs_store_fault s l i f :
  vlan_devs (wwan s) = Some l -> i < 0 \/ Z.of_nat (length l) <= i ->
  vlan_devs_store i f s = Fault s (VlanDevsIndex i).
Proof.
  intros Hl Hi. unfold vlan_devs_store, bind.
  by rewrite (vlan_devs_load_fault s l i).
Qed.

Lemma vlan_devs_store_inv s i f u s' :
  vlan_devs_store i f s = Done u s' ->
  0 <= i /\
  exists l e, vlan_devs (wwan s) = Some l /\ l !! Z.to_nat i = Some e /\
              s' = set_table (<[Z.to_nat i := f e]> l) s.
Proof.
  unfold vlan_devs_store, bind.
  destruct (vlan_devs_load i s) as [e s1|] eqn:Hload; [|done].
  apply vlan_devs_load_inv in Hload as (-> & Hi & l & Hl & He).
  unfold get_wwan. rewrite Hl. unfold put_wwan. intros [= <- <-]. eauto 6.
Qed.

(** *** Lookup *)

Lemma find_tag_range l i tag :
  find_tag l i tag = - EINVAL \/
  i <= find_tag l i tag < i + Z.of_nat (length l).
Proof.
  revert i. induction l as [|e l IH]; intros i; simpl; [by left|].
  destruct (vlan_id e =? tag); [right; lia|].
  destruct (IH (i + 1)) as [->|?]; [by left | right; lia].
Qed.

Lemma find_tag_none l i tag :
  0 <= i ->
  find_tag l i tag = - EINVAL <-> Forall (fun e => vlan_id e <> tag) l.
Proof.
  revert i. induction l as [|e l IH]; intros i Hi; simpl.
  - split; [constructor | done].
  - destruct (Z.eqb_spec (vlan_id e) tag) as [Heq|Hne].
    + split; [unfold EINVAL; lia | by inversion 1].
    + rewrite IH by lia. split; [by constructor | by inversion 1].
Qed.

Lemma find_tag_found l i tag r :
  0 <= i -> find_tag l i tag = r -> 0 <= r ->
  exists e, l !! Z.to_nat (r - i) = Some e /\ vlan_id e = tag /\ i <= r /\
    forall j e', (j < Z.to_nat (r - i))%nat -> l !! j = Some e' ->
                 vlan_id e' <> tag.
Proof.
  revert i. induction l as [|e l IH]; intros i Hi; simpl.
  - unfold EINVAL. lia.
  - destruct (Z.eqb_spec (vlan_id e) tag) as [Heq|Hne].
    + intros <- _. exists e. replace (i - i) with 0 by lia.
      repeat split; [done | lia | intros j e'; simpl; lia].
    + intros Hr Hr0. destruct (IH (i + 1) ltac:(lia) Hr Hr0)
        as (e0 & He0 & Htag & Hle & Hbefore).
      exists e0. replace (Z.to_nat (r - i)) with (S (Z.to_nat (r - (i + 1)))) by lia.
      repeat split; [done | done | lia |].
      intros [|j] e'; simpl; [by intros _ [= <-] | intros ?; apply Hbefore; lia].
Qed.

Lemma get_vlan_devs_nr_loop_ok s l tag n i :
  vlan_devs (wwan s) = Some l -> 0 <= i ->
  (Z.to_nat i + n <= length l)%nat ->
  get_vlan_devs_nr_loop n i tag s =
  Done (find_tag (take n (drop (Z.to_nat i) l)) i tag) s.
Proof.
  intros Hl. revert i. induction n as [|n IH]; intros i Hi Hn; simpl.
  - done.
  - destruct (lookup_lt_is_Some_2 l (Z.to_nat i)) as [e He]; [lia|].
    unfold bind. rewrite (vlan_devs_load_ok s l i e) by done.
    rewrite (drop_S l e (Z.to_nat i)) by done. simpl.
    destruct (vlan_id e =? tag); [done|].
    rewrite IH by lia. by replace (Z.to_nat (i + 1)) with (S (Z.to_nat i)) by lia.
Qed.

Lemma ipc_wwan_get_vlan_devs_nr_ok s tag :
  table_ok (wwan s) ->
  ipc_wwan_get_vlan_devs_nr tag s =
  Done (find_tag (live_sessions (wwan s)) 0 tag) s.
Proof.
  unfold table_ok, live_sessions, ipc_wwan_get_vlan_devs_nr, bind, get_wwan.
  destruct (vlan_devs (wwan s)) as [l|] eqn:Hl; [|done].
  intros Hnr. rewrite (get_vlan_devs_nr_loop_ok s l) by (done || lia).
  by rewrite drop_0.
Qed.

(** *** Adding a session *)

Lemma add_vlan_rejected s vid :
  512 <= vid \/ vlan_devs (wwan s) = None ->
  ipc_wwan_add_vlan wwan_open_result vid s = Done (- EINVAL) s.
Proof.
  intros H. unfold ipc_wwan_add_vlan, bind, get_wwan.
  destruct (Z.leb_spec 512 vid); [done|].
  destruct H as [?| ->]; [lia | done].
Qed.

Lemma add_vlan_root s l :
  vlan_devs (wwan s) = Some l ->
  ipc_wwan_add_vlan wwan_open_result WWAN_ROOT_VLAN_TAG s = Done 0 s.
Proof.
  intros Hl. unfold ipc_wwan_add_vlan, bind, get_wwan. by rewrite Hl.
Qed.

Lemma add_vlan_open s l vid :
  vlan_devs (wwan s) = Some l -> vid <> 0 -> vid < 512 ->
  ipc_wwan_add_vlan wwan_open_result vid s =
  (do _ <- vlan_devs_store (vlan_devs_nr (wwan s))
             (set_ch_id (wwan_open_result (trace s) vid));
   do e <- vlan_devs_load (vlan_devs_nr (wwan s));
   if ch_id e <? 0 then ret (- ENODEV)
   else
     do _ <- vlan_devs_store (vlan_devs_nr (wwan s)) (set_vlan_id vid);
     do w' <- get_wwan;
     do _ <- put_wwan (with_vlan_devs_nr (vlan_devs_nr w' + 1) w');
     ret 0) (traced (WwanOpen vid) s).
Proof.
  intros Hl H0 H512. unfold ipc_wwan_add_vlan at 1, bind at 1, get_wwan at 1.
  rewrite Hl. destruct (Z.leb_spec 512 vid); [lia|].
  destruct (Z.eqb_spec vid WWAN_ROOT_VLAN_TAG); [done|]. done.
Qed.

Lemma add_vlan_ok s l vid e :
  vlan_devs (wwan s) = Some l -> vid <> 0 -> vid < 512 ->
  0 <= vlan_devs_nr (wwan s) ->
  l !! Z.to_nat (vlan_devs_nr (wwan s)) = Some e ->
  0 <= wwan_open_result (trace s) vid ->
  ipc_wwan_add_vlan wwan_open_result vid s =
  Done 0
    (set_count (vlan_devs_nr (wwan s) + 1)
       (set_table
          (<[Z.to_nat (vlan_devs_nr (wwan s)) :=
               {| vlan_id := vid; ch_id := wwan_open_result (trace s) vid;
                  stats := stats e |}]> l)
          (traced (WwanOpen vid) s))).
Proof.
  intros Hl H0 H512 Hnr He Hc. rewrite (add_vlan_open s l) by done.
  set (c := wwan_open_result (trace s) vid) in *.
  set (nr := vlan_devs_nr (wwan s)) in *.
  assert (Hlt : (Z.to_nat nr < length l)%nat) by by eapply lookup_lt_Some.
  unfold bind.
  rewrite (vlan_devs_store_ok _ l nr e) by done.
  rewrite (vlan_devs_load_ok _ (<[Z.to_nat nr := set_ch_id c e]> l) nr
             (set_ch_id c e)); [|done|done|by apply list_lookup_insert_eq].
  simpl. destruct (Z.ltb_spec c 0); [lia|].
  rewrite (vlan_devs_store_ok _ (<[Z.to_nat nr := set_ch_id c e]> l) nr
             (set_ch_id c e)); [|done|done|by apply list_lookup_insert_eq].
  rewrite list_insert_insert_eq. done.
Qed.

Lemma add_vlan_open_failed s l vid e :
  vlan_devs (wwan s) = Some l -> vid <> 0 -> vid < 512 ->
  0 <= vlan_devs_nr (wwan s) ->
  l !! Z.to_nat (vlan_devs_nr (wwan s)) = Some e ->
  wwan_open_result (trace s) vid < 0 ->
  ipc_wwan_add_vlan wwan_open_result vid s =
  Done (- ENODEV)
    (set_table
       (<[Z.to_nat (vlan_devs_nr (wwan s)) :=
            set_ch_id (wwan_open_result (trace s) vid) e]> l)
       (traced (WwanOpen vid) s)).
Proof.
  intros Hl H0 H512 Hnr He Hc. rewrite (add_vlan_open s l) by done.
  set (c := wwan_open_result (trace s) vid) in *.
  set (nr := vlan_devs_nr (wwan s)) in *.
  assert (Hlt : (Z.to_nat nr < length l)%nat) by by eapply lookup_lt_Some.
  unfold bind.
  rewrite (vlan_devs_store_ok _ l nr e) by done.
  rewrite (vlan_devs_load_ok _ (<[Z.to_nat nr := set_ch_id c e]> l) nr
             (set_ch_id c e)); [|done|done|by apply list_lookup_insert_eq].
  simpl. by destruct (Z.ltb_spec c 0); [|lia].
Qed.

Lemma add_vlan_overrun s l vid :
  vlan_devs (wwan s) = Some l -> vid <> 0 -> vid < 512 ->
  vlan_devs_nr (wwan s) < 0 \/ Z.of_nat (length l) <= vlan_devs_nr (wwan s) ->
  ipc_wwan_add_vlan wwan_open_result vid s =
  Fault (traced (WwanOpen vid) s) (VlanDevsIndex (vlan_devs_nr (wwan s))).
Proof.
  intros Hl H0 H512 Hnr. rewrite (add_vlan_open s l) by done.
  unfold bind. by rewrite (vlan_devs_store_fault _ l).
Qed.

(** *** Removing a session *)

Lemma realign_loop_ok s l n i :
  vlan_devs (wwan s) = Some l -> 0 <= i ->
  (Z.to_nat i + n < length l)%nat ->
  exists l', realign_loop n i s = Done tt (set_table l' s) /\
    length l' = length l /\
    forall j, l' !! j =
      if decide (Z.to_nat i <= j < Z.to_nat i + n)%nat then l !! S j else l !! j.
Proof.
  revert s l i. induction n as [|n IH]; intros s l i Hl Hi Hn; simpl.
  - exists l. split; [|split; [done|]].
    + unfold ret, set_table, with_vlan_devs. destruct s as [w t], w; simpl in *.
      by rewrite Hl.
    + intros j. case_decide; [lia | done].
  - destruct (lookup_lt_is_Some_2 l (S (Z.to_nat i))) as [x Hx]; [lia|].
    destruct (lookup_lt_is_Some_2 l (Z.to_nat i)) as [y Hy]; [lia|].
    unfold bind.
    rewrite (vlan_devs_load_ok s l (i + 1) x); [|done|lia|].
    2:{ by replace (Z.to_nat (i + 1)) with (S (Z.to_nat i)) by lia. }
    rewrite (vlan_devs_store_ok s l i y) by done.
    destruct (IH (set_table (<[Z.to_nat i := x]> l) s)
                (<[Z.to_nat i := x]> l) (i + 1)) as (l' & Hrun & Hlen & Hlook).
    { done. } { lia. } { rewrite length_insert. lia. }
    exists l'. split; [exact Hrun|]. split.
    { by rewrite Hlen, length_insert. }
    intros j. rewrite Hlook.
    replace (Z.to_nat (i + 1)) with (S (Z.to_nat i)) by lia.
    destruct (decide (j = Z.to_nat i)) as [->|Hne].
    + rewrite decide_False by lia. rewrite decide_True by lia.
      rewrite list_lookup_insert_eq by lia. done.
    + case_decide.
      * rewrite decide_True by lia. apply list_lookup_insert_ne. lia.
      * rewrite decide_False by lia. apply list_lookup_insert_ne. lia.
Qed.

Lemma realign_loop_overrun s l n i :
  vlan_devs (wwan s) = Some l -> 0 <= i -> (0 < n)%nat ->
  (length l <= Z.to_nat i + n)%nat ->
  exists s' f, realign_loop n i s = Fault s' f.
Proof.
  revert s l i. induction n as [|n IH]; intros s l i Hl Hi Hpos Hn; [lia|].
  simpl. unfold bind.
  destruct (decide (S (Z.to_nat i) < length l)%nat) as [Hin|Hout].
  - destruct (lookup_lt_is_Some_2 l (S (Z.to_nat i))) as [x Hx]; [lia|].
    destruct (lookup_lt_is_Some_2 l (Z.to_nat i)) as [y Hy]; [lia|].
    rewrite (vlan_devs_load_ok s l (i + 1) x); [|done|lia|].
    2:{ by replace (Z.to_nat (i + 1)) with (S (Z.to_nat i)) by lia. }
    rewrite (vlan_devs_store_ok s l i y) by done.
    apply (IH _ (<[Z.to_nat i := x]> l)); [done|lia|lia|].
    rewrite length_insert. lia.
  - rewrite (vlan_devs_load_fault s l (i + 1)) by (done || lia). eauto.
Qed.

Lemma remove_vlan_not_found s vid :
  table_ok (wwan s) ->
  find_tag (live_sessions (wwan s)) 0 vid < 0 ->
  ipc_wwan_remove_vlan vid s =
  Done (find_tag (live_sessions (wwan s)) 0 vid) s.
Proof.
  intros Hok Hneg. unfold ipc_wwan_remove_vlan, bind.
  rewrite ipc_wwan_get_vlan_devs_nr_ok by done.
  by destruct (Z.ltb_spec (find_tag (live_sessions (wwan s)) 0 vid) 0); [|lia].
Qed.

(** A tag the lookup finds sits in a live slot of the table. *)
Lemma find_tag_live w l tag :
  vlan_devs w = Some l -> table_ok w ->
  0 <= find_tag (live_sessions w) 0 tag ->
  find_tag (live_sessions w) 0 tag < vlan_devs_nr w /\
  exists e, l !! Z.to_nat (find_tag (live_sessions w) 0 tag) = Some e /\
            vlan_id e = tag.
Proof.
  intros Hl Hok Hfound. unfold table_ok, live_sessions in *. rewrite Hl in *.
  set (r := find_tag _ 0 tag) in *.
  destruct (find_tag_found _ 0 tag r ltac:(lia) eq_refl Hfound)
    as (e & He & Htag & _ & _).
  replace (r - 0) with r in He by lia.
  apply lookup_take_Some in He as [He Hlt]. split; [lia | eauto].
Qed.

Lemma remove_vlan_invalid_channel s l vid e :
  vlan_devs (wwan s) = Some l -> table_ok (wwan s) ->
  0 <= find_tag (live_sessions (wwan s)) 0 vid ->
  l !! Z.to_nat (find_tag (live_sessions (wwan s)) 0 vid) = Some e ->
  ch_id e < 0 ->
  ipc_wwan_remove_vlan vid s = Done (- EINVAL) s.
Proof.
  intros Hl Hok Hfound He Hch. unfold ipc_wwan_remove_vlan, bind.
  rewrite ipc_wwan_get_vlan_devs_nr_ok by done.
  destruct (Z.ltb_spec (find_tag (live_sessions (wwan s)) 0 vid) 0); [lia|].
  rewrite (vlan_devs_load_ok s l _ e) by done.
  by destruct (Z.ltb_spec (ch_id e) 0); [|lia].
Qed.

Lemma remove_vlan_ok s l vid e :
  vlan_devs (wwan s) = Some l -> table_ok (wwan s) ->
  vlan_devs_nr (wwan s) < Z.of_nat (length l) ->
  0 <= find_tag (live_sessions (wwan s)) 0 vid ->
  l !! Z.to_nat (find_tag (live_sessions (wwan s)) 0 vid) = Some e ->
  0 <= ch_id e ->
  exists l',
    ipc_wwan_remove_vlan vid s =
    Done 0 (set_count (vlan_devs_nr (wwan s) - 1)
              (set_table l' (traced (WwanClose vid (ch_id e)) s))) /\
    length l' = length l /\
    forall j, l' !! j =
      if decide (Z.to_nat (find_tag (live_sessions (wwan s)) 0 vid) <= j
                 < Z.to_nat (vlan_devs_nr (wwan s)))%nat
      then l !! S j else l !! j.
Proof.
  intros Hl Hok Hroom Hfound He Hch.
  destruct (find_tag_live (wwan s) l vid Hl Hok Hfound) as [Hlt _].
  set (ch_nr := find_tag (live_sessions (wwan s)) 0 vid) in *.
  set (nr := vlan_devs_nr (wwan s)) in *.
  set (l0 := <[Z.to_nat ch_nr := set_ch_id (-1) e]> l).
  destruct (realign_loop_ok
              (set_table l0 (traced (WwanClose vid (ch_id e)) s)) l0
              (Z.to_nat (nr - ch_nr)) ch_nr)
    as (l' & Hrun & Hlen & Hlook).
  { done. } { done. } { unfold l0. rewrite length_insert. lia. }
  exists l'. split; [|split].
  - unfold ipc_wwan_remove_vlan, bind.
    rewrite ipc_wwan_get_vlan_devs_nr_ok by done. fold ch_nr.
    destruct (Z.ltb_spec ch_nr 0); [lia|].
    rewrite (vlan_devs_load_ok s l _ e) by done.
    destruct (Z.ltb_spec (ch_id e) 0); [lia|].
    unfold imem_sys_wwan_close, emit at 1.
    rewrite (vlan_devs_store_ok _ l ch_nr e) by done. fold l0.
    unfold get_wwan at 1. simpl vlan_devs_nr. fold nr.
    fold (traced (WwanClose vid (ch_id e)) s). rewrite Hrun. done.
  - unfold l0 in Hlen. by rewrite length_insert in Hlen.
  - intros j. rewrite Hlook.
    replace (Z.to_nat ch_nr + Z.to_nat (nr - ch_nr))%nat with (Z.to_nat nr) by lia.
    unfold l0. case_decide; apply list_lookup_insert_ne; lia.
Qed.

Lemma remove_vlan_overrun s l vid e :
  vlan_devs (wwan s) = Some l -> table_ok (wwan s) ->
  vlan_devs_nr (wwan s) = Z.of_nat (length l) ->
  0 <= find_tag (live_sessions (wwan s)) 0 vid ->
  l !! Z.to_nat (find_tag (live_sessions (wwan s)) 0 vid) = Some e ->
  0 <= ch_id e ->
  exists s' f, ipc_wwan_remove_vlan vid s = Fault s' f.
Proof.
  intros Hl Hok Hfull Hfound He Hch.
  destruct (find_tag_live (wwan s) l vid Hl Hok Hfound) as [Hlt _].
  set (ch_nr := find_tag (live_sessions (wwan s)) 0 vid) in *.
  set (l0 := <[Z.to_nat ch_nr := set_ch_id (-1) e]> l).
  destruct (realign_loop_overrun
              (set_table l0 (traced (WwanClose vid (ch_id e)) s)) l0
              (Z.to_nat (vlan_devs_nr (wwan s) - ch_nr)) ch_nr)
    as (s' & f & Hrun).
  { done. } { done. } { lia. } { unfold l0. rewrite length_insert. lia. }
  exists s', f. unfold ipc_wwan_remove_vlan, bind.
  rewrite ipc_wwan_get_vlan_devs_nr_ok by done. fold ch_nr.
  destruct (Z.ltb_spec ch_nr 0); [lia|].
  rewrite (vlan_devs_load_ok s l _ e) by done.
  destruct (Z.ltb_spec (ch_id e) 0); [lia|].
  unfold imem_sys_wwan_close, emit at 1.
  rewrite (vlan_devs_store_ok _ l ch_nr e) by done. fold l0.
  unfold get_wwan at 1. simpl vlan_devs_nr.
  fold (traced (WwanClose vid (ch_id e)) s). by rewrite Hrun.
Qed.

Lemma remove_vlan_live s l vid e :
  vlan_devs (wwan s) = Some l -> table_ok (wwan s) ->
  vlan_devs_nr (wwan s) < Z.of_nat (length l) ->
  0 <= find_tag (live_sessions (wwan s)) 0 vid ->
  l !! Z.to_nat (find_tag (live_sessions (wwan s)) 0 vid) = Some e ->
  0 <= ch_id e ->
  exists s',
    ipc_wwan_remove_vlan vid s = Done 0 s' /\
    trace s' = trace s ++ [WwanClose vid (ch_id e)] /\
    vlan_devs_nr (wwan s') = vlan_devs_nr (wwan s) - 1 /\
    table_ok (wwan s') /\
    live_sessions (wwan s') =
    delete (Z.to_nat (find_tag (live_sessions (wwan s)) 0 vid))
           (live_sessions (wwan s)).
Proof.
  intros Hl Hok Hroom Hfound He Hch.
  destruct (remove_vlan_ok s l vid e) as (l' & Hrun & Hlen & Hlook); try done.
  destruct (find_tag_live (wwan s) l vid Hl Hok Hfound) as [Hlt _].
  eexists. split; [exact Hrun|]. split; [done|]. split; [done|].
  unfold table_ok, live_sessions in *. simpl. rewrite Hl in *.
  set (ch_nr := find_tag _ 0 vid) in *.
  set (nr := vlan_devs_nr (wwan s)) in *.
  split; [lia|]. apply list_eq. intros j.
  destruct (decide (j < Z.to_nat (nr - 1))%nat) as [Hj|Hj].
  - rewrite lookup_take_lt by done. rewrite Hlook.
    destruct (decide (j < Z.to_nat ch_nr)%nat).
    + rewrite decide_False by lia. rewrite list_lookup_delete_lt by done.
      by rewrite lookup_take_lt by lia.
    + rewrite decide_True by lia. rewrite list_lookup_delete_ge by lia.
      by rewrite lookup_take_lt by lia.
  - rewrite lookup_take_ge by lia. symmetry. apply lookup_ge_None_2.
    rewrite length_delete.
    + rewrite length_take. lia.
    + apply lookup_lt_is_Some_2. rewrite length_take. lia.
Qed.

(** *** Claims on the session table *)

(** C1 (amended).  [ipc_wwan_add_vlan] has no capacity check of its own:
    for a tag in 1..511, whenever the slot after the live sessions lies
    inside the table (fewer than [max_devs] entries are live, whatever
    [max_ip_devs] is) it calls the transport's open; when open returns a
    channel id >= 0 it returns 0, stores that channel id and the tag in
    the slot [vlan_devs_nr], leaves the other slots alone and increments
    the session count. *)
Theorem add_vlan_stores_session s l vid :
  vlan_devs (wwan s) = Some l ->
  0 < vid < 512 ->
  0 <= vlan_devs_nr (wwan s) < Z.of_nat (length l) ->
  0 <= wwan_open_result (trace s) vid ->
  exists s' l',
    ipc_wwan_add_vlan wwan_open_result vid s = Done 0 s' /\
    trace s' = trace s ++ [WwanOpen vid] /\
    vlan_devs_nr (wwan s') = vlan_devs_nr (wwan s) + 1 /\
    vlan_devs (wwan s') = Some l' /\
    (exists e, l' !! Z.to_nat (vlan_devs_nr (wwan s)) = Some e /\
               vlan_id e = vid /\
               ch_id e = wwan_open_result (trace s) vid) /\
    (forall j, j <> Z.to_nat (vlan_devs_nr (wwan s)) -> l' !! j = l !! j).
Proof.
  intros Hl Hvid Hnr Hc.
  destruct (lookup_lt_is_Some_2 l (Z.to_nat (vlan_devs_nr (wwan s))))
    as [e He]; [lia|].
  eexists _, _. split; [apply (add_vlan_ok s l vid e); (done || lia)|].
  simpl. repeat split.
  - eexists. split; [apply list_lookup_insert_eq; lia | done].
  - intros j Hj. by apply list_lookup_insert_ne.
Qed.

(** C2 (amended).  A tag of 512 or more is rejected with -EINVAL; the
    root tag 0 is accepted with result 0 when the table is allocated
    (and rejected with -EINVAL when it is not).  In both cases the
    state is unchanged: no slot is written, the session count stays and
    the transport's open is not called. *)
Theorem add_vlan_root_or_out_of_range s vid :
  vid = WWAN_ROOT_VLAN_TAG \/ 512 <= vid ->
  ipc_wwan_add_vlan wwan_open_result vid s =
  Done (if (vid <? 512) && bool_decide (is_Some (vlan_devs (wwan s)))
        then 0 else - EINVAL) s.
Proof.
  intros [->|Hbig].
  - destruct (vlan_devs (wwan s)) as [l|] eqn:Hl.
    + by rewrite (add_vlan_root s l).
    + rewrite add_vlan_rejected by auto. done.
  - rewrite add_vlan_rejected by auto.
    by destruct (Z.ltb_spec vid 512); [lia|].
Qed.

(** C7.  Starting from an empty table with room for three entries, for
    distinct tags [t1], [t2] in 1..511 whose channels open, add(t1),
    add(t2), remove(t1) all return 0 and leave exactly one live
    session: [t2], with the channel id open returned for it.  In
    general a successful remove deletes the entry of its tag from the
    sequence of live sessions, so the later ones move down by one in
    their order, and decrements the session count. *)
Theorem add_add_remove_keeps_second :
  (forall s l t1 t2,
     vlan_devs (wwan s) = Some l -> vlan_devs_nr (wwan s) = 0 ->
     (3 <= length l)%nat ->
     0 < t1 < 512 -> 0 < t2 < 512 -> t1 <> t2 ->
     0 <= wwan_open_result (trace s) t1 ->
     0 <= wwan_open_result (trace s ++ [WwanOpen t1]) t2 ->
     exists s' e,
       (do r1 <- ipc_wwan_add_vlan wwan_open_result t1;
        do r2 <- ipc_wwan_add_vlan wwan_open_result t2;
        do r3 <- ipc_wwan_remove_vlan t1;
        ret (r1, r2, r3)) s = Done (0, 0, 0) s' /\
       vlan_devs_nr (wwan s') = 1 /\
       live_sessions (wwan s') = [e] /\
       vlan_id e = t2 /\
       ch_id e = wwan_open_result (trace s ++ [WwanOpen t1]) t2) /\
  (forall s l vid i e,
     vlan_devs (wwan s) = Some l -> table_ok (wwan s) ->
     vlan_devs_nr (wwan s) < Z.of_nat (length l) ->
     live_sessions (wwan s) !! i = Some e -> vlan_id e = vid ->
     (forall j e', (j < i)%nat -> live_sessions (wwan s) !! j = Some e' ->
                   vlan_id e' <> vid) ->
     0 <= ch_id e ->
     exists s',
       ipc_wwan_remove_vlan vid s = Done 0 s' /\
       vlan_devs_nr (wwan s') = vlan_devs_nr (wwan s) - 1 /\
       live_sessions (wwan s') = delete i (live_sessions (wwan s))).
Proof.
  split.
  - intros s l t1 t2 Hl Hnr Hlen Ht1 Ht2 Hne Hc1 Hc2.
    set (c1 := wwan_open_result (trace s) t1) in *.
    set (c2 := wwan_open_result (trace s ++ [WwanOpen t1]) t2) in *.
    destruct l as [|e0 [|e1 [|e2 l]]]; simpl in Hlen; try lia.
    unfold bind at 1.
    rewrite (add_vlan_ok s (e0 :: e1 :: e2 :: l) t1 e0);
      [|done|lia|lia|lia|by rewrite Hnr|done].
    rewrite Hnr. simpl (<[_ := _]> _). fold c1.
    set (x1 := {| vlan_id := t1; ch_id := c1; stats := stats e0 |}).
    set (x2 := {| vlan_id := t2; ch_id := c2; stats := stats e1 |}).
    set (s1 := set_count _ _).
    unfold bind at 1.
    rewrite (add_vlan_ok s1 (x1 :: e1 :: e2 :: l) t2 e1);
      [|done|lia|lia|done|done|done].
    simpl (<[_ := _]> _). simpl (vlan_devs_nr _ + 1). simpl (trace s1). fold c2 x2.
    set (s2 := set_count _ _).
    assert (Hfind : find_tag (live_sessions (wwan s2)) 0 t1 = 0).
    { simpl. by rewrite Z.eqb_refl. }
    destruct (remove_vlan_live s2 (x1 :: x2 :: e2 :: l) t1 x1 eq_refl)
      as (s' & Hrun & _ & Hcount & _ & Hlive).
    { unfold table_ok. simpl. lia. }
    { simpl. lia. }
    { rewrite Hfind. lia. }
    { by rewrite Hfind. }
    { done. }
    unfold bind. rewrite Hrun. rewrite Hfind in Hlive. simpl in Hlive.
    exists s', x2.
    repeat split; done.
  - intros s l vid i e Hl Hok Hroom Hi Hvid Hfirst Hch.
    assert (Hfind : find_tag (live_sessions (wwan s)) 0 vid = Z.of_nat i).
    { destruct (find_tag_range (live_sessions (wwan s)) 0 vid) as [Hnone|Hr].
      - apply find_tag_none in Hnone; [|lia].
        rewrite Forall_lookup in Hnone. by destruct (Hnone i e Hi).
      - set (r := find_tag (live_sessions (wwan s)) 0 vid) in *.
        destruct (find_tag_found (live_sessions (wwan s)) 0 vid r)
          as (e' & He' & Htag & _ & Hbefore); [lia|done|lia|].
        rewrite Z.sub_0_r in He', Hbefore.
        destruct (Nat.lt_trichotomy (Z.to_nat r) i) as [Hlt|[Heq|Hgt]].
        + by destruct (Hfirst _ _ Hlt He').
        + lia.
        + by destruct (Hbefore _ _ Hgt Hi). }
    assert (He : l !! i = Some e).
    { unfold live_sessions in Hi. rewrite Hl in Hi.
      by apply lookup_take_Some in Hi as [? _]. }
    destruct (remove_vlan_live s l vid e) as (s' & Hrun & _ & Hcount & _ & Hlive);
      try done.
    { rewrite Hfind. lia. }
    { by rewrite Hfind, Nat2Z.id. }
    rewrite Hfind, Nat2Z.id in Hlive. eauto.
Qed.

(** C9.  Adding and removing sessions preserve the invariant that the
    session count lies within the table and each of the first
    [vlan_devs_nr] entries has a channel id >= 0. *)
Theorem live_channels_stay_valid s vid r s' :
  wwan_inv (wwan s) ->
  ipc_wwan_add_vlan wwan_open_result vid s = Done r s' \/
  ipc_wwan_remove_vlan vid s = Done r s' ->
  wwan_inv (wwan s').
Proof.
  intros [Hok Hlive] [Hadd|Hrem].
  - destruct (vlan_devs (wwan s)) as [l|] eqn:Hl.
    2:{ rewrite add_vlan_rejected in Hadd by auto. by injection Hadd as <- <-. }
    destruct (decide (512 <= vid)).
    { rewrite add_vlan_rejected in Hadd by auto. by injection Hadd as <- <-. }
    destruct (decide (vid = WWAN_ROOT_VLAN_TAG)) as [->|Hvid].
    { rewrite (add_vlan_root s l) in Hadd by done. by injection Hadd as <- <-. }
    pose proof Hok as Hnr. unfold table_ok in Hnr. rewrite Hl in Hnr.
    destruct (decide (vlan_devs_nr (wwan s) < Z.of_nat (length l))) as [Hroom|Hfull].
    2:{ rewrite (add_vlan_overrun s l) in Hadd by (done || lia). done. }
    destruct (lookup_lt_is_Some_2 l (Z.to_nat (vlan_devs_nr (wwan s))))
      as [e He]; [lia|].
    unfold wwan_inv, table_ok, live_channels_valid, live_sessions in *.
    rewrite Hl in Hlive.
    destruct (decide (0 <= wwan_open_result (trace s) vid)) as [Hc|Hc].
    + rewrite (add_vlan_ok s l vid e) in Hadd by (done || lia).
      injection Hadd as <- <-. simpl. rewrite length_insert. split; [lia|].
      replace (Z.to_nat (vlan_devs_nr (wwan s) + 1))
        with (S (Z.to_nat (vlan_devs_nr (wwan s)))) by lia.
      erewrite take_S_r by (apply list_lookup_insert_eq; lia).
      rewrite take_insert_ge by lia. apply Forall_app. split; [done|].
      by repeat constructor.
    + rewrite (add_vlan_open_failed s l vid e) in Hadd by (done || lia).
      injection Hadd as <- <-. simpl. rewrite length_insert. split; [lia|].
      by rewrite take_insert_ge by lia.
  - destruct (decide (find_tag (live_sessions (wwan s)) 0 vid < 0)) as [Hnone|Hfound].
    { rewrite remove_vlan_not_found in Hrem by done. by injection Hrem as <- <-. }
    destruct (vlan_devs (wwan s)) as [l|] eqn:Hl.
    2:{ unfold live_sessions in Hfound. rewrite Hl in Hfound. simpl in Hfound.
        unfold EINVAL in Hfound. lia. }
    destruct (find_tag_live (wwan s) l vid Hl Hok) as (Hlt & e & He & _); [lia|].
    destruct (decide (ch_id e < 0)).
    { rewrite (remove_vlan_invalid_channel s l vid e) in Hrem by (done || lia).
      by injection Hrem as <- <-. }
    pose proof Hok as Hnr. unfold table_ok in Hnr. rewrite Hl in Hnr.
    destruct (decide (vlan_devs_nr (wwan s) < Z.of_nat (length l))) as [Hroom|Hfull].
    + destruct (remove_vlan_live s l vid e)
        as (s1 & Hrun & _ & _ & Hok1 & Hlive1); try (done || lia).
      rewrite Hrun in Hrem. injection Hrem as <- <-.
      split; [done|]. unfold live_channels_valid. rewrite Hlive1.
      by apply Forall_delete.
    + destruct (remove_vlan_overrun s l vid e) as (s1 & f & Hrun);
        try (done || lia).
      by rewrite Hrun in Hrem.
Qed.

(** C10.  When no live session carries the tag derived from [id],
    [ipc_wwan_update_stats] returns without changing the state: every
    per-session counter and every counter of the root device keeps its
    value. *)
Theorem update_stats_unknown_session s id n tx :
  table_ok (wwan s) ->
  Forall (fun e => vlan_id e <> ipc_wwan_mux_session_to_vlan_tag id)
         (live_sessions (wwan s)) ->
  ipc_wwan_update_stats id n tx s = Done tt s.
Proof.
  intros Hok Hnone. unfold ipc_wwan_update_stats, bind.
  rewrite ipc_wwan_get_vlan_devs_nr_ok by done.
  apply (find_tag_none _ 0) in Hnone; [|lia]. rewrite Hnone. done.
Qed.

(** *** Transmit path *)

Lemma skb_load_inv skb off b s s' :
  skb_load skb off s = Done b s' ->
  s' = s /\ 0 <= off /\ buf skb !! Z.to_nat off = Some b.
Proof.
  unfold skb_load. destruct (Z.leb_spec 0 off); [|done].
  destruct (buf skb !! Z.to_nat off) eqn:Hb; [|done].
  unfold ret. by intros [= <- <-].
Qed.

Lemma skb_load_ok skb off b s :
  0 <= off -> buf skb !! Z.to_nat off = Some b ->
  skb_load skb off s = Done b s.
Proof.
  intros Hoff Hb. unfold skb_load. destruct (Z.leb_spec 0 off); [|lia].
  by rewrite Hb.
Qed.

Lemma skb_load_be16_inv skb off v s s' :
  skb_load_be16 skb off s = Done v s' ->
  s' = s /\ 0 <= off /\
  exists hi lo, buf skb !! Z.to_nat off = Some hi /\
                buf skb !! Z.to_nat (off + 1) = Some lo /\ v = hi * 256 + lo.
Proof.
  unfold skb_load_be16, bind.
  destruct (skb_load skb off s) as [hi s1|] eqn:Hhi; [|done].
  apply skb_load_inv in Hhi as (-> & Hoff & Hhi).
  destruct (skb_load skb (off + 1) s) as [lo s1|] eqn:Hlo; [|done].
  apply skb_load_inv in Hlo as (-> & _ & Hlo).
  unfold ret. intros [= <- <-]. eauto 8.
Qed.

(** The header offset [ipc_wwan_pull_header] reads the protocol from,
    and the header length it strips. *)
Lemma pull_header_inv skb b s hs oip skb' s' :
  ipc_wwan_pull_header skb (Some b) s = Done (hs, oip, skb') s' ->
  0 < hs ->
  s' = s /\
  hs = (if protocol skb =? ETH_P_8021Q then VLAN_ETH_HLEN else ETH_HLEN) /\
  hs <= len skb /\
  skb' = with_data_len (data skb + hs) (len skb - hs) skb /\
  exists proto,
    skb_load_be16 skb
      (mac_header skb + (if protocol skb =? ETH_P_8021Q then 16 else 12)) s
    = Done proto s /\
    oip = Some ((proto =? ETH_P_IP) || (proto =? ETH_P_IPV6)).
Proof.
  unfold ipc_wwan_pull_header, bind at 1. intros Hrun Hhs.
  destruct (protocol skb =? ETH_P_8021Q).
  - unfold bind at 1 in Hrun.
    destruct (skb_load_be16 skb (mac_header skb + 16) s) as [proto s1|] eqn:Hp;
      [|done].
    pose proof Hp as Hp'. apply skb_load_be16_inv in Hp' as (-> & _).
    unfold ret at 1 in Hrun. simpl in Hrun.
    destruct (Z.ltb_spec (len skb) VLAN_ETH_HLEN).
    { simpl in Hrun. unfold ret in Hrun. injection Hrun as <- _ _ _. lia. }
    change (0 <? VLAN_ETH_HLEN) with true in Hrun. simpl in Hrun.
    unfold skb_pull in Hrun.
    destruct (Z.ltb_spec (len skb) VLAN_ETH_HLEN); [lia|].
    destruct (_ =? 0) in Hrun; unfold ret in Hrun;
      injection Hrun as <- <- <- <-; [lia|].
    repeat split; [lia | eauto].
  - unfold bind at 1 in Hrun.
    destruct (skb_load_be16 skb (mac_header skb + 12) s) as [proto s1|] eqn:Hp;
      [|done].
    pose proof Hp as Hp'. apply skb_load_be16_inv in Hp' as (-> & _).
    unfold ret at 1 in Hrun. simpl in Hrun.
    destruct (Z.ltb_spec (len skb) ETH_HLEN).
    { simpl in Hrun. unfold ret in Hrun. injection Hrun as <- _ _ _. lia. }
    change (0 <? ETH_HLEN) with true in Hrun. simpl in Hrun.
    unfold skb_pull in Hrun.
    destruct (Z.ltb_spec (len skb) ETH_HLEN); [lia|].
    destruct (_ =? 0) in Hrun; unfold ret in Hrun;
      injection Hrun as <- <- <- <-; [lia|].
    repeat split; [lia | eauto].
Qed.

Lemma transmit_classified s skb tag hs is_ip skb' idx e :
  snd (vlan_get_tag skb) = tag -> tag <> WWAN_ROOT_VLAN_TAG ->
  ipc_wwan_pull_header skb (Some false) s = Done (hs, Some is_ip, skb') s ->
  hs <> 0 ->
  resolved s tag idx e ->
  ipc_wwan_transmit wwan_transmit_result dev_alloc_skb_result skb s =
  (if class_mismatch tag is_ip then transmit_exit (Some skb') (- EXDEV)
   else if tag <? 256 then
     transmit_send wwan_transmit_result tag idx hs skb'
   else
     do a <- ipc_wwan_skb_align dev_alloc_skb_result skb';
     match a with
     | None => transmit_exit None (- EINVAL)
     | Some skb'' => transmit_send wwan_transmit_result tag idx hs skb''
     end) s.
Proof.
  intros Htag Hroot Hpull Hhs (Hidx & Hrange & Hload & Hch).
  unfold ipc_wwan_transmit. rewrite Htag.
  destruct (Z.eqb_spec tag WWAN_ROOT_VLAN_TAG); [done|].
  unfold bind at 1. rewrite Hpull. simpl.
  destruct (Z.eqb_spec hs 0); [done|].
  unfold bind at 1. rewrite Hidx.
  unfold bind at 1, get_wwan at 1.
  destruct (Z.ltb_spec idx 0); [lia|].
  destruct (Z.leb_spec (max_devs (wwan s)) idx); [lia|]. simpl.
  unfold bind at 1 2. rewrite Hload. unfold ret at 1.
  destruct (Z.ltb_spec (ch_id e) 0); [lia|].
  unfold class_mismatch.
  destruct (Z.ltb_spec 0 tag), (Z.ltb_spec tag 256), (Z.ltb_spec 256 tag),
    (Z.ltb_spec tag 512), is_ip; simpl; try done; lia.
Qed.

Lemma transmit_exit_spec skb r s :
  transmit_exit skb r s = Done r (traced (KfreeSkb skb) s).
Proof. done. Qed.

Lemma transmit_send_codes tag idx hs skb s r s' :
  transmit_send wwan_transmit_result tag idx hs skb s = Done r s' ->
  r = NETDEV_TX_OK \/ r = NETDEV_TX_BUSY \/ r = - EIO.
Proof.
  unfold transmit_send, bind at 1.
  destruct (vlan_devs_load idx s) as [e s1|]; [|done].
  unfold bind at 1, imem_sys_wwan_transmit, bind, get_trace, emit, ret.
  set (r0 := wwan_transmit_result _ _ _ _).
  destruct (r0 =? 0); [intros [= <- _]; auto|].
  destruct (r0 =? -2).
  - unfold skb_push. destruct (Z.ltb _ 0); [done|].
    unfold ret. destruct (Z.eqb _ 0); [|intros [= <- _]; auto].
    rewrite transmit_exit_spec. intros [= <- _]; auto.
  - rewrite transmit_exit_spec. intros [= <- _]; auto.
Qed.

(** *** Claims on the transmit path *)

(** C3 (amended).  A frame whose tag is the root-device tag 0 is freed
    without being handed to the transport: the only call made is the
    free of the frame.  The result is the initial value of [ret],
    -EINVAL. *)
Theorem transmit_root_tag_dropped s skb :
  snd (vlan_get_tag skb) = WWAN_ROOT_VLAN_TAG ->
  ipc_wwan_transmit wwan_transmit_result dev_alloc_skb_result skb s =
  Done (- EINVAL) (traced (KfreeSkb (Some skb)) s).
Proof.
  intros Htag. unfold ipc_wwan_transmit. by rewrite Htag.
Qed.

(** C4 (amended).  When [ipc_wwan_pull_header] strips a header, it
    records the frame as IP exactly when the protocol field of that
    header (the encapsulated protocol of a VLAN header) is ETH_P_IP or
    ETH_P_IPV6; the payload is not inspected.  For a frame on a resolved
    session, [ipc_wwan_transmit] answers -EXDEV exactly when this
    recorded class disagrees with the class of the tag (a tag outside
    1..255 and 257..511 agrees with neither class). *)
Theorem transmit_classifies_by_header_protocol :
  (forall skb b s hs oip skb' s',
     ipc_wwan_pull_header skb (Some b) s = Done (hs, oip, skb') s' ->
     0 < hs ->
     exists proto,
       skb_load_be16 skb
         (mac_header skb + (if protocol skb =? ETH_P_8021Q then 16 else 12)) s
       = Done proto s /\
       oip = Some ((proto =? ETH_P_IP) || (proto =? ETH_P_IPV6))) /\
  (forall s skb tag hs is_ip skb' idx e r s',
     snd (vlan_get_tag skb) = tag -> tag <> WWAN_ROOT_VLAN_TAG ->
     ipc_wwan_pull_header skb (Some false) s = Done (hs, Some is_ip, skb') s ->
     hs <> 0 ->
     resolved s tag idx e ->
     ipc_wwan_transmit wwan_transmit_result dev_alloc_skb_result skb s
     = Done r s' ->
     r = - EXDEV <-> class_mismatch tag is_ip = true).
Proof.
  split.
  - intros skb b s hs oip skb' s' Hpull Hhs.
    by apply pull_header_inv in Hpull as (_ & _ & _ & _ & Hproto).
  - intros s skb tag hs is_ip skb' idx e r s' Htag Hroot Hpull Hhs Hres.
    rewrite (transmit_classified s skb tag hs is_ip skb' idx e) by done.
    destruct (class_mismatch tag is_ip).
    { rewrite transmit_exit_spec. by intros [= <- _]. }
    intros Hrun. split; [|done]. intros ->.
    destruct (tag <? 256).
    + apply transmit_send_codes in Hrun.
      unfold NETDEV_TX_OK, NETDEV_TX_BUSY, EIO, EXDEV in Hrun. lia.
    + unfold bind in Hrun.
      destruct (ipc_wwan_skb_align _ _ _) as [[skb''|] s1|]; [| |done].
      * apply transmit_send_codes in Hrun.
        unfold NETDEV_TX_OK, NETDEV_TX_BUSY, EIO, EXDEV in Hrun. lia.
      * rewrite transmit_exit_spec in Hrun. by injection Hrun.
Qed.

(** C5.  A frame on a resolved session whose tag lies in 1..255 and
    whose payload was classified non-IP, or whose tag lies in 257..511
    and whose payload was classified IP, is answered with -EXDEV; the
    stripped frame is freed and nothing is handed to the transport. *)
Theorem transmit_protocol_mismatch s skb tag hs is_ip skb' idx e :
  snd (vlan_get_tag skb) = tag ->
  ipc_wwan_pull_header skb (Some false) s = Done (hs, Some is_ip, skb') s ->
  hs <> 0 ->
  resolved s tag idx e ->
  (1 <= tag <= 255 /\ is_ip = false) \/ (257 <= tag <= 511 /\ is_ip = true) ->
  ipc_wwan_transmit wwan_transmit_result dev_alloc_skb_result skb s =
  Done (- EXDEV) (traced (KfreeSkb (Some skb')) s).
Proof.
  intros Htag Hpull Hhs Hres Hclass.
  rewrite (transmit_classified s skb tag hs is_ip skb' idx e);
    [|done|unfold WWAN_ROOT_VLAN_TAG; lia|done|done|done].
  assert (class_mismatch tag is_ip = true) as ->; [|done].
  unfold class_mismatch.
  destruct Hclass as [[Ht ->]|[Ht ->]].
  - destruct (Z.ltb_spec 0 tag), (Z.ltb_spec tag 256); try lia. done.
  - destruct (Z.ltb_spec 0 tag), (Z.ltb_spec tag 256), (Z.ltb_spec 256 tag),
      (Z.ltb_spec tag 512); try lia; done.
Qed.

(** C6.  In the data model of the specification the IP-data sessions
    are the tags 1..255, so that [max_ip_devs] is at most 255; the
    bound used here is [max_ip_devs <= 256].  There
    [ipc_wwan_select_queue] is a function of the tag of the frame alone,
    for a given [max_ip_devs]: any frame with the same tag, on any root
    device with the same [max_ip_devs], whatever its table and counters,
    gets the same queue.  A tag T in 1..255 gets queue T when
    T <= max_ip_devs and the invalid queue 0xFFFF otherwise.  A tag T in
    257..511 and the tag 0 (an untagged frame included) get queue 0. *)
Theorem select_queue_by_tag w skb T :
  max_ip_devs w <= 256 ->
  snd (vlan_get_tag skb) = T ->
  (1 <= T <= 255 ->
   ipc_wwan_select_queue w skb = if T <=? max_ip_devs w then T else 65535) /\
  (257 <= T <= 511 -> ipc_wwan_select_queue w skb = 0) /\
  (T = 0 -> ipc_wwan_select_queue w skb = 0) /\
  (forall w' skb',
     max_ip_devs w' = max_ip_devs w -> snd (vlan_get_tag skb') = T ->
     ipc_wwan_select_queue w' skb' = ipc_wwan_select_queue w skb).
Proof.
  intros Hmax.
  assert (Hfun : forall w0 skb0,
    ipc_wwan_select_queue w0 skb0 =
    let t := snd (vlan_get_tag skb0) in
    if (1 <=? t) && (t <=? max_ip_devs w0) then t
    else if ((257 <=? t) && (t <=? 512)) || (t =? 0) then 0 else 65535).
  { intros w0 skb0. unfold ipc_wwan_select_queue, vlan_get_tag.
    by destruct (vlan_present skb0). }
  intros <-. rewrite Hfun. cbv zeta. split_and!.
  - intros HT.
    destruct (Z.leb_spec 1 (snd (vlan_get_tag skb))); [|lia].
    destruct (Z.leb_spec (snd (vlan_get_tag skb)) (max_ip_devs w)); simpl;
      [done|].
    destruct (Z.leb_spec 257 (snd (vlan_get_tag skb))); [lia|].
    by destruct (Z.eqb_spec (snd (vlan_get_tag skb)) 0); [lia|].
  - intros HT.
    destruct (Z.leb_spec (snd (vlan_get_tag skb)) (max_ip_devs w)); [lia|].
    rewrite andb_false_r.
    destruct (Z.leb_spec 257 (snd (vlan_get_tag skb))); [|lia].
    by destruct (Z.leb_spec (snd (vlan_get_tag skb)) 512); [|lia].
  - by intros ->.
  - intros w' skb' Hsame Htag. by rewrite Hfun, Htag, Hsame.
Qed.

(** *** Receive path *)

Lemma skb_store_ok skb off b s :
  0 <= off < Z.of_nat (length (buf skb)) ->
  skb_store skb off b s = Done (poke off b skb) s.
Proof.
  intros Hoff. unfold skb_store, bind.
  destruct (lookup_lt_is_Some_2 (buf skb) (Z.to_nat off)) as [x Hx]; [lia|].
  by rewrite (skb_load_ok skb off x) by (done || lia).
Qed.

Lemma header_rewritten_refl skb : header_rewritten skb skb.
Proof. by repeat split. Qed.

Lemma header_rewritten_poke skb0 skb off b :
  header_rewritten skb0 skb ->
  0 <= data skb0 <= off -> off < data skb0 + ETH_HLEN ->
  header_rewritten skb0 (poke off b skb).
Proof.
  intros (? & ? & ? & ? & ? & ? & ? & Hlen & Hother) Hlo Hhi.
  repeat split; simpl; try done.
  - by rewrite length_insert.
  - intros j Hj. rewrite list_lookup_insert_ne by lia. by apply Hother.
Qed.

Lemma skb_store_header skb0 skb off b s :
  header_rewritten skb0 skb ->
  0 <= data skb0 <= off -> off < data skb0 + ETH_HLEN ->
  data skb0 + ETH_HLEN <= Z.of_nat (length (buf skb0)) ->
  skb_store skb off b s = Done (poke off b skb) s /\
  header_rewritten skb0 (poke off b skb).
Proof.
  intros Hrw Hlo Hhi Hin. split; [|by apply header_rewritten_poke].
  apply skb_store_ok. destruct Hrw as (_ & _ & _ & _ & _ & _ & _ & -> & _). lia.
Qed.

Lemma ether_addr_copy_header skb0 skb off addr s :
  header_rewritten skb0 skb ->
  0 <= data skb0 <= off -> off + ETH_ALEN <= data skb0 + ETH_HLEN ->
  data skb0 + ETH_HLEN <= Z.of_nat (length (buf skb0)) ->
  exists skb', ether_addr_copy skb off addr s = Done skb' s /\
               header_rewritten skb0 skb'.
Proof.
  unfold ETH_ALEN. intros Hrw Hlo Hhi Hin. unfold ether_addr_copy.
  destruct (skb_store_header skb0 skb off (addr !!! 0%nat) s)
    as [H0 Hrw0]; [done|lia|lia|done|].
  mrun H0.
  destruct (skb_store_header skb0 _ (off + 1) (addr !!! 1%nat) s Hrw0)
    as [H1 Hrw1]; [lia|lia|done|].
  mrun H1.
  destruct (skb_store_header skb0 _ (off + 2) (addr !!! 2%nat) s Hrw1)
    as [H2 Hrw2]; [lia|lia|done|].
  mrun H2.
  destruct (skb_store_header skb0 _ (off + 3) (addr !!! 3%nat) s Hrw2)
    as [H3 Hrw3]; [lia|lia|done|].
  mrun H3.
  destruct (skb_store_header skb0 _ (off + 4) (addr !!! 4%nat) s Hrw3)
    as [H4 Hrw4]; [lia|lia|done|].
  mrun H4.
  destruct (skb_store_header skb0 _ (off + 5) (addr !!! 5%nat) s Hrw4)
    as [H5 Hrw5]; [lia|lia|done|].
  rewrite H5. eauto.
Qed.

Lemma skb_store_be16_header skb0 skb v s :
  header_rewritten skb0 skb ->
  0 <= data skb0 ->
  data skb0 + ETH_HLEN <= Z.of_nat (length (buf skb0)) ->
  exists skb', skb_store_be16 skb (data skb0 + 12) v s = Done skb' s /\
               header_rewritten skb0 skb' /\
               buf skb' !! Z.to_nat (data skb0 + 12) = Some (v / 256) /\
               buf skb' !! Z.to_nat (data skb0 + 13) = Some (v mod 256).
Proof.
  intros Hrw Hlo Hin. unfold skb_store_be16.
  destruct (skb_store_header skb0 skb (data skb0 + 12) (v / 256) s Hrw)
    as [H0 Hrw0]; [lia|unfold ETH_HLEN; lia|done|].
  mrun H0.
  destruct (skb_store_header skb0 _ (data skb0 + 12 + 1) (v mod 256) s Hrw0)
    as [H1 Hrw1]; [lia|unfold ETH_HLEN; lia|done|].
  rewrite H1.
  eexists. split; [done|]. split; [done|].
  pose proof Hrw as (_ & _ & _ & _ & _ & _ & _ & Hlen & _).
  unfold ETH_HLEN in Hin. simpl. split.
  - rewrite list_lookup_insert_ne by lia. apply list_lookup_insert_eq. lia.
  - replace (data skb0 + 12 + 1) with (data skb0 + 13) by lia.
    apply list_lookup_insert_eq. rewrite length_insert. lia.
Qed.

Lemma eth_type_trans_ok skb s :
  skb_ok skb -> ETH_HLEN < len skb ->
  exists p,
    eth_type_trans skb s =
    Done (p, with_data_len (data skb + ETH_HLEN) (len skb - ETH_HLEN)
               (with_mac_header (data skb) skb)) s.
Proof.
  unfold skb_ok, ETH_HLEN. intros (Hdata & Hlen & Hbuf) Hhdr.
  unfold eth_type_trans, skb_pull, ETH_HLEN. simpl.
  destruct (Z.ltb_spec (len skb) 14); [lia|]. simpl.
  destruct (lookup_lt_is_Some_2 (buf skb) (Z.to_nat (data skb + 12)))
    as [hi Hhi]; [lia|].
  destruct (lookup_lt_is_Some_2 (buf skb) (Z.to_nat (data skb + 12 + 1)))
    as [lo Hlo]; [lia|].
  unfold bind at 1, skb_load_be16, bind.
  rewrite (skb_load_ok _ (data skb + 12) hi) by (done || lia).
  rewrite (skb_load_ok _ (data skb + 12 + 1) lo) by (done || lia).
  unfold ret at 1.
  destruct (ETH_P_802_3_MIN <=? hi * 256 + lo); [by eexists|].
  destruct (Z.leb_spec 2 (len skb - 14)); [|by eexists].
  destruct (lookup_lt_is_Some_2 (buf skb) (Z.to_nat (data skb + 14)))
    as [s0 Hs0]; [lia|].
  destruct (lookup_lt_is_Some_2 (buf skb) (Z.to_nat (data skb + 14 + 1)))
    as [s1 Hs1]; [lia|].
  rewrite (skb_load_ok _ (data skb + 14) s0) by (done || lia).
  rewrite (skb_load_ok _ (data skb + 14 + 1) s1) by (done || lia).
  unfold ret at 1. destruct (_ =? 65535); by eexists.
Qed.

Lemma update_stats_total s id n tx :
  table_ok (wwan s) ->
  exists s', ipc_wwan_update_stats id n tx s = Done tt s' /\
             trace s' = trace s.
Proof.
  intros Hok. unfold ipc_wwan_update_stats, bind at 1.
  rewrite ipc_wwan_get_vlan_devs_nr_ok by done.
  set (idx := find_tag _ 0 _). unfold bind at 1, get_wwan at 1.
  destruct (Z.ltb_spec idx 0); [by eexists|].
  destruct (Z.leb_spec (max_devs (wwan s)) idx); [by eexists|]. simpl.
  destruct (vlan_devs (wwan s)) as [l|] eqn:Hl.
  2:{ unfold idx, live_sessions in *. rewrite Hl in *. simpl in *.
      unfold EINVAL in *. lia. }
  destruct (find_tag_live (wwan s) l (ipc_wwan_mux_session_to_vlan_tag id) Hl Hok)
    as (_ & e & He & _); [done|]. fold idx in He.
  destruct tx; unfold bind; rewrite (vlan_devs_store_ok s l idx e) by done;
    by eexists.
Qed.

Lemma nibble_test b :
  0 <= b < 256 -> Z.land b 240 = 16 * first_nibble b.
Proof.
  intros Hb. unfold first_nibble.
  assert (Hall : forallb (fun n => Z.land (Z.of_nat n) 240 =?
                                   16 * Z.shiftr (Z.of_nat n) 4)
                   (seq 0 256) = true) by (vm_compute; reflexivity).
  rewrite forallb_forall in Hall.
  specialize (Hall (Z.to_nat b)). rewrite Z2Nat.id in Hall by lia.
  apply Z.eqb_eq, Hall, in_seq. lia.
Qed.

(** *** Claims on the receive path *)

(** C8.  For a frame with its header and a first payload byte [b] in
    the buffer, [ipc_wwan_receive] returns 0 and delivers a frame whose
    ethertype is ETH_P_802_3 when [dss] is set, whatever [b] is; when
    [dss] is clear it is ETH_P_IP if the first nibble of [b] is 4,
    ETH_P_IPV6 if it is 6, and ETH_P_802_3 otherwise. *)
Theorem receive_sets_ethertype s skb dss b :
  skb_data_ptr skb <> 0 -> skb_ok skb -> ETH_HLEN < len skb ->
  table_ok (wwan s) ->
  buf skb !! Z.to_nat (data skb + ETH_HLEN) = Some b -> 0 <= b < 256 ->
  exists s' skb',
    ipc_wwan_receive skb dss s = Done 0 s' /\
    trace s' = trace s ++ [NetifRx skb'] /\
    frame_h_proto skb' =
    Some (if dss then ETH_P_802_3
          else if first_nibble b =? 4 then ETH_P_IP
          else if first_nibble b =? 6 then ETH_P_IPV6
          else ETH_P_802_3).
Proof.
  intros Hptr Hskb Hhdr Hok Hb Hbyte.
  pose proof Hskb as (Hdata & Hlen & Hbuf).
  assert (Hin : data skb + ETH_HLEN <= Z.of_nat (length (buf skb))) by lia.
  unfold ipc_wwan_receive.
  destruct (Z.eqb_spec (skb_data_ptr skb) 0); [done|].
  unfold bind at 1, get_wwan at 1. cbv beta iota.
  destruct (ether_addr_copy_header skb skb (data skb)
              (dev_addr (netdev (wwan s))) s (header_rewritten_refl skb))
    as (skb1 & H1 & Hrw1); [lia|unfold ETH_ALEN, ETH_HLEN; lia|done|].
  mrun H1.
  destruct (ether_addr_copy_header skb skb1 (data skb + ETH_ALEN)
              (dev_addr (netdev (wwan s))) s Hrw1)
    as (skb2 & H2 & Hrw2);
    [unfold ETH_ALEN; lia|unfold ETH_ALEN, ETH_HLEN; lia|done|].
  mrun H2.
  pose proof Hrw2 as (_ & _ & _ & _ & _ & _ & _ & Hlen2 & _).
  destruct (lookup_lt_is_Some_2 (buf skb2)
              (Z.to_nat (data skb + ETH_ALEN + (ETH_ALEN - 1))))
    as [x Hx]; [unfold ETH_ALEN, ETH_HLEN in *; lia|].
  mrun (skb_load_ok skb2 (data skb + ETH_ALEN + (ETH_ALEN - 1)) x s
          ltac:(unfold ETH_ALEN; lia) Hx).
  destruct (skb_store_header skb skb2 (data skb + ETH_ALEN + (ETH_ALEN - 1))
              (Z.lxor x 1) s Hrw2)
    as [H3 Hrw3]; [unfold ETH_ALEN; lia|unfold ETH_ALEN, ETH_HLEN; lia|done|].
  mrun H3.
  destruct (skb_store_be16_header skb _ ETH_P_802_3 s Hrw3)
    as (skb4 & H4 & Hrw4 & Hhi4 & Hlo4); [done|done|].
  mrun H4.
  assert (Hsniff : exists skb5,
    (if negb dss then
       do b0 <- skb_load skb4 (data skb4 + ETH_HLEN);
       if Z.land b0 240 =? 64 then skb_store_be16 skb4 (data skb + 12) ETH_P_IP
       else if Z.land b0 240 =? 96
            then skb_store_be16 skb4 (data skb + 12) ETH_P_IPV6
       else ret skb4
     else ret skb4) s = Done skb5 s /\
    header_rewritten skb skb5 /\
    exists v, buf skb5 !! Z.to_nat (data skb + 12) = Some (v / 256) /\
              buf skb5 !! Z.to_nat (data skb + 13) = Some (v mod 256) /\
              v = (if dss then ETH_P_802_3
                   else if first_nibble b =? 4 then ETH_P_IP
                   else if first_nibble b =? 6 then ETH_P_IPV6
                   else ETH_P_802_3)).
  { destruct dss; simpl.
    - exists skb4. eauto 8.
    - pose proof Hrw4 as (_ & Hd4 & _ & _ & _ & _ & _ & _ & Hother4).
      unfold bind. rewrite Hd4.
      rewrite (skb_load_ok skb4 _ b); [|unfold ETH_HLEN; lia|].
      2:{ rewrite Hother4 by lia. done. }
      cbv beta iota. rewrite (nibble_test b Hbyte).
      replace (16 * first_nibble b =? 64) with (first_nibble b =? 4)
        by (destruct (Z.eqb_spec (first_nibble b) 4),
              (Z.eqb_spec (16 * first_nibble b) 64); (done || lia)).
      replace (16 * first_nibble b =? 96) with (first_nibble b =? 6)
        by (destruct (Z.eqb_spec (first_nibble b) 6),
              (Z.eqb_spec (16 * first_nibble b) 96); (done || lia)).
      destruct (first_nibble b =? 4).
      + destruct (skb_store_be16_header skb skb4 ETH_P_IP s Hrw4)
          as (skb5 & H5 & ? & ? & ?); [done|done|]. rewrite H5. eauto 8.
      + destruct (first_nibble b =? 6).
        * destruct (skb_store_be16_header skb skb4 ETH_P_IPV6 s Hrw4)
            as (skb5 & H5 & ? & ? & ?); [done|done|]. rewrite H5. eauto 8.
        * exists skb4. eauto 8. }
  destruct Hsniff as (skb5 & H5 & Hrw5 & v & Hhi & Hlo & Hv).
  mrun H5.
  pose proof Hrw5 as (Hh5 & Hd5 & Hl5 & _ & _ & _ & _ & Hlen5 & _).
  destruct (eth_type_trans_ok skb5 s) as [p Hett].
  { unfold skb_ok. rewrite Hd5, Hl5, Hlen5. done. }
  { by rewrite Hl5. }
  mrun Hett.
  set (skb6 := with_protocol p _).
  destruct (update_stats_total s
              (ipc_wwan_vlan_to_mux_session_id (snd (vlan_get_tag skb6)))
              (len skb6) false Hok) as (s1 & Hupd & Htr).
  mrun Hupd. unfold bind, emit, ret.
  eexists _, skb6. split; [done|]. split; [simpl; by rewrite Htr|].
  unfold frame_h_proto. simpl. rewrite Hd5.
  replace (data skb + 12 + 1) with (data skb + 13) by lia.
  rewrite Hhi, Hlo. f_equal. rewrite <- Hv.
  rewrite Z.mul_comm. symmetry. apply Z.div_mod. lia.
Qed.

End Properties.

(** ** The properties at the example configurations *)

(** C1, counterexample.  A root device initialised for one session
    already holds one live session, yet adding tag 2 succeeds: open is
    called, the entry is written and the count becomes 2. *)
Lemma add_vlan_beyond_max_sessions :
  vlan_devs_nr (wwan (ex_one_session 1)) = max_ip_devs (wwan (ex_one_session 1)) /\
  exists s',
    ipc_wwan_add_vlan ex_open 2 (ex_one_session 1) = Done 0 s' /\
    trace s' = trace (ex_one_session 1) ++ [WwanOpen 2] /\
    vlan_devs_nr (wwan s') = 2 /\
    (vlan_id <$> live_sessions (wwan s')) = [1; 2].
Proof.
  split; [reflexivity|]. eexists. split; [vm_compute; reflexivity|].
  repeat split.
Qed.

(** C1 (amended) on a root device initialised for one session. *)
Lemma add_vlan_stores_session_witness :
  exists s' l',
    ipc_wwan_add_vlan ex_open 1 (ex_sys 1) = Done 0 s' /\
    trace s' = trace (ex_sys 1) ++ [WwanOpen 1] /\
    vlan_devs_nr (wwan s') = vlan_devs_nr (wwan (ex_sys 1)) + 1 /\
    vlan_devs (wwan s') = Some l' /\
    (exists e, l' !! Z.to_nat (vlan_devs_nr (wwan (ex_sys 1))) = Some e /\
               vlan_id e = 1 /\ ch_id e = ex_open (trace (ex_sys 1)) 1) /\
    (forall j, j <> Z.to_nat (vlan_devs_nr (wwan (ex_sys 1))) ->
               l' !! j = replicate 9 zero_vlan_info !! j).
Proof.
  apply (add_vlan_stores_session ex_open (ex_sys 1)
           (replicate 9 zero_vlan_info) 1);
    [reflexivity | lia | by_eval | by_eval].
Defined.

(** C2, counterexample.  Adding the root tag 0 is not rejected with an
    error: the call returns 0, the code of success, and no outcome has
    a negative result. *)
Lemma add_vlan_root_tag_succeeds :
  ipc_wwan_add_vlan ex_open WWAN_ROOT_VLAN_TAG (ex_sys 1) = Done 0 (ex_sys 1) /\
  ~ exists r s',
      ipc_wwan_add_vlan ex_open WWAN_ROOT_VLAN_TAG (ex_sys 1) = Done r s' /\
      r < 0.
Proof.
  split; [vm_compute; reflexivity|].
  intros (r & s' & H & Hr). vm_compute in H. injection H as <- _. lia.
Qed.

(** C2 (amended) for the tag 512. *)
Lemma add_vlan_root_or_out_of_range_witness :
  ipc_wwan_add_vlan ex_open 512 (ex_sys 1) = Done (- EINVAL) (ex_sys 1).
Proof.
  apply (add_vlan_root_or_out_of_range ex_open (ex_sys 1) 512). right. lia.
Defined.

(** C3, counterexample.  The transmit of a frame with the root tag does
    not report success: no outcome has the result NETDEV_TX_OK. *)
Lemma transmit_root_tag_not_ok :
  ~ exists s',
      ipc_wwan_transmit ex_transmit ex_alloc (ex_frame 0 ETH_P_IP [69; 0; 0; 20])
        (ex_one_session 1) = Done NETDEV_TX_OK s'.
Proof. intros [s' H]. vm_compute in H. discriminate H. Qed.

(** C3 (amended) for a frame with tag 0. *)
Lemma transmit_root_tag_dropped_witness :
  ipc_wwan_transmit ex_transmit ex_alloc (ex_frame 0 ETH_P_IP [69; 0; 0; 20])
    (ex_one_session 1) =
  Done (- EINVAL)
    (traced (KfreeSkb (Some (ex_frame 0 ETH_P_IP [69; 0; 0; 20])))
       (ex_one_session 1)).
Proof.
  apply (transmit_root_tag_dropped ex_transmit ex_alloc). reflexivity.
Defined.

(** C4, counterexample.  A frame whose header says ETH_P_802_3 and whose
    payload starts with the nibble 4 is recorded as non-IP, and a frame
    whose header says ETH_P_IP and whose payload starts with the nibble
    0 is recorded as IP. *)
Lemma pull_header_ignores_payload :
  (exists skb',
     ipc_wwan_pull_header (ex_frame 1 ETH_P_802_3 [69; 0; 0; 20]) (Some false)
       (ex_one_session 1) = Done (ETH_HLEN, Some false, skb') (ex_one_session 1) /\
     payload_nibble skb' = Some 4) /\
  (exists skb',
     ipc_wwan_pull_header (ex_frame 1 ETH_P_IP [0; 0; 0; 20]) (Some false)
       (ex_one_session 1) = Done (ETH_HLEN, Some true, skb') (ex_one_session 1) /\
     payload_nibble skb' = Some 0).
Proof.
  split; eexists; (split; [vm_compute; reflexivity | reflexivity]).
Qed.

(** C4 (amended) for an IPv4 header over a payload starting with 0, and
    for an 802.3 header on the IP session 1. *)
Lemma transmit_classifies_by_header_protocol_witness :
  (exists proto,
     skb_load_be16 (ex_frame 1 ETH_P_IP [0; 0; 0; 20]) (2 + 12)
       (ex_one_session 1) = Done proto (ex_one_session 1) /\
     Some true = Some ((proto =? ETH_P_IP) || (proto =? ETH_P_IPV6))) /\
  (- EXDEV = - EXDEV <-> class_mismatch 1 false = true).
Proof.
  split.
  - apply (proj1 (transmit_classifies_by_header_protocol ex_transmit ex_alloc)
             (ex_frame 1 ETH_P_IP [0; 0; 0; 20]) false (ex_one_session 1)
             ETH_HLEN (Some true)
             (with_data_len 16 4 (ex_frame 1 ETH_P_IP [0; 0; 0; 20]))
             (ex_one_session 1));
      [vm_compute; reflexivity | by_eval].
  - apply (proj2 (transmit_classifies_by_header_protocol ex_transmit ex_alloc)
             (ex_one_session 1) (ex_frame 1 ETH_P_802_3 [69; 0; 0; 20]) 1
             ETH_HLEN false
             (with_data_len 16 4 (ex_frame 1 ETH_P_802_3 [69; 0; 0; 20]))
             0 {| vlan_id := 1; ch_id := 0; stats := zero_stats |}
             (- EXDEV)
             (traced (KfreeSkb (Some (with_data_len 16 4
                        (ex_frame 1 ETH_P_802_3 [69; 0; 0; 20]))))
                (ex_one_session 1)));
      [reflexivity | discriminate | vm_compute; reflexivity | discriminate
      | by_eval | vm_compute; reflexivity].
Defined.

(** C5 for an 802.3 frame on the IP session 1. *)
Lemma transmit_protocol_mismatch_witness :
  ipc_wwan_transmit ex_transmit ex_alloc
    (ex_frame 1 ETH_P_802_3 [69; 0; 0; 20]) (ex_one_session 1) =
  Done (- EXDEV)
    (traced (KfreeSkb (Some (with_data_len 16 4
               (ex_frame 1 ETH_P_802_3 [69; 0; 0; 20]))))
       (ex_one_session 1)).
Proof.
  apply (transmit_protocol_mismatch ex_transmit ex_alloc (ex_one_session 1)
           (ex_frame 1 ETH_P_802_3 [69; 0; 0; 20]) 1 ETH_HLEN false
           (with_data_len 16 4 (ex_frame 1 ETH_P_802_3 [69; 0; 0; 20]))
           0 {| vlan_id := 1; ch_id := 0; stats := zero_stats |});
    [reflexivity | vm_compute; reflexivity | discriminate | by_eval
    | left; split; [lia | reflexivity]].
Defined.

(** C6 for the data tag 3, the control tag 257 and the root tag on a
    device of eight sessions, and for two frames of tag 3. *)
Lemma select_queue_by_tag_witness :
  ipc_wwan_select_queue (ex_wwan 8) (ex_frame 3 ETH_P_IP [69; 0; 0; 20]) = 3 /\
  ipc_wwan_select_queue (ex_wwan 8) (ex_frame 257 ETH_P_802_3 [1; 2; 3; 4])
  = 0 /\
  ipc_wwan_select_queue (ex_wwan 8) (ex_frame 0 ETH_P_IP [69; 0; 0; 20]) = 0 /\
  ipc_wwan_select_queue (wwan (ex_one_session 8))
    (ex_frame 3 ETH_P_IPV6 [96; 0; 0; 0])
  = ipc_wwan_select_queue (ex_wwan 8) (ex_frame 3 ETH_P_IP [69; 0; 0; 20]).
Proof.
  split_and!.
  - apply (proj1 (select_queue_by_tag (ex_wwan 8)
                    (ex_frame 3 ETH_P_IP [69; 0; 0; 20]) 3
                    ltac:(by_eval) eq_refl)).
    lia.
  - apply (proj1 (proj2 (select_queue_by_tag (ex_wwan 8)
                           (ex_frame 257 ETH_P_802_3 [1; 2; 3; 4]) 257
                           ltac:(by_eval) eq_refl))).
    lia.
  - apply (proj1 (proj2 (proj2 (select_queue_by_tag (ex_wwan 8)
                                  (ex_frame 0 ETH_P_IP [69; 0; 0; 20]) 0
                                  ltac:(by_eval) eq_refl)))).
    reflexivity.
  - apply (proj2 (proj2 (proj2 (select_queue_by_tag (ex_wwan 8)
                                  (ex_frame 3 ETH_P_IP [69; 0; 0; 20]) 3
                                  ltac:(by_eval) eq_refl))));
      reflexivity.
Defined.

(** Beyond that bound the first test of [ipc_wwan_select_queue], which
    has no upper limit of its own, takes a control tag for a data tag:
    on a root device initialised for 300 sessions the tag 257 is given
    queue 257. *)
Example select_queue_beyond_data_model :
  ipc_wwan_select_queue (ex_wwan 300) (ex_frame 257 ETH_P_802_3 [1; 2; 3; 4])
  = 257.
Proof. vm_compute. reflexivity. Qed.

(** C7 for the tags 1 and 2 on a device initialised for two sessions. *)
Lemma add_add_remove_keeps_second_witness :
  (exists s' e,
     (do r1 <- ipc_wwan_add_vlan ex_open 1;
      do r2 <- ipc_wwan_add_vlan ex_open 2;
      do r3 <- ipc_wwan_remove_vlan 1;
      ret (r1, r2, r3)) (ex_sys 2) = Done (0, 0, 0) s' /\
     vlan_devs_nr (wwan s') = 1 /\
     live_sessions (wwan s') = [e] /\
     vlan_id e = 2 /\
     ch_id e = ex_open (trace (ex_sys 2) ++ [WwanOpen 1]) 2) /\
  (exists s',
     ipc_wwan_remove_vlan 1 (ex_one_session 2) = Done 0 s' /\
     vlan_devs_nr (wwan s') = vlan_devs_nr (wwan (ex_one_session 2)) - 1 /\
     live_sessions (wwan s') = delete 0%nat (live_sessions (wwan (ex_one_session 2)))).
Proof.
  split.
  - apply (proj1 (add_add_remove_keeps_second ex_open) (ex_sys 2)
             (replicate 10 zero_vlan_info) 1 2);
      [reflexivity | reflexivity | simpl; lia | lia | lia | discriminate
      | by_eval | by_eval].
  - apply (proj2 (add_add_remove_keeps_second ex_open) (ex_one_session 2)
             ({| vlan_id := 1; ch_id := 0; stats := zero_stats |}
                :: replicate 9 zero_vlan_info)
             1 0%nat {| vlan_id := 1; ch_id := 0; stats := zero_stats |});
      [reflexivity | by_eval | by_eval | reflexivity | reflexivity
      | intros j e' Hj; lia | by_eval].
Defined.

(** C8 for a control frame whose payload starts with the nibble 4. *)
Lemma receive_sets_ethertype_witness :
  exists s' skb',
    ipc_wwan_receive (ex_frame 1 0 [69; 0; 0; 20]) true (ex_one_session 1)
    = Done 0 s' /\
    trace s' = trace (ex_one_session 1) ++ [NetifRx skb'] /\
    frame_h_proto skb' = Some ETH_P_802_3.
Proof.
  apply (receive_sets_ethertype (ex_one_session 1)
           (ex_frame 1 0 [69; 0; 0; 20]) true 69);
    [discriminate | by_eval | by_eval | by_eval | reflexivity | lia].
Defined.

(** C9 for the first add on a fresh device. *)
Lemma live_channels_stay_valid_witness :
  wwan_inv (wwan (ex_one_session 1)).
Proof.
  apply (live_channels_stay_valid ex_open (ex_sys 1) 1 0 (ex_one_session 1)).
  - split; [by_eval | constructor].
  - left. vm_compute. reflexivity.
Defined.

(** C10 for the session id 5, which has no session. *)
Lemma update_stats_unknown_session_witness :
  ipc_wwan_update_stats 5 100 true (ex_one_session 1)
  = Done tt (ex_one_session 1).
Proof.
  apply (update_stats_unknown_session (ex_one_session 1) 5 100 true).
  - by_eval.
  - vm_compute. repeat constructor. discriminate.
Defined.

(** The model at work: an IPv4 frame on the IP session 1 is handed to
    the transport on the channel of that session, and accounting 100
    transmitted bytes to session id 0 updates both counter sets. *)
Example transmit_ip_frame_accepted :
  exists s',
    ipc_wwan_transmit ex_transmit ex_alloc (ex_frame 1 ETH_P_IP [69; 0; 0; 20])
      (ex_one_session 1) = Done NETDEV_TX_OK s' /\
    trace s' =
    trace (ex_one_session 1) ++
    [WwanTransmit 1 0 (with_data_len 16 4 (ex_frame 1 ETH_P_IP [69; 0; 0; 20]))].
Proof. eexists. split; vm_compute; reflexivity. Qed.

Example update_stats_counts_both :
  exists s',
    ipc_wwan_update_stats 0 100 true (ex_one_session 1) = Done tt s' /\
    (tx_bytes <$> (stats <$> live_sessions (wwan s'))) = [100] /\
    tx_bytes (ndev_stats (netdev (wwan s'))) = 100.
Proof. eexists. repeat split; vm_compute; reflexivity. Qed.

(** ** Further properties of the session table *)

Section TableProperties.

Variable wwan_open_result : list call -> Z -> Z.

Lemma find_tag_shift_found l i d tag :
  0 <= i -> 0 <= find_tag l i tag ->
  find_tag l (i + d) tag = find_tag l i tag + d.
Proof.
  revert i. induction l as [|e l IH]; intros i Hi; simpl.
  - unfold EINVAL. lia.
  - destruct (vlan_id e =? tag); [done|]. intros Hf.
    replace (i + d + 1) with (i + 1 + d) by lia. apply IH; [lia|done].
Qed.

Lemma find_tag_shift_none l i j tag :
  0 <= i -> 0 <= j -> find_tag l i tag = - EINVAL ->
  find_tag l j tag = - EINVAL.
Proof.
  intros Hi Hj H. apply find_tag_none in H; [|done]. by apply find_tag_none.
Qed.

Lemma find_tag_app l1 l2 i tag :
  0 <= i ->
  find_tag (l1 ++ l2) i tag =
  if 0 <=? find_tag l1 i tag then find_tag l1 i tag
  else find_tag l2 (i + Z.of_nat (length l1)) tag.
Proof.
  revert i. induction l1 as [|e l1 IH]; intros i Hi; simpl.
  - unfold EINVAL. simpl. by rewrite Z.add_0_r.
  - destruct (vlan_id e =? tag).
    + by destruct (Z.leb_spec 0 i); [|lia].
    + rewrite IH by lia.
      by replace (i + 1 + Z.of_nat (length l1))
        with (i + Z.pos (Pos.of_succ_nat (length l1))) by lia.
Qed.

(** A live slot, read through the code. *)
Lemma live_lookup_load s i e :
  live_sessions (wwan s) !! i = Some e ->
  vlan_devs_load (Z.of_nat i) s = Done e s.
Proof.
  unfold live_sessions. destruct (vlan_devs (wwan s)) as [l|] eqn:Hl; [|done].
  intros [He _]%lookup_take_Some.
  apply (vlan_devs_load_ok s l); [done|lia|]. by rewrite Nat2Z.id.
Qed.

Lemma load_live_lookup s idx e :
  0 <= idx < vlan_devs_nr (wwan s) ->
  vlan_devs_load idx s = Done e s ->
  live_sessions (wwan s) !! Z.to_nat idx = Some e.
Proof.
  intros Hidx (_ & _ & l & Hl & He)%vlan_devs_load_inv.
  unfold live_sessions. rewrite Hl. rewrite lookup_take_lt by lia. done.
Qed.

(** What the lookup answers, said on the list of live sessions. *)
Lemma lookup_found_iff s tag idx :
  table_ok (wwan s) -> 0 <= idx ->
  ipc_wwan_get_vlan_devs_nr tag s = Done idx s <->
  find_tag (live_sessions (wwan s)) 0 tag = idx.
Proof.
  intros Hok Hidx. rewrite ipc_wwan_get_vlan_devs_nr_ok by done.
  split; [by intros [= ->] | by intros ->].
Qed.

Lemma find_tag_first l tag i e :
  l !! i = Some e -> vlan_id e = tag ->
  (forall j e', (j < i)%nat -> l !! j = Some e' -> vlan_id e' <> tag) ->
  find_tag l 0 tag = Z.of_nat i.
Proof.
  intros Hi Hvid Hfirst.
  destruct (find_tag_range l 0 tag) as [Hnone|Hr].
  - apply find_tag_none in Hnone; [|lia].
    rewrite Forall_lookup in Hnone. by destruct (Hnone i e Hi).
  - set (r := find_tag l 0 tag) in *.
    destruct (find_tag_found l 0 tag r)
      as (e' & He' & Htag & _ & Hbefore); [lia|done|lia|].
    rewrite Z.sub_0_r in He', Hbefore.
    destruct (Nat.lt_trichotomy (Z.to_nat r) i) as [Hlt|[Heq|Hgt]].
    + by destruct (Hfirst _ _ Hlt He').
    + lia.
    + by destruct (Hbefore _ _ Hgt Hi).
Qed.

Lemma live_length w :
  is_Some (vlan_devs w) -> table_ok w ->
  0 <= vlan_devs_nr w /\
  Z.of_nat (length (live_sessions w)) = vlan_devs_nr w.
Proof.
  unfold table_ok, live_sessions. intros [l ->] Hnr.
  rewrite length_take. lia.
Qed.

(** Every way [ipc_wwan_add_vlan] returns: either it appended one
    session to the live ones, or it left them as they were. *)
Lemma add_vlan_effect s vid r s' :
  table_ok (wwan s) ->
  ipc_wwan_add_vlan wwan_open_result vid s = Done r s' ->
  table_ok (wwan s') /\
  max_devs (wwan s') = max_devs (wwan s) /\
  max_ip_devs (wwan s') = max_ip_devs (wwan s) /\
  netdev (wwan s') = netdev (wwan s) /\
  (table_sized (wwan s) -> table_sized (wwan s')) /\
  ((r = 0 /\ vid <> 0 /\ vid < 512 /\
    0 <= wwan_open_result (trace s) vid /\
    trace s' = trace s ++ [WwanOpen vid] /\
    vlan_devs_nr (wwan s') = vlan_devs_nr (wwan s) + 1 /\
    is_Some (vlan_devs (wwan s)) /\
    exists st,
      live_sessions (wwan s') =
      live_sessions (wwan s) ++
      [{| vlan_id := vid; ch_id := wwan_open_result (trace s) vid;
          stats := st |}]) \/
   (live_sessions (wwan s') = live_sessions (wwan s) /\
    vlan_devs_nr (wwan s') = vlan_devs_nr (wwan s) /\
    (r = 0 /\ vid = 0 \/ r = - EINVAL \/ r = - ENODEV) /\
    (r <> - ENODEV -> s' = s))).
Proof.
  intros Hok Hadd.
  assert (Hsame : forall x, Done r s' = Done x s ->
            (x = 0 /\ vid = 0 \/ x = - EINVAL) ->
            table_ok (wwan s') /\
            max_devs (wwan s') = max_devs (wwan s) /\
            max_ip_devs (wwan s') = max_ip_devs (wwan s) /\
            netdev (wwan s') = netdev (wwan s) /\
            (table_sized (wwan s) -> table_sized (wwan s')) /\
            ((r = 0 /\ vid <> 0 /\ vid < 512 /\
              0 <= wwan_open_result (trace s) vid /\
              trace s' = trace s ++ [WwanOpen vid] /\
              vlan_devs_nr (wwan s') = vlan_devs_nr (wwan s) + 1 /\
              is_Some (vlan_devs (wwan s)) /\
              exists st,
                live_sessions (wwan s') =
                live_sessions (wwan s) ++
                [{| vlan_id := vid; ch_id := wwan_open_result (trace s) vid;
                    stats := st |}]) \/
             (live_sessions (wwan s') = live_sessions (wwan s) /\
              vlan_devs_nr (wwan s') = vlan_devs_nr (wwan s) /\
              (r = 0 /\ vid = 0 \/ r = - EINVAL \/ r = - ENODEV) /\
              (r <> - ENODEV -> s' = s)))).
  { intros x [= -> ->] Hx. split_and!; try done. right.
    split_and!; [done | done | tauto | done]. }
  destruct (vlan_devs (wwan s)) as [l|] eqn:Hl.
  2:{ rewrite add_vlan_rejected in Hadd by auto. eapply Hsame; eauto. }
  destruct (decide (512 <= vid)).
  { rewrite add_vlan_rejected in Hadd by auto. eapply Hsame; eauto. }
  destruct (decide (vid = WWAN_ROOT_VLAN_TAG)) as [->|Hvid].
  { rewrite (add_vlan_root _ s l) in Hadd by done. eapply Hsame; eauto. }
  clear Hsame.
  pose proof Hok as Hnr. unfold table_ok in Hnr. rewrite Hl in Hnr.
  destruct (decide (vlan_devs_nr (wwan s) < Z.of_nat (length l))) as [Hroom|Hfull].
  2:{ rewrite (add_vlan_overrun _ s l) in Hadd by (done || lia). done. }
  destruct (lookup_lt_is_Some_2 l (Z.to_nat (vlan_devs_nr (wwan s))))
    as [e He]; [lia|].
  unfold table_ok, table_sized, live_sessions in *.
  destruct (decide (0 <= wwan_open_result (trace s) vid)) as [Hc|Hc].
  - rewrite (add_vlan_ok _ s l vid e) in Hadd by (done || lia).
    injection Hadd as <- <-. simpl. rewrite Hl, length_insert.
    split_and!; try done; try lia. left.
    split_and!; try done; try lia. exists (stats e).
    replace (Z.to_nat (vlan_devs_nr (wwan s) + 1))
      with (S (Z.to_nat (vlan_devs_nr (wwan s)))) by lia.
    erewrite take_S_r by (apply list_lookup_insert_eq; lia).
    by rewrite take_insert_ge by lia.
  - rewrite (add_vlan_open_failed _ s l vid e) in Hadd by (done || lia).
    injection Hadd as <- <-. simpl. rewrite Hl, length_insert.
    split_and!; try done; try lia. right.
    rewrite take_insert_ge by lia.
    split_and!; [done | done | tauto | intros ?; done].
Qed.

(** Every way [ipc_wwan_remove_vlan] returns: either it deleted the
    first live session of the tag, or it changed nothing. *)
Lemma remove_vlan_effect s vid r s' :
  table_ok (wwan s) ->
  ipc_wwan_remove_vlan vid s = Done r s' ->
  (r = - EINVAL /\ s' = s) \/
  (r = 0 /\ table_ok (wwan s') /\
   max_devs (wwan s') = max_devs (wwan s) /\
   max_ip_devs (wwan s') = max_ip_devs (wwan s) /\
   netdev (wwan s') = netdev (wwan s) /\
   (table_sized (wwan s) -> table_sized (wwan s')) /\
   vlan_devs_nr (wwan s') = vlan_devs_nr (wwan s) - 1 /\
   exists i e,
     live_sessions (wwan s) !! i = Some e /\ vlan_id e = vid /\
     0 <= ch_id e /\
     find_tag (live_sessions (wwan s)) 0 vid = Z.of_nat i /\
     trace s' = trace s ++ [WwanClose vid (ch_id e)] /\
     live_sessions (wwan s') = delete i (live_sessions (wwan s))).
Proof.
  intros Hok Hrem.
  destruct (decide (find_tag (live_sessions (wwan s)) 0 vid < 0)) as [Hnone|Hfound].
  { rewrite remove_vlan_not_found in Hrem by done. injection Hrem as <- <-.
    left. split; [|done].
    destruct (find_tag_range (live_sessions (wwan s)) 0 vid); [done|lia]. }
  destruct (vlan_devs (wwan s)) as [l|] eqn:Hl.
  2:{ unfold live_sessions in Hfound. rewrite Hl in Hfound. simpl in Hfound.
      unfold EINVAL in Hfound. lia. }
  destruct (find_tag_live (wwan s) l vid Hl Hok) as (Hlt & e & He & Hvid); [lia|].
  destruct (decide (ch_id e < 0)).
  { rewrite (remove_vlan_invalid_channel s l vid e) in Hrem by (done || lia).
    injection Hrem as <- <-. by left. }
  pose proof Hok as Hnr. unfold table_ok in Hnr. rewrite Hl in Hnr.
  destruct (decide (vlan_devs_nr (wwan s) < Z.of_nat (length l))) as [Hroom|Hfull].
  2:{ destruct (remove_vlan_overrun s l vid e) as (s1 & f & Hrun);
        try (done || lia). by rewrite Hrun in Hrem. }
  destruct (remove_vlan_ok s l vid e) as (l' & Hrun & Hlen & _);
    try (done || lia).
  destruct (remove_vlan_live s l vid e)
    as (s1 & Hrun1 & Htr & Hcount & Hok1 & Hlive1); try (done || lia).
  rewrite Hrun1 in Hrem. injection Hrem as <- <-. right.
  rewrite Hrun in Hrun1. injection Hrun1 as <-.
  split_and!; try done.
  - unfold table_sized. simpl. rewrite Hl, Hlen. done.
  - exists (Z.to_nat (find_tag (live_sessions (wwan s)) 0 vid)), e.
    split_and!; try done; try lia.
    set (r0 := find_tag _ 0 vid) in *.
    unfold live_sessions. rewrite Hl. rewrite lookup_take_lt by lia. done.
Qed.

(** X1.  After a successful add of a tag that was not live, the lookup
    of that tag returns the slot the session was stored in, and the slot
    holds the tag and the channel id the transport's open returned. *)
Theorem add_then_lookup s vid s' :
  table_ok (wwan s) ->
  Forall (fun e => vlan_id e <> vid) (live_sessions (wwan s)) ->
  vid <> WWAN_ROOT_VLAN_TAG ->
  ipc_wwan_add_vlan wwan_open_result vid s = Done 0 s' ->
  exists e,
    ipc_wwan_get_vlan_devs_nr vid s' = Done (vlan_devs_nr (wwan s)) s' /\
    vlan_devs_load (vlan_devs_nr (wwan s)) s' = Done e s' /\
    vlan_id e = vid /\
    ch_id e = wwan_open_result (trace s) vid /\
    0 <= ch_id e.
Proof.
  intros Hok Hfresh Hvid Hadd.
  destruct (add_vlan_effect s vid 0 s' Hok Hadd)
    as (Hok' & _ & _ & _ & _ & [Happ|Hsame]).
  2:{ destruct Hsame as (_ & _ & [[_ ?]|[?|?]] & _); done. }
  destruct Happ as (_ & _ & _ & Hc & _ & Hnr' & Htab & st & Hlive).
  destruct (live_length (wwan s) Htab Hok) as [Hnr Hlen].
  eexists. split_and!.
  - apply lookup_found_iff; [done|lia|]. rewrite Hlive.
    rewrite find_tag_app by lia.
    apply (find_tag_none _ 0) in Hfresh; [|lia]. rewrite Hfresh. simpl.
    rewrite Z.eqb_refl. lia.
  - rewrite <- Hlen, <- (Nat2Z.id (length _)).
    rewrite Nat2Z.id. apply live_lookup_load. rewrite Hlive.
    rewrite lookup_app_r by lia. by rewrite Nat.sub_diag.
  - done.
  - done.
  - done.
Qed.

(** X2.  Whatever an add returns, every session the lookup resolved
    before is resolved to the same slot with the same entry afterwards;
    this includes the tag being added: an add of a tag that is already
    live stores a second entry that the lookup never reaches. *)
Theorem add_keeps_sessions s vid r s' t idx e :
  table_ok (wwan s) ->
  ipc_wwan_add_vlan wwan_open_result vid s = Done r s' ->
  ipc_wwan_get_vlan_devs_nr t s = Done idx s -> 0 <= idx ->
  vlan_devs_load idx s = Done e s ->
  ipc_wwan_get_vlan_devs_nr t s' = Done idx s' /\
  vlan_devs_load idx s' = Done e s'.
Proof.
  intros Hok Hadd Hfind Hidx Hload.
  apply lookup_found_iff in Hfind; [|done|done].
  destruct (add_vlan_effect s vid r s' Hok Hadd)
    as (Hok' & _ & _ & _ & _ & Hcases).
  assert (Hlt : idx < Z.of_nat (length (live_sessions (wwan s)))).
  { destruct (find_tag_range (live_sessions (wwan s)) 0 t) as [Hn|Hr];
      [unfold EINVAL in Hn|]; lia. }
  assert (Hin : live_sessions (wwan s) !! Z.to_nat idx = Some e).
  { apply load_live_lookup; [|done]. split; [done|].
    unfold live_sessions, table_ok in *.
    destruct (vlan_devs (wwan s)); [|simpl in Hlt; lia].
    rewrite length_take in Hlt. lia. }
  assert (Hlive : exists l2,
            live_sessions (wwan s') = live_sessions (wwan s) ++ l2).
  { destruct Hcases as [(_ & _ & _ & _ & _ & _ & _ & st & ->)|(-> & _)];
      [by eexists | exists []; by rewrite app_nil_r]. }
  destruct Hlive as [l2 Hlive]. split.
  - apply lookup_found_iff; [done|done|]. rewrite Hlive.
    rewrite find_tag_app by lia. rewrite Hfind.
    by destruct (Z.leb_spec 0 idx); [|lia].
  - rewrite <- (Z2Nat.id idx) by done. apply live_lookup_load.
    rewrite Hlive. by apply lookup_app_l_Some.
Qed.

Lemma find_tag_delete_other l i x t idx :
  l !! i = Some x -> vlan_id x <> t ->
  find_tag l 0 t = idx -> 0 <= idx ->
  find_tag (delete i l) 0 t = (if idx <? Z.of_nat i then idx else idx - 1) /\
  delete i l !! Z.to_nat (if idx <? Z.of_nat i then idx else idx - 1)
  = l !! Z.to_nat idx.
Proof.
  intros Hi Hx Hfind Hidx.
  pose proof (take_drop_middle l i x Hi) as Hsplit.
  assert (Hlen : length (take i l) = i).
  { rewrite length_take. apply lookup_lt_Some in Hi. lia. }
  rewrite delete_take_drop.
  rewrite <- Hsplit in Hfind. rewrite find_tag_app in Hfind by lia.
  rewrite find_tag_app by lia. rewrite Hlen in *. simpl in Hfind.
  destruct (Z.eqb_spec (vlan_id x) t); [done|].
  destruct (Z.leb_spec 0 (find_tag (take i l) 0 t)) as [Hin|Hout].
  - assert (idx < Z.of_nat i).
    { destruct (find_tag_range (take i l) 0 t) as [Hn|Hr];
        [unfold EINVAL in Hn; lia | rewrite Hlen in Hr; lia]. }
    destruct (Z.ltb_spec idx (Z.of_nat i)); [|lia]. split; [done|].
    rewrite lookup_app_l by (rewrite Hlen; lia).
    rewrite lookup_take_lt by lia. done.
  - assert (Z.of_nat i + 1 <= idx).
    { destruct (find_tag_range (drop (S i) l) (0 + Z.of_nat i + 1) t) as [Hn|Hr];
        [unfold EINVAL in Hn|]; lia. }
    destruct (Z.ltb_spec idx (Z.of_nat i)); [lia|]. split.
    + replace (0 + Z.of_nat i) with (0 + Z.of_nat i + 1 + -1) by lia.
      rewrite find_tag_shift_found by lia. lia.
    + rewrite lookup_app_r by (rewrite Hlen; lia). rewrite Hlen.
      rewrite !lookup_drop. f_equal. lia.
Qed.

Lemma find_tag_delete_self l i x :
  l !! i = Some x -> NoDup (vlan_id <$> l) ->
  find_tag (delete i l) 0 (vlan_id x) = - EINVAL.
Proof.
  intros Hi Hnodup. apply find_tag_none; [lia|].
  rewrite <- (take_drop_middle l i x Hi) in Hnodup.
  rewrite fmap_app, fmap_cons in Hnodup.
  apply NoDup_app in Hnodup as (_ & Hdisj & [Hnot _]%NoDup_cons).
  rewrite delete_take_drop. apply Forall_app. split.
  - apply Forall_forall. intros y Hy Heq.
    apply (Hdisj (vlan_id y)); [by apply list_elem_of_fmap_2|].
    rewrite Heq. left.
  - apply Forall_forall. intros y Hy Heq. apply Hnot.
    rewrite <- Heq. by apply list_elem_of_fmap_2.
Qed.

(** X3.  When the live tags are pairwise different, a successful remove
    makes the lookup of the removed tag fail with -EINVAL. *)
Theorem remove_then_lookup s vid s' :
  table_ok (wwan s) ->
  NoDup (vlan_id <$> live_sessions (wwan s)) ->
  ipc_wwan_remove_vlan vid s = Done 0 s' ->
  ipc_wwan_get_vlan_devs_nr vid s' = Done (- EINVAL) s'.
Proof.
  intros Hok Hnodup Hrem.
  destruct (remove_vlan_effect s vid 0 s' Hok Hrem)
    as [[? _]|(_ & Hok' & _ & _ & _ & _ & _ & i & e & Hi & Hvid & _ & _ & _ & Hlive)];
    [done|].
  rewrite ipc_wwan_get_vlan_devs_nr_ok by done. rewrite Hlive, <- Hvid.
  by rewrite (find_tag_delete_self _ i e).
Qed.

(** X4.  Whatever a remove returns, a session of another tag that the
    lookup resolved before is still resolved afterwards, to the same
    entry (tag, channel id and counters); its slot is the same one or
    the one before it. *)
Theorem remove_keeps_other_sessions s vid r s' t idx e :
  table_ok (wwan s) ->
  ipc_wwan_remove_vlan vid s = Done r s' ->
  t <> vid ->
  ipc_wwan_get_vlan_devs_nr t s = Done idx s -> 0 <= idx ->
  vlan_devs_load idx s = Done e s ->
  exists idx',
    ipc_wwan_get_vlan_devs_nr t s' = Done idx' s' /\
    vlan_devs_load idx' s' = Done e s' /\
    (idx' = idx \/ idx' = idx - 1).
Proof.
  intros Hok Hrem Ht Hfind Hidx Hload.
  destruct (remove_vlan_effect s vid r s' Hok Hrem)
    as [[_ ->]|(_ & Hok' & _ & _ & _ & _ & _ & i & x & Hi & Hvid & _ & _ & _ & Hlive)].
  { exists idx. auto. }
  apply lookup_found_iff in Hfind; [|done|done].
  assert (Hlt : idx < Z.of_nat (length (live_sessions (wwan s)))).
  { destruct (find_tag_range (live_sessions (wwan s)) 0 t) as [Hn|Hr];
      [unfold EINVAL in Hn|]; lia. }
  assert (Hin : live_sessions (wwan s) !! Z.to_nat idx = Some e).
  { apply load_live_lookup; [|done]. split; [done|].
    unfold live_sessions, table_ok in *.
    destruct (vlan_devs (wwan s)); [|simpl in Hlt; lia].
    rewrite length_take in Hlt. lia. }
  destruct (find_tag_delete_other (live_sessions (wwan s)) i x t idx)
    as [Hfind' Hentry]; [done|by intros E; apply Ht; rewrite <- E|done|done|].
  set (idx' := if idx <? Z.of_nat i then idx else idx - 1) in *.
  assert (0 <= idx').
  { destruct (find_tag_range (delete i (live_sessions (wwan s))) 0 t) as [Hn|Hr];
      [|lia].
    rewrite Hfind' in Hn. unfold idx', EINVAL in Hn.
    destruct (idx <? Z.of_nat i); lia. }
  exists idx'. split_and!.
  - apply lookup_found_iff; [done|done|]. by rewrite Hlive.
  - rewrite <- (Z2Nat.id idx') by done. apply live_lookup_load.
    rewrite Hlive, Hentry. done.
  - unfold idx'. destruct (idx <? Z.of_nat i); auto.
Qed.

(** X5.  Removing a tag that no live session carries returns -EINVAL
    and changes nothing: no slot, no count, no call to the transport. *)
Theorem remove_unknown_tag s vid :
  table_ok (wwan s) ->
  Forall (fun e => vlan_id e <> vid) (live_sessions (wwan s)) ->
  ipc_wwan_remove_vlan vid s = Done (- EINVAL) s.
Proof.
  intros Hok Hnone. apply (find_tag_none _ 0) in Hnone; [|lia].
  rewrite remove_vlan_not_found by (done || unfold EINVAL in *; lia).
  by rewrite Hnone.
Qed.

(** X6.  When the transport's open fails for a tag in 1..511 and the
    table has a free slot, the add returns -ENODEV after the one call
    of open; the live sessions and their count stay as they were. *)
Theorem add_open_failure s l vid :
  vlan_devs (wwan s) = Some l -> table_ok (wwan s) ->
  vlan_devs_nr (wwan s) < Z.of_nat (length l) ->
  0 < vid < 512 ->
  wwan_open_result (trace s) vid < 0 ->
  exists s',
    ipc_wwan_add_vlan wwan_open_result vid s = Done (- ENODEV) s' /\
    trace s' = trace s ++ [WwanOpen vid] /\
    vlan_devs_nr (wwan s') = vlan_devs_nr (wwan s) /\
    live_sessions (wwan s') = live_sessions (wwan s).
Proof.
  intros Hl Hok Hroom Hvid Hc.
  pose proof Hok as Hnr. unfold table_ok in Hnr. rewrite Hl in Hnr.
  destruct (lookup_lt_is_Some_2 l (Z.to_nat (vlan_devs_nr (wwan s))))
    as [e He]; [lia|].
  eexists. split; [apply (add_vlan_open_failed _ s l vid e); (done || lia)|].
  split_and!; [done|done|].
  unfold live_sessions. simpl. rewrite Hl. by rewrite take_insert_ge by lia.
Qed.

End TableProperties.

(** ** Session ids and accounting *)

Section AccountingProperties.

(** X7.  The two conversions between VLAN tags and MUX session ids are
    inverse to each other on the 16-bit tags: a tag survives the trip
    through its session id, and a session id from -1 to 65534 survives
    the trip through its tag. *)
Theorem session_id_round_trip :
  (forall tag, 0 <= tag < 65536 ->
     ipc_wwan_mux_session_to_vlan_tag (ipc_wwan_vlan_to_mux_session_id tag)
     = tag) /\
  (forall id, -1 <= id < 65535 ->
     ipc_wwan_vlan_to_mux_session_id (ipc_wwan_mux_session_to_vlan_tag id)
     = id).
Proof.
  unfold ipc_wwan_mux_session_to_vlan_tag, ipc_wwan_vlan_to_mux_session_id,
    to_u16, IPC_MEM_VLAN_TO_SESSION.
  split; intros x Hx.
  - replace (x - 1 + 1) with x by lia. apply Z.mod_small. lia.
  - rewrite Z.mod_small by lia. lia.
Qed.

(** Every way [ipc_wwan_update_stats] returns: the tags, the channel
    ids and the count of the live sessions, the sizes and the trace are
    as before. *)
Lemma update_stats_effect s id n tx u s' :
  table_ok (wwan s) ->
  ipc_wwan_update_stats id n tx s = Done u s' ->
  table_ok (wwan s') /\
  (table_sized (wwan s) -> table_sized (wwan s')) /\
  trace s' = trace s /\
  vlan_devs_nr (wwan s') = vlan_devs_nr (wwan s) /\
  max_devs (wwan s') = max_devs (wwan s) /\
  max_ip_devs (wwan s') = max_ip_devs (wwan s) /\
  dev_addr (netdev (wwan s')) = dev_addr (netdev (wwan s)) /\
  bindings (wwan s') = bindings (wwan s).
Proof.
  intros Hok. unfold ipc_wwan_update_stats, bind at 1.
  rewrite ipc_wwan_get_vlan_devs_nr_ok by done.
  set (idx := find_tag _ 0 _). unfold bind at 1, get_wwan at 1.
  destruct (Z.ltb_spec idx 0); [by intros [= <- <-]|].
  destruct (Z.leb_spec (max_devs (wwan s)) idx); [by intros [= <- <-]|]. simpl.
  destruct (vlan_devs (wwan s)) as [l|] eqn:Hl.
  2:{ unfold idx, live_sessions in *. rewrite Hl in *. simpl in *.
      unfold EINVAL in *. lia. }
  destruct (find_tag_live (wwan s) l (ipc_wwan_mux_session_to_vlan_tag id) Hl Hok)
    as (Hlt & e & He & _); [done|]. fold idx in He, Hlt.
  assert (Hbind : forall f,
    (fun e0 => (vlan_id e0, ch_id e0)) <$>
      take (Z.to_nat (vlan_devs_nr (wwan s))) (<[Z.to_nat idx := set_stats f e]> l)
    = (fun e0 => (vlan_id e0, ch_id e0)) <$>
      take (Z.to_nat (vlan_devs_nr (wwan s))) l).
  { intros f. rewrite !fmap_take. rewrite list_fmap_insert. simpl.
    f_equal. apply list_insert_id. by rewrite list_lookup_fmap, He. }
  unfold table_ok, table_sized, bindings, live_sessions in *. rewrite Hl in *.
  destruct tx; unfold bind; rewrite (vlan_devs_store_ok s l idx e) by done;
    intros [= <- <-]; simpl; rewrite length_insert, Hbind; done.
Qed.

(** What [ipc_wwan_update_stats] does when the lookup finds the slot. *)
Lemma update_stats_found s id n tx idx e :
  table_ok (wwan s) ->
  ipc_wwan_get_vlan_devs_nr (ipc_wwan_mux_session_to_vlan_tag id) s
  = Done idx s ->
  0 <= idx < max_devs (wwan s) ->
  vlan_devs_load idx s = Done e s ->
  exists s',
    ipc_wwan_update_stats id n tx s = Done tt s' /\
    trace s' = trace s /\
    vlan_devs_nr (wwan s') = vlan_devs_nr (wwan s) /\
    vlan_devs_load idx s' =
    Done {| vlan_id := vlan_id e; ch_id := ch_id e;
            stats := (if tx then count_tx n else count_rx n) (stats e) |} s' /\
    ndev_stats (netdev (wwan s')) =
    (if tx then count_tx n else count_rx n) (ndev_stats (netdev (wwan s))) /\
    (forall j e', j <> idx -> vlan_devs_load j s = Done e' s ->
                  vlan_devs_load j s' = Done e' s').
Proof.
  intros Hok Hfind Hidx Hload. unfold ipc_wwan_update_stats.
  mrun Hfind. unfold bind at 1, get_wwan at 1. cbv beta iota.
  destruct (Z.ltb_spec idx 0); [lia|].
  destruct (Z.leb_spec (max_devs (wwan s)) idx); [lia|]. simpl.
  pose proof Hload as (_ & _ & l & Hl & He)%vlan_devs_load_inv.
  assert (Hlt : (Z.to_nat idx < length l)%nat) by by eapply lookup_lt_Some.
  assert (Hother : forall f j e',
    j <> idx -> vlan_devs_load j s = Done e' s ->
    vlan_devs_load j
      {| wwan := with_ndev_stats f
                   (with_vlan_devs (<[Z.to_nat idx := set_stats f e]> l) (wwan s));
         trace := trace s |} = Done e'
      {| wwan := with_ndev_stats f
                   (with_vlan_devs (<[Z.to_nat idx := set_stats f e]> l) (wwan s));
         trace := trace s |}).
  { intros f j e' Hj (_ & Hj0 & l0 & Hl0 & He')%vlan_devs_load_inv.
    rewrite Hl in Hl0. injection Hl0 as <-.
    eapply vlan_devs_load_ok; [done|done|].
    rewrite list_lookup_insert_ne by lia. done. }
  destruct tx; unfold bind; rewrite (vlan_devs_store_ok s l idx e) by done;
    (eexists; split_and!;
     [done | done | done
     | eapply vlan_devs_load_ok; [done|lia|by apply list_lookup_insert_eq]
     | done | by apply Hother]).
Qed.

(** What it does when the lookup finds none. *)
Lemma update_stats_not_found s id n tx r :
  ipc_wwan_get_vlan_devs_nr (ipc_wwan_mux_session_to_vlan_tag id) s
  = Done r s ->
  r < 0 -> ipc_wwan_update_stats id n tx s = Done tt s.
Proof.
  intros Hfind Hr. unfold ipc_wwan_update_stats. mrun Hfind.
  unfold bind, get_wwan. by destruct (Z.ltb_spec r 0); [|lia].
Qed.

Lemma session_tag_id tag :
  0 <= tag < 65536 ->
  ipc_wwan_mux_session_to_vlan_tag (ipc_wwan_vlan_to_mux_session_id tag) = tag.
Proof.
  unfold ipc_wwan_mux_session_to_vlan_tag, ipc_wwan_vlan_to_mux_session_id,
    to_u16, IPC_MEM_VLAN_TO_SESSION.
  intros Hx. replace (tag - 1 + 1) with tag by lia. apply Z.mod_small. lia.
Qed.

(** X8.  When the lookup resolves the tag derived from [id] to a slot
    below [max_devs], [ipc_wwan_update_stats] adds 1 to the packet
    counter and [n] to the byte counter, both modulo 2^64, of the
    transmit direction (of the receive direction when [tx] is false),
    in that slot and in the root device.  The counters of the other
    direction, the tag and the channel id of the slot, every other
    slot, the session count and the trace are unchanged. *)
Theorem update_stats_adds_counts s id n tx idx e :
  table_ok (wwan s) ->
  ipc_wwan_get_vlan_devs_nr (ipc_wwan_mux_session_to_vlan_tag id) s
  = Done idx s ->
  0 <= idx < max_devs (wwan s) ->
  vlan_devs_load idx s = Done e s ->
  exists s' e',
    ipc_wwan_update_stats id n tx s = Done tt s' /\
    trace s' = trace s /\
    vlan_devs_nr (wwan s') = vlan_devs_nr (wwan s) /\
    vlan_devs_load idx s' = Done e' s' /\
    vlan_id e' = vlan_id e /\ ch_id e' = ch_id e /\
    (if tx then
       tx_packets (stats e') = (tx_packets (stats e) + 1) mod 2 ^ 64 /\
       tx_bytes (stats e') = (tx_bytes (stats e) + n) mod 2 ^ 64 /\
       rx_packets (stats e') = rx_packets (stats e) /\
       rx_bytes (stats e') = rx_bytes (stats e) /\
       tx_packets (ndev_stats (netdev (wwan s')))
       = (tx_packets (ndev_stats (netdev (wwan s))) + 1) mod 2 ^ 64 /\
       tx_bytes (ndev_stats (netdev (wwan s')))
       = (tx_bytes (ndev_stats (netdev (wwan s))) + n) mod 2 ^ 64 /\
       rx_packets (ndev_stats (netdev (wwan s')))
       = rx_packets (ndev_stats (netdev (wwan s))) /\
       rx_bytes (ndev_stats (netdev (wwan s')))
       = rx_bytes (ndev_stats (netdev (wwan s)))
     else
       rx_packets (stats e') = (rx_packets (stats e) + 1) mod 2 ^ 64 /\
       rx_bytes (stats e') = (rx_bytes (stats e) + n) mod 2 ^ 64 /\
       tx_packets (stats e') = tx_packets (stats e) /\
       tx_bytes (stats e') = tx_bytes (stats e) /\
       rx_packets (ndev_stats (netdev (wwan s')))
       = (rx_packets (ndev_stats (netdev (wwan s))) + 1) mod 2 ^ 64 /\
       rx_bytes (ndev_stats (netdev (wwan s')))
       = (rx_bytes (ndev_stats (netdev (wwan s))) + n) mod 2 ^ 64 /\
       tx_packets (ndev_stats (netdev (wwan s')))
       = tx_packets (ndev_stats (netdev (wwan s))) /\
       tx_bytes (ndev_stats (netdev (wwan s')))
       = tx_bytes (ndev_stats (netdev (wwan s)))) /\
    dev_addr (netdev (wwan s')) = dev_addr (netdev (wwan s)) /\
    (forall j e'', j <> idx -> vlan_devs_load j s = Done e'' s ->
                   vlan_devs_load j s' = Done e'' s').
Proof.
  intros Hok Hfind Hidx Hload.
  destruct (update_stats_found s id n tx idx e Hok Hfind Hidx Hload)
    as (s' & Hrun & Htrace & Hnr & Hslot & Hroot & Hothers).
  pose proof (update_stats_effect s id n tx tt s' Hok Hrun)
    as (_ & _ & _ & _ & _ & _ & Haddr & _).
  exists s',
    {| vlan_id := vlan_id e; ch_id := ch_id e;
       stats := (if tx then count_tx n else count_rx n) (stats e) |}.
  split_and!; try done.
  rewrite Hroot. destruct tx; simpl; unfold to_ulong; done.
Qed.

End AccountingProperties.

(** ** Commands that only read *)

Lemma bind_inv {A B} (c : M A) (k : A -> M B) s b s' :
  bind c k s = Done b s' ->
  exists a s1, c s = Done a s1 /\ k a s1 = Done b s'.
Proof.
  unfold bind. destruct (c s) as [a s1|]; [eauto | done].
Qed.

Lemma pure_ret {A} (a : A) : pure_state (ret a).
Proof. by intros s b s' [= _ ->]. Qed.

Lemma pure_raise {A} f : pure_state (@raise A f).
Proof. by intros s b s'. Qed.

Lemma pure_get_wwan : pure_state get_wwan.
Proof. by intros s b s' [= _ ->]. Qed.

Lemma pure_bind {A B} (c : M A) (k : A -> M B) :
  pure_state c -> (forall a, pure_state (k a)) -> pure_state (bind c k).
Proof.
  intros Hc Hk s b s' (a & s1 & H1 & H2)%bind_inv.
  apply Hc in H1 as ->. by apply Hk in H2.
Qed.

(** Proves that a command built from reads and returns is pure. *)
Ltac pure_step :=
  first [ apply pure_ret | apply pure_raise | apply pure_get_wwan
        | apply pure_bind; [|intros ?] | case_match ].

Lemma pure_vlan_devs_load i : pure_state (vlan_devs_load i).
Proof. unfold vlan_devs_load. repeat pure_step. Qed.

Lemma pure_skb_load skb off : pure_state (skb_load skb off).
Proof. unfold skb_load. repeat pure_step. Qed.

Lemma pure_skb_load_be16 skb off : pure_state (skb_load_be16 skb off).
Proof.
  unfold skb_load_be16.
  repeat first [apply pure_skb_load | pure_step].
Qed.

Lemma pure_skb_store skb off b : pure_state (skb_store skb off b).
Proof. unfold skb_store. repeat first [apply pure_skb_load | pure_step]. Qed.

Lemma pure_skb_store_be16 skb off v : pure_state (skb_store_be16 skb off v).
Proof.
  unfold skb_store_be16. repeat first [apply pure_skb_store | pure_step].
Qed.

Lemma pure_ether_addr_copy skb off addr :
  pure_state (ether_addr_copy skb off addr).
Proof.
  unfold ether_addr_copy. repeat first [apply pure_skb_store | pure_step].
Qed.

Lemma pure_eth_type_trans skb : pure_state (eth_type_trans skb).
Proof.
  unfold eth_type_trans. repeat first [apply pure_skb_load_be16 | pure_step].
Qed.

Lemma pure_pull_header skb is_ip : pure_state (ipc_wwan_pull_header skb is_ip).
Proof.
  unfold ipc_wwan_pull_header.
  repeat first [apply pure_skb_load_be16 | pure_step].
Qed.

Lemma pure_lookup_loop n i tag : pure_state (get_vlan_devs_nr_loop n i tag).
Proof.
  revert i. induction n as [|n IH]; intros i; simpl;
    repeat first [apply pure_vlan_devs_load | apply IH | pure_step].
Qed.

Lemma pure_lookup tag : pure_state (ipc_wwan_get_vlan_devs_nr tag).
Proof.
  unfold ipc_wwan_get_vlan_devs_nr.
  repeat first [apply pure_lookup_loop | pure_step].
Qed.

Lemma pure_skb_push skb n : pure_state (skb_push skb n).
Proof. unfold skb_push. repeat pure_step. Qed.

Lemma pure_skb_put skb n : pure_state (skb_put skb n).
Proof. unfold skb_put. repeat pure_step. Qed.

Lemma pure_skb_memcpy dst src n : pure_state (skb_memcpy dst src n).
Proof. unfold skb_memcpy. repeat pure_step. Qed.


(** ** Further properties of the transmit path *)

Section TransmitProperties.

Variable wwan_transmit_result : list call -> Z -> Z -> sk_buff -> Z.
Variable dev_alloc_skb_result : list call -> Z -> option sk_buff.

Lemma transmit_send_outcomes tag idx hs skb s r s' :
  transmit_send wwan_transmit_result tag idx hs skb s = Done r s' ->
  exists e,
    vlan_devs_load idx s = Done e s /\
    ((r = NETDEV_TX_OK \/ r = NETDEV_TX_BUSY) /\
     s' = traced (WwanTransmit tag (ch_id e) skb) s \/
     r = - EIO /\
     exists x, s' = traced (KfreeSkb (Some x))
                      (traced (WwanTransmit tag (ch_id e) skb) s)).
Proof.
  unfold transmit_send. intros (e & s1 & Hload & Hrun)%bind_inv.
  pose proof (pure_vlan_devs_load idx _ _ _ Hload) as ->.
  exists e. split; [done|]. revert Hrun.
  unfold bind at 1, imem_sys_wwan_transmit, bind, get_trace, emit, ret.
  fold (traced (WwanTransmit tag (ch_id e) skb) s).
  set (r0 := wwan_transmit_result _ _ _ _).
  destruct (r0 =? 0); [intros [= <- <-]; auto|].
  destruct (r0 =? -2).
  - unfold skb_push. destruct (Z.ltb _ 0); [done|].
    unfold ret. destruct (Z.eqb _ 0); [|intros [= <- <-]; auto].
    rewrite transmit_exit_spec. intros [= <- <-]; eauto.
  - rewrite transmit_exit_spec. intros [= <- <-]; eauto.
Qed.

Lemma skb_align_outcomes skb s a s' :
  ipc_wwan_skb_align dev_alloc_skb_result skb s = Done a s' ->
  s' = s /\ a = Some skb \/
  s' = traced (DevAllocSkb (len skb + (IPC_WWAN_ALIGN - 1))) s.
Proof.
  unfold ipc_wwan_skb_align. destruct (_ =? 0); [intros [= <- <-]; auto|].
  intros (n & s1 & Halloc & Hrun)%bind_inv. right.
  unfold dev_alloc_skb, bind, get_trace, emit, ret in Halloc.
  injection Halloc as <- <-.
  destruct (dev_alloc_skb_result _ _) as [new_skb|]; [|by injection Hrun as <- <-].
  apply bind_inv in Hrun as (n1 & s1 & H1 & Hrun).
  apply pure_skb_memcpy in H1 as ->.
  apply bind_inv in Hrun as (n2 & s2 & H2 & Hrun).
  apply pure_skb_put in H2 as ->. by injection Hrun as <- <-.
Qed.

(** Every way [ipc_wwan_transmit] returns. *)
Lemma transmit_effect s skb r s' :
  ipc_wwan_transmit wwan_transmit_result dev_alloc_skb_result skb s
  = Done r s' ->
  wwan s' = wwan s /\
  (r = NETDEV_TX_OK \/ r = NETDEV_TX_BUSY \/
   r = - EINVAL \/ r = - EXDEV \/ r = - EIO) /\
  exists ext,
    trace s' = trace s ++ ext /\
    frees ext = (if r <? 0 then 1%nat else 0%nat) /\
    sends ext = (if r <? 0
                 then (if r =? - EIO then 1%nat else 0%nat) else 1%nat).
Proof.
  assert (Hexit : forall x c s0 r0 s1,
    transmit_exit x c s0 = Done r0 s1 -> (c = - EINVAL \/ c = - EXDEV) ->
    wwan s1 = wwan s0 /\
    (r0 = NETDEV_TX_OK \/ r0 = NETDEV_TX_BUSY \/
     r0 = - EINVAL \/ r0 = - EXDEV \/ r0 = - EIO) /\
    exists ext,
      trace s1 = trace s0 ++ ext /\
      frees ext = (if r0 <? 0 then 1%nat else 0%nat) /\
      sends ext = (if r0 <? 0
                   then (if r0 =? - EIO then 1%nat else 0%nat) else 1%nat)).
  { intros x c s0 r0 s1. rewrite transmit_exit_spec. intros [= <- <-] Hc.
    split; [done|]. split; [tauto|]. exists [KfreeSkb x].
    destruct Hc as [-> | ->]; done. }
  assert (Hsend : forall tag idx hs x s0 r0 s1 pre,
    transmit_send wwan_transmit_result tag idx hs x s0 = Done r0 s1 ->
    wwan s0 = wwan s -> trace s0 = trace s ++ pre ->
    frees pre = 0%nat -> sends pre = 0%nat ->
    wwan s1 = wwan s /\
    (r0 = NETDEV_TX_OK \/ r0 = NETDEV_TX_BUSY \/
     r0 = - EINVAL \/ r0 = - EXDEV \/ r0 = - EIO) /\
    exists ext,
      trace s1 = trace s ++ ext /\
      frees ext = (if r0 <? 0 then 1%nat else 0%nat) /\
      sends ext = (if r0 <? 0
                   then (if r0 =? - EIO then 1%nat else 0%nat) else 1%nat)).
  { intros tag idx hs x s0 r0 s1 pre Hrun Hw Ht Hf Hs.
    assert (Hcount : forall c t, frees (pre ++ c :: t) = frees (c :: t) /\
                                 sends (pre ++ c :: t) = sends (c :: t)).
    { intros c t. clear -Hf Hs. induction pre as [|p pre IH]; [done|].
      destruct p; simpl in *; try done; by apply IH. }
    apply transmit_send_outcomes in Hrun as (e & _ & [[Hr ->]|(-> & y & ->)]).
    - split; [done|]. split; [tauto|].
      exists (pre ++ [WwanTransmit tag (ch_id e) x]). simpl.
      rewrite Ht, <- app_assoc. split; [done|].
      destruct (Hcount (WwanTransmit tag (ch_id e) x) []) as [-> ->].
      by destruct Hr as [-> | ->].
    - split; [done|]. split; [tauto|].
      exists (pre ++ [WwanTransmit tag (ch_id e) x; KfreeSkb (Some y)]). simpl.
      rewrite Ht, <- !app_assoc. split; [done|].
      by destruct (Hcount (WwanTransmit tag (ch_id e) x) [KfreeSkb (Some y)])
        as [-> ->]. }
  unfold ipc_wwan_transmit.
  destruct (_ =? WWAN_ROOT_VLAN_TAG); [intros H; eapply Hexit; eauto|].
  intros ([[hs oip] skb1] & s1 & Hpull & Hrun)%bind_inv.
  apply pure_pull_header in Hpull as ->. simpl in Hrun.
  destruct (hs =? 0); [eapply Hexit; eauto|].
  apply bind_inv in Hrun as (idx & s1 & Hfind & Hrun).
  apply pure_lookup in Hfind as ->.
  apply bind_inv in Hrun as (w & s1 & [= <- <-] & Hrun).
  apply bind_inv in Hrun as (unknown & s1 & Hunk & Hrun).
  assert (s1 = s) as ->.
  { revert Hunk. destruct (_ || _); [by intros [= _ <-]|].
    intros (e & s2 & Hload & [= _ <-])%bind_inv.
    by apply pure_vlan_devs_load in Hload. }
  destruct unknown; [eapply Hexit; eauto|].
  destruct (_ && _).
  { destruct (negb _); [eapply Hexit; eauto|].
    eapply (Hsend _ _ _ _ _ _ _ []); eauto. by rewrite app_nil_r. }
  destruct (_ && _); [|eapply Hexit; eauto].
  destruct (default false oip); [eapply Hexit; eauto|].
  apply bind_inv in Hrun as (a & s1 & Halign & Hrun).
  apply skb_align_outcomes in Halign as [[-> ->]| ->].
  { eapply (Hsend _ _ _ _ _ _ _ []); eauto. by rewrite app_nil_r. }
  destruct a as [skb2|].
  - eapply (Hsend _ _ _ _ _ _ _ [DevAllocSkb _]); eauto.
  - rewrite transmit_exit_spec in Hrun. injection Hrun as <- <-.
    split; [done|]. split; [tauto|].
    exists [DevAllocSkb (len skb1 + (IPC_WWAN_ALIGN - 1)); KfreeSkb None].
    simpl. by rewrite <- app_assoc.
Qed.

(** X9.  Whatever [ipc_wwan_transmit] returns, it has left the root
    device (table, count, counters) as it was and has only added calls
    to the trace.  Its result is one of NETDEV_TX_OK, NETDEV_TX_BUSY,
    -EINVAL, -EXDEV and -EIO.  A frame is handed to the transport at
    most once, and exactly once when the result is not negative; a
    negative result comes with exactly one call of the free function, a
    result that is not negative with none. *)
Theorem transmit_outcomes s skb r s' :
  ipc_wwan_transmit wwan_transmit_result dev_alloc_skb_result skb s
  = Done r s' ->
  wwan s' = wwan s /\
  (r = NETDEV_TX_OK \/ r = NETDEV_TX_BUSY \/
   r = - EINVAL \/ r = - EXDEV \/ r = - EIO) /\
  exists ext,
    trace s' = trace s ++ ext /\
    frees ext = (if r <? 0 then 1%nat else 0%nat) /\
    sends ext = (if r <? 0
                 then (if r =? - EIO then 1%nat else 0%nat) else 1%nat).
Proof. apply transmit_effect. Qed.

(** X10.  A frame with a tag other than 0 whose header was stripped is
    dropped when no live session carries its tag: the result is
    -EINVAL, the stripped frame is freed and the transport is not
    called. *)
Theorem transmit_unknown_session s skb tag hs oip skb' :
  snd (vlan_get_tag skb) = tag -> tag <> WWAN_ROOT_VLAN_TAG ->
  ipc_wwan_pull_header skb (Some false) s = Done (hs, oip, skb') s ->
  hs <> 0 ->
  table_ok (wwan s) ->
  Forall (fun e => vlan_id e <> tag) (live_sessions (wwan s)) ->
  ipc_wwan_transmit wwan_transmit_result dev_alloc_skb_result skb s =
  Done (- EINVAL) (traced (KfreeSkb (Some skb')) s).
Proof.
  intros Htag Hroot Hpull Hhs Hok Hnone.
  unfold ipc_wwan_transmit. rewrite Htag.
  destruct (Z.eqb_spec tag WWAN_ROOT_VLAN_TAG); [done|].
  mrun Hpull. destruct (Z.eqb_spec hs 0); [done|].
  mrun (ipc_wwan_get_vlan_devs_nr_ok s tag Hok).
  apply (find_tag_none _ 0) in Hnone; [|lia]. rewrite Hnone. done.
Qed.

(** X11.  A frame with a tag other than 0 that is shorter than the
    header to strip (18 bytes when its protocol is 802.1Q, 14
    otherwise) is dropped untouched: the result is -EINVAL, the frame
    is freed as it came, no session is looked up and the transport is
    not called. *)
Theorem transmit_short_frame s skb :
  snd (vlan_get_tag skb) <> WWAN_ROOT_VLAN_TAG ->
  len skb < (if protocol skb =? ETH_P_8021Q then VLAN_ETH_HLEN else ETH_HLEN) ->
  0 <= mac_header skb ->
  mac_header skb + (if protocol skb =? ETH_P_8021Q then 18 else 14)
  <= Z.of_nat (length (buf skb)) ->
  ipc_wwan_transmit wwan_transmit_result dev_alloc_skb_result skb s =
  Done (- EINVAL) (traced (KfreeSkb (Some skb)) s).
Proof.
  intros Htag Hshort Hmac Hbuf. unfold ipc_wwan_transmit.
  destruct (Z.eqb_spec (snd (vlan_get_tag skb)) WWAN_ROOT_VLAN_TAG); [done|].
  assert (Hpull : ipc_wwan_pull_header skb (Some false) s
                  = Done (0, Some false, skb) s).
  { unfold ipc_wwan_pull_header.
    destruct (protocol skb =? ETH_P_8021Q).
    - destruct (lookup_lt_is_Some_2 (buf skb) (Z.to_nat (mac_header skb + 16)))
        as [hi Hhi]; [lia|].
      destruct (lookup_lt_is_Some_2 (buf skb) (Z.to_nat (mac_header skb + 16 + 1)))
        as [lo Hlo]; [lia|].
      unfold bind at 1 2, skb_load_be16, bind.
      rewrite (skb_load_ok _ _ hi) by (done || lia).
      rewrite (skb_load_ok _ _ lo) by (done || lia).
      unfold ret at 1 2. by destruct (Z.ltb_spec (len skb) VLAN_ETH_HLEN); [|lia].
    - destruct (lookup_lt_is_Some_2 (buf skb) (Z.to_nat (mac_header skb + 12)))
        as [hi Hhi]; [lia|].
      destruct (lookup_lt_is_Some_2 (buf skb) (Z.to_nat (mac_header skb + 12 + 1)))
        as [lo Hlo]; [lia|].
      unfold bind at 1 2, skb_load_be16, bind.
      rewrite (skb_load_ok _ _ hi) by (done || lia).
      rewrite (skb_load_ok _ _ lo) by (done || lia).
      unfold ret at 1 2. by destruct (Z.ltb_spec (len skb) ETH_HLEN); [|lia]. }
  mrun Hpull. done.
Qed.

(** X12.  A frame whose class agrees with its resolved session, and
    which needs no copy (the tag is below 256, or the stripped frame
    starts on a 4-byte boundary), is handed to the transport once, with
    its tag, the channel id of the session and the stripped frame.  The
    transport's answer 0 gives NETDEV_TX_OK; -2 gives NETDEV_TX_BUSY,
    the frame is not freed; any other answer gives -EIO and the stripped
    frame is freed after the call. *)
Theorem transmit_sends s skb tag hs is_ip skb' idx e :
  snd (vlan_get_tag skb) = tag -> tag <> WWAN_ROOT_VLAN_TAG ->
  ipc_wwan_pull_header skb (Some false) s = Done (hs, Some is_ip, skb') s ->
  0 < hs ->
  resolved s tag idx e ->
  class_mismatch tag is_ip = false ->
  tag < 256 \/ Z.land (skb_data_ptr skb') (IPC_WWAN_ALIGN - 1) = 0 ->
  0 <= data skb -> skb_data_ptr skb <> 0 ->
  ipc_wwan_transmit wwan_transmit_result dev_alloc_skb_result skb s =
  (let r := wwan_transmit_result (trace s) tag (ch_id e) skb' in
   if r =? 0 then
     Done NETDEV_TX_OK (traced (WwanTransmit tag (ch_id e) skb') s)
   else if r =? -2 then
     Done NETDEV_TX_BUSY (traced (WwanTransmit tag (ch_id e) skb') s)
   else
     Done (- EIO) (traced (KfreeSkb (Some skb'))
                     (traced (WwanTransmit tag (ch_id e) skb') s))).
Proof.
  intros Htag Hroot Hpull Hhs Hres Hclass Hcopy Hdata Hptr.
  rewrite (transmit_classified _ _ s skb tag hs is_ip skb' idx e);
    [|done|done|done|lia|done].
  rewrite Hclass. destruct Hres as (_ & _ & Hload & _).
  assert (Hsend :
    transmit_send wwan_transmit_result tag idx hs skb' s =
    (let r := wwan_transmit_result (trace s) tag (ch_id e) skb' in
     if r =? 0 then
       Done NETDEV_TX_OK (traced (WwanTransmit tag (ch_id e) skb') s)
     else if r =? -2 then
       Done NETDEV_TX_BUSY (traced (WwanTransmit tag (ch_id e) skb') s)
     else
       Done (- EIO) (traced (KfreeSkb (Some skb'))
                       (traced (WwanTransmit tag (ch_id e) skb') s)))).
  { unfold transmit_send. mrun Hload.
    unfold bind at 1, imem_sys_wwan_transmit, bind, get_trace, emit, ret.
    fold (traced (WwanTransmit tag (ch_id e) skb') s). cbv zeta.
    set (r := wwan_transmit_result _ _ _ _).
    destruct (r =? 0); [done|]. destruct (r =? -2); [|done].
    apply pull_header_inv in Hpull as (_ & _ & _ & -> & _); [|done].
    unfold skb_push, skb_data_ptr in *. simpl.
    replace (data skb + hs - hs) with (data skb) by lia.
    destruct (Z.ltb_spec (data skb) 0); [lia|]. unfold ret.
    by destruct (Z.eqb_spec (head skb + data skb) 0). }
  destruct (Z.ltb_spec tag 256); [done|].
  destruct Hcopy as [?|Haligned]; [lia|].
  unfold bind, ipc_wwan_skb_align. rewrite Haligned. done.
Qed.

(** X13.  A non-IP frame on a resolved control session whose stripped
    data does not start on a 4-byte boundary is dropped when the
    allocation of the copy fails: the result is -EINVAL, the allocator
    was asked for [len + 3] bytes, the free function is called with
    NULL, and the frame itself is neither freed nor handed to the
    transport. *)
Theorem transmit_copy_out_of_memory s skb tag hs skb' idx e :
  snd (vlan_get_tag skb) = tag ->
  ipc_wwan_pull_header skb (Some false) s = Done (hs, Some false, skb') s ->
  hs <> 0 ->
  resolved s tag idx e ->
  257 <= tag <= 511 ->
  Z.land (skb_data_ptr skb') (IPC_WWAN_ALIGN - 1) <> 0 ->
  dev_alloc_skb_result (trace s) (len skb' + (IPC_WWAN_ALIGN - 1)) = None ->
  ipc_wwan_transmit wwan_transmit_result dev_alloc_skb_result skb s =
  Done (- EINVAL)
    (traced (KfreeSkb None)
       (traced (DevAllocSkb (len skb' + (IPC_WWAN_ALIGN - 1))) s)).
Proof.
  intros Htag Hpull Hhs Hres Hrange Hmis Halloc.
  rewrite (transmit_classified _ _ s skb tag hs false skb' idx e);
    [|done|unfold WWAN_ROOT_VLAN_TAG; lia|done|done|done].
  unfold class_mismatch.
  destruct (Z.ltb_spec 0 tag), (Z.ltb_spec tag 256), (Z.ltb_spec 256 tag),
    (Z.ltb_spec tag 512); try lia. simpl.
  unfold bind at 1, ipc_wwan_skb_align.
  destruct (Z.eqb_spec (Z.land (skb_data_ptr skb') (IPC_WWAN_ALIGN - 1)) 0);
    [done|].
  unfold bind at 1, dev_alloc_skb, bind, get_trace, emit, ret.
  rewrite Halloc. done.
Qed.

Lemma land_align a :
  0 <= Z.land a (IPC_WWAN_ALIGN - 1) < 4 /\
  (Z.land a (IPC_WWAN_ALIGN - 1) <> 0 ->
   Z.land (a + (IPC_WWAN_ALIGN - Z.land a (IPC_WWAN_ALIGN - 1)))
          (IPC_WWAN_ALIGN - 1) = 0).
Proof.
  unfold IPC_WWAN_ALIGN. change (4 - 1) with (Z.ones 2).
  rewrite !Z.land_ones by lia. change (2 ^ 2) with 4.
  split; [apply Z.mod_pos_bound; lia|]. intros _.
  rewrite (Z.div_mod a 4) at 1 by lia.
  replace (4 * (a / 4) + a mod 4 + (4 - a mod 4)) with ((a / 4 + 1) * 4) by lia.
  apply Z.mod_mul. lia.
Qed.

Lemma skb_align_aligned skb s x s' :
  ipc_wwan_skb_align dev_alloc_skb_result skb s = Done (Some x) s' ->
  Z.land (skb_data_ptr x) (IPC_WWAN_ALIGN - 1) = 0.
Proof.
  unfold ipc_wwan_skb_align.
  destruct (Z.eqb_spec (Z.land (skb_data_ptr skb) (IPC_WWAN_ALIGN - 1)) 0)
    as [Hal0|Hmis0]; [by intros [= <- _]|].
  intros (n & s1 & _ & Hrun)%bind_inv.
  destruct n as [n|]; [|done].
  apply bind_inv in Hrun as (n1 & s2 & H1 & Hrun).
  apply bind_inv in Hrun as (n2 & s3 & H2 & [= <- _]).
  assert (Hp2 : skb_data_ptr n2 = skb_data_ptr n1).
  { unfold skb_put, ret in H2. destruct (_ <? _); [done|]. by injection H2 as <- _. }
  rewrite Hp2. revert H1. unfold skb_memcpy.
  destruct (_ || _); [done|]. destruct (_ || _); [done|].
  unfold ret. intros [= <- _].
  destruct (Z.eqb_spec (Z.land (skb_data_ptr n) (IPC_WWAN_ALIGN - 1)) 0)
    as [Hz|Hnz]; simpl; [done|].
  apply land_align in Hnz. unfold skb_data_ptr in *. simpl.
  by rewrite Z.add_assoc.
Qed.

(** X14.  Whatever [ipc_wwan_transmit] returns for a frame with a tag
    above 256, every frame it handed to the transport starts on a
    4-byte boundary. *)
Theorem transmit_control_frames_aligned s skb r s' :
  ipc_wwan_transmit wwan_transmit_result dev_alloc_skb_result skb s
  = Done r s' ->
  256 < snd (vlan_get_tag skb) ->
  exists ext,
    trace s' = trace s ++ ext /\
    forall tag ch x,
      WwanTransmit tag ch x ∈ ext ->
      Z.land (skb_data_ptr x) (IPC_WWAN_ALIGN - 1) = 0.
Proof.
  intros Hrun Htag.
  assert (Hexit : forall x c s0 r0 s1,
    transmit_exit x c s0 = Done r0 s1 -> s0 = s ->
    exists ext,
      trace s1 = trace s ++ ext /\
      forall tag ch y,
        WwanTransmit tag ch y ∈ ext ->
        Z.land (skb_data_ptr y) (IPC_WWAN_ALIGN - 1) = 0).
  { intros x c s0 r0 s1. rewrite transmit_exit_spec. intros [= _ <-] ->.
    exists [KfreeSkb x]. split; [done|].
    intros tag ch y [=]%list_elem_of_singleton. }
  assert (Hsend : forall tag idx hs x s0 r0 s1 pre,
    transmit_send wwan_transmit_result tag idx hs x s0 = Done r0 s1 ->
    trace s0 = trace s ++ pre ->
    (forall tag ch y, WwanTransmit tag ch y ∈ pre -> False) ->
    Z.land (skb_data_ptr x) (IPC_WWAN_ALIGN - 1) = 0 ->
    exists ext,
      trace s1 = trace s ++ ext /\
      forall tag ch y,
        WwanTransmit tag ch y ∈ ext ->
        Z.land (skb_data_ptr y) (IPC_WWAN_ALIGN - 1) = 0).
  { intros tag idx hs x s0 r0 s1 pre Hs Ht Hpre Hx.
    apply transmit_send_outcomes in Hs as (e & _ & [[_ ->]|(_ & y & ->)]).
    - exists (pre ++ [WwanTransmit tag (ch_id e) x]). simpl.
      rewrite Ht, <- app_assoc. split; [done|].
      intros tag' ch z [Hin|[= _ _ ->]%list_elem_of_singleton]%elem_of_app;
        [by destruct (Hpre _ _ _ Hin) | done].
    - exists (pre ++ [WwanTransmit tag (ch_id e) x; KfreeSkb (Some y)]). simpl.
      rewrite Ht, <- !app_assoc. split; [done|].
      intros tag' ch z [Hin|Hin]%elem_of_app; [by destruct (Hpre _ _ _ Hin)|].
      apply elem_of_cons in Hin as [[= _ _ ->]|[=]%list_elem_of_singleton].
      done. }
  revert Hrun. unfold ipc_wwan_transmit.
  destruct (_ =? WWAN_ROOT_VLAN_TAG); [intros H; eapply Hexit; eauto|].
  intros ([[hs oip] skb1] & s1 & Hpull & Hrun)%bind_inv.
  apply pure_pull_header in Hpull as ->. simpl in Hrun.
  destruct (hs =? 0); [eapply Hexit; eauto|].
  apply bind_inv in Hrun as (idx & s1 & Hfind & Hrun).
  apply pure_lookup in Hfind as ->.
  apply bind_inv in Hrun as (w & s1 & [= <- <-] & Hrun).
  apply bind_inv in Hrun as (unknown & s1 & Hunk & Hrun).
  assert (s1 = s) as ->.
  { revert Hunk. destruct (_ || _); [by intros [= _ <-]|].
    intros (e & s2 & Hload & [= _ <-])%bind_inv.
    by apply pure_vlan_devs_load in Hload. }
  destruct unknown; [eapply Hexit; eauto|].
  destruct (Z.ltb_spec (snd (vlan_get_tag skb)) 256); [lia|].
  rewrite andb_false_r in Hrun.
  destruct (_ && _); [|eapply Hexit; eauto].
  destruct (default false oip); [eapply Hexit; eauto|].
  apply bind_inv in Hrun as (a & s1 & Halign & Hrun).
  destruct a as [skb2|].
  - pose proof (skb_align_aligned _ _ _ _ Halign) as Hal.
    apply skb_align_outcomes in Halign as [[-> _]| ->].
    + eapply (Hsend _ _ _ _ _ _ _ []); eauto; [by rewrite app_nil_r|].
      intros ??? []%elem_of_nil.
    + eapply (Hsend _ _ _ _ _ _ _ [DevAllocSkb _]); eauto.
      intros ??? [=]%list_elem_of_singleton.
  - apply skb_align_outcomes in Halign as [[_ [=]]| ->].
    rewrite transmit_exit_spec in Hrun. injection Hrun as _ <-.
    exists [DevAllocSkb (len skb1 + (IPC_WWAN_ALIGN - 1)); KfreeSkb None].
    simpl. rewrite <- app_assoc. split; [done|].
    intros tag ch y Hin.
    apply elem_of_cons in Hin as [[=]|[=]%list_elem_of_singleton].
Qed.

(** X15.  When the data of a frame does not start on a 4-byte boundary
    and the allocator returns an empty buffer with room for three bytes
    of padding and the frame, [ipc_wwan_skb_align] returns a copy in
    that buffer: it starts on a 4-byte boundary and carries the same
    bytes; the only call made is the allocation of [len + 3] bytes. *)
Theorem skb_align_copies s skb n :
  Z.land (skb_data_ptr skb) (IPC_WWAN_ALIGN - 1) <> 0 ->
  skb_ok skb ->
  dev_alloc_skb_result (trace s) (len skb + (IPC_WWAN_ALIGN - 1)) = Some n ->
  len n = 0 -> 0 <= data n ->
  data n + (IPC_WWAN_ALIGN - 1) + len skb <= Z.of_nat (length (buf n)) ->
  exists copy,
    ipc_wwan_skb_align dev_alloc_skb_result skb s =
    Done (Some copy)
      (traced (DevAllocSkb (len skb + (IPC_WWAN_ALIGN - 1))) s) /\
    Z.land (skb_data_ptr copy) (IPC_WWAN_ALIGN - 1) = 0 /\
    head copy = head n /\
    len copy = len skb /\
    skb_payload copy = skb_payload skb.
Proof.
  intros Hmis (Hd & Hl & Hb) Halloc Hn Hdn Hroom.
  unfold ipc_wwan_skb_align.
  destruct (Z.eqb_spec (Z.land (skb_data_ptr skb) (IPC_WWAN_ALIGN - 1)) 0)
    as [Hal0|_]; [done|].
  unfold bind at 1, dev_alloc_skb, bind, get_trace, emit, ret.
  rewrite Halloc. fold (traced (DevAllocSkb (len skb + (IPC_WWAN_ALIGN - 1))) s).
  set (off := Z.land (skb_data_ptr n) (IPC_WWAN_ALIGN - 1)).
  destruct (land_align (skb_data_ptr n)) as [Hoff Hal]. fold off in Hoff, Hal.
  set (n1 := if negb (off =? 0) then skb_reserve n (IPC_WWAN_ALIGN - off) else n).
  assert (Hn1 : head n1 = head n /\ buf n1 = buf n /\ len n1 = 0 /\
                data n <= data n1 <= data n + 3 /\
                Z.land (skb_data_ptr n1) (IPC_WWAN_ALIGN - 1) = 0).
  { unfold n1, IPC_WWAN_ALIGN in *.
    destruct (Z.eqb_spec off 0) as [Hz|Hnz]; simpl.
    - split_and!; try done; lia.
    - split_and!; try done; try lia.
      unfold skb_data_ptr in *. simpl. rewrite Z.add_assoc. by apply Hal. }
  destruct Hn1 as (Hh1 & Hb1 & Hl1 & Hd1 & Hal1).
  unfold IPC_WWAN_ALIGN in Hroom.
  set (bytes := take (Z.to_nat (len skb)) (drop (Z.to_nat (data skb)) (buf skb))).
  assert (Hbytes : length bytes = Z.to_nat (len skb)).
  { unfold bytes. rewrite length_take, length_drop. lia. }
  set (n2 := with_buf (take (Z.to_nat (data n1)) (buf n1) ++ bytes ++
                       drop (Z.to_nat (data n1 + len skb)) (buf n1)) n1).
  assert (Hcpy : forall s0, skb_memcpy n1 skb (len skb) s0 = Done n2 s0).
  { intros s0. unfold skb_memcpy.
    destruct (Z.ltb_spec (data skb) 0); [lia|].
    destruct (Z.ltb_spec (Z.of_nat (length (buf skb))) (data skb + len skb));
      [lia|].
    destruct (Z.ltb_spec (data n1) 0); [lia|].
    destruct (Z.ltb_spec (Z.of_nat (length (buf n1))) (data n1 + len skb));
      [rewrite Hb1 in *; lia|].
    done. }
  assert (Hput : forall s0,
            skb_put n2 (len skb) s0
            = Done (with_data_len (data n2) (len n2 + len skb) n2) s0).
  { intros s0. unfold skb_put. simpl.
    rewrite !length_app, length_take, length_drop, Hbytes, Hl1.
    destruct (_ <? _) eqn:Hover; [|done].
    apply Z.ltb_lt in Hover. rewrite Hb1 in *. lia. }
  unfold bind. rewrite Hcpy, Hput.
  eexists. split; [done|]. split_and!; try done.
  - simpl. lia.
  - unfold skb_payload. simpl. rewrite Hl1.
    replace (Z.to_nat (0 + len skb)) with (Z.to_nat (len skb)) by lia.
    rewrite drop_app_length'.
    + by rewrite take_app_length'.
    + rewrite length_take. rewrite Hb1 in *. lia.
Qed.

End TransmitProperties.

(** ** Further properties of the receive path *)

Lemma skb_load_at skb pre mid post off kz x s :
  buf skb = pre ++ mid ++ post ->
  off = Z.of_nat (length pre) + kz -> 0 <= kz ->
  mid !! Z.to_nat kz = Some x ->
  skb_load skb off s = Done x s.
Proof.
  intros Hbuf -> Hkz Hx. apply skb_load_ok; [lia|]. rewrite Hbuf.
  replace (Z.to_nat (Z.of_nat (length pre) + kz))
    with (length pre + Z.to_nat kz)%nat by lia.
  rewrite lookup_app_r by lia.
  replace (length pre + Z.to_nat kz - length pre)%nat with (Z.to_nat kz) by lia.
  by apply lookup_app_l_Some.
Qed.

Lemma skb_store_at skb pre mid post off kz b s :
  buf skb = pre ++ mid ++ post ->
  off = Z.of_nat (length pre) + kz ->
  0 <= kz < Z.of_nat (length mid) ->
  skb_store skb off b s =
  Done (with_buf (pre ++ <[Z.to_nat kz := b]> mid ++ post) skb) s.
Proof.
  intros Hbuf -> Hkz. rewrite skb_store_ok.
  - unfold poke. rewrite Hbuf. do 2 f_equal.
    replace (Z.to_nat (Z.of_nat (length pre) + kz))
      with (length pre + Z.to_nat kz)%nat by lia.
    rewrite insert_app_r. f_equal. rewrite insert_app_l by lia. done.
  - rewrite Hbuf, !length_app. lia.
Qed.

Lemma with_buf_with_buf b1 b2 skb :
  with_buf b2 (with_buf b1 skb) = with_buf b2 skb.
Proof. done. Qed.

Lemma ether_addr_copy_at skb pre mid post off kz addr s :
  buf skb = pre ++ mid ++ post ->
  off = Z.of_nat (length pre) + kz ->
  0 <= kz -> kz + 6 <= Z.of_nat (length mid) ->
  ether_addr_copy skb off addr s =
  Done (with_buf
          (pre ++
           <[Z.to_nat (kz + 5) := addr !!! 5%nat]>
             (<[Z.to_nat (kz + 4) := addr !!! 4%nat]>
                (<[Z.to_nat (kz + 3) := addr !!! 3%nat]>
                   (<[Z.to_nat (kz + 2) := addr !!! 2%nat]>
                      (<[Z.to_nat (kz + 1) := addr !!! 1%nat]>
                         (<[Z.to_nat kz := addr !!! 0%nat]> mid)))))
           ++ post) skb) s.
Proof.
  intros Hbuf Hoff Hkz Hlen. unfold ether_addr_copy.
  mrun (skb_store_at skb pre mid post off kz (addr !!! 0%nat) s Hbuf Hoff
          ltac:(lia)).
  set (m0 := <[Z.to_nat kz := _]> mid).
  assert (length m0 = length mid) by apply length_insert.
  mrun (skb_store_at (with_buf (pre ++ m0 ++ post) skb) pre m0 post
          (off + 1) (kz + 1) (addr !!! 1%nat) s eq_refl ltac:(lia) ltac:(lia)).
  rewrite with_buf_with_buf.
  set (m1 := <[Z.to_nat (kz + 1) := _]> m0).
  assert (length m1 = length mid) by (unfold m1; by rewrite length_insert).
  mrun (skb_store_at (with_buf (pre ++ m1 ++ post) skb) pre m1 post
          (off + 2) (kz + 2) (addr !!! 2%nat) s eq_refl ltac:(lia) ltac:(lia)).
  rewrite with_buf_with_buf.
  set (m2 := <[Z.to_nat (kz + 2) := _]> m1).
  assert (length m2 = length mid) by (unfold m2; by rewrite length_insert).
  mrun (skb_store_at (with_buf (pre ++ m2 ++ post) skb) pre m2 post
          (off + 3) (kz + 3) (addr !!! 3%nat) s eq_refl ltac:(lia) ltac:(lia)).
  rewrite with_buf_with_buf.
  set (m3 := <[Z.to_nat (kz + 3) := _]> m2).
  assert (length m3 = length mid) by (unfold m3; by rewrite length_insert).
  mrun (skb_store_at (with_buf (pre ++ m3 ++ post) skb) pre m3 post
          (off + 4) (kz + 4) (addr !!! 4%nat) s eq_refl ltac:(lia) ltac:(lia)).
  rewrite with_buf_with_buf.
  set (m4 := <[Z.to_nat (kz + 4) := _]> m3).
  assert (length m4 = length mid) by (unfold m4; by rewrite length_insert).
  rewrite (skb_store_at (with_buf (pre ++ m4 ++ post) skb) pre m4 post
             (off + 5) (kz + 5) (addr !!! 5%nat) s eq_refl ltac:(lia) ltac:(lia)).
  by rewrite with_buf_with_buf.
Qed.

Lemma skb_store_be16_at skb pre mid post off kz v s :
  buf skb = pre ++ mid ++ post ->
  off = Z.of_nat (length pre) + kz ->
  0 <= kz -> kz + 2 <= Z.of_nat (length mid) ->
  skb_store_be16 skb off v s =
  Done (with_buf
          (pre ++
           <[Z.to_nat (kz + 1) := v mod 256]>
             (<[Z.to_nat kz := v / 256]> mid) ++ post) skb) s.
Proof.
  intros Hbuf Hoff Hkz Hlen. unfold skb_store_be16.
  mrun (skb_store_at skb pre mid post off kz (v / 256) s Hbuf Hoff ltac:(lia)).
  set (m0 := <[Z.to_nat kz := _]> mid).
  assert (length m0 = length mid) by apply length_insert.
  rewrite (skb_store_at (with_buf (pre ++ m0 ++ post) skb) pre m0 post
             (off + 1) (kz + 1) (v mod 256) s eq_refl ltac:(lia) ltac:(lia)).
  by rewrite with_buf_with_buf.
Qed.

(** The receive path on a frame whose buffer is [pre], the 14 bytes of
    the header at the data pointer, and [post]: what is delivered, and
    what is accounted. *)
Lemma receive_run s skb dss pre hdr post :
  buf skb = pre ++ hdr ++ post -> length hdr = 14%nat ->
  data skb = Z.of_nat (length pre) ->
  skb_data_ptr skb <> 0 -> ETH_HLEN < len skb ->
  data skb + len skb <= Z.of_nat (length (buf skb)) ->
  exists p hi lo,
    ipc_wwan_receive skb dss s =
    (do _ <- ipc_wwan_update_stats
               (ipc_wwan_vlan_to_mux_session_id (snd (vlan_get_tag skb)))
               (len skb - ETH_HLEN) false;
     do _ <- emit (NetifRx
               (with_protocol p
                  (with_data_len (data skb + ETH_HLEN) (len skb - ETH_HLEN)
                     (with_mac_header (data skb)
                        (with_buf
                           (pre ++
                            (rx_addresses (dev_addr (netdev (wwan s)))
                             ++ [hi; lo]) ++ post) skb)))));
     ret 0) s.
Proof.
  intros Hbuf Hlen Hdata Hptr Hhdr Hroom.
  set (addr := dev_addr (netdev (wwan s))).
  do 14 (destruct hdr as [|? hdr]; [done|]). destruct hdr; [|done]. clear Hlen.
  assert (Hpost : exists b post', post = b :: post').
  { destruct post as [|b post']; [|eauto].
    rewrite Hbuf, !length_app in Hroom. simpl in Hroom.
    unfold ETH_HLEN in Hhdr. lia. }
  destruct Hpost as (b & post' & ->).
  unfold ipc_wwan_receive.
  destruct (Z.eqb_spec (skb_data_ptr skb) 0); [done|].
  unfold bind at 1, get_wwan at 1. cbv beta iota. fold addr.
  unfold bind at 1.
  erewrite (ether_addr_copy_at _ _ _ _ _ 0);
    [|exact Hbuf|lia|lia|simpl; lia].
  cbv beta iota. simpl (<[_ := _]> _).
  unfold bind at 1.
  erewrite (ether_addr_copy_at _ _ _ _ _ 6);
    [|reflexivity|unfold ETH_ALEN; lia|lia|simpl; lia].
  cbv beta iota. rewrite with_buf_with_buf. simpl (<[_ := _]> _).
  unfold bind at 1.
  erewrite (skb_load_at _ _ _ _ _ 11);
    [|reflexivity|unfold ETH_ALEN; lia|lia|reflexivity].
  cbv beta iota. unfold bind at 1.
  erewrite (skb_store_at _ _ _ _ _ 11);
    [|reflexivity|unfold ETH_ALEN; lia|simpl; lia].
  cbv beta iota. rewrite with_buf_with_buf. simpl (<[_ := _]> _).
  unfold bind at 1.
  erewrite (skb_store_be16_at _ _ _ _ _ 12);
    [|reflexivity|lia|lia|simpl; lia].
  cbv beta iota. rewrite with_buf_with_buf. simpl (<[_ := _]> _).
  set (skb4 := with_buf _ skb).
  assert (Hsniff : exists hi lo,
    (if negb dss then
       do b0 <- skb_load skb4 (data skb4 + ETH_HLEN);
       if Z.land b0 240 =? 64 then skb_store_be16 skb4 (data skb + 12) ETH_P_IP
       else if Z.land b0 240 =? 96
            then skb_store_be16 skb4 (data skb + 12) ETH_P_IPV6
       else ret skb4
     else ret skb4) s =
    Done (with_buf (pre ++ (rx_addresses addr ++ [hi; lo]) ++ b :: post') skb)
      s).
  { destruct dss; [change (negb true) with false|change (negb false) with true];
      cbv iota.
    - by exists (ETH_P_802_3 / 256), (ETH_P_802_3 mod 256).
    - assert (Hb : skb_load skb4 (data skb4 + ETH_HLEN) s = Done b s).
      { apply skb_load_ok; [simpl; unfold ETH_HLEN; lia|]. simpl.
        replace (Z.to_nat (data skb + ETH_HLEN)) with (length pre + 14)%nat
          by (unfold ETH_HLEN; lia).
        rewrite lookup_app_r by lia.
        by replace (length pre + 14 - length pre)%nat with 14%nat by lia. }
      unfold bind. rewrite Hb.
      destruct (Z.land b 240 =? 64).
      + exists (ETH_P_IP / 256), (ETH_P_IP mod 256).
        erewrite (skb_store_be16_at _ _ _ _ _ 12);
          [|reflexivity|lia|lia|simpl; lia].
        done.
      + destruct (Z.land b 240 =? 96).
        * exists (ETH_P_IPV6 / 256), (ETH_P_IPV6 mod 256).
          erewrite (skb_store_be16_at _ _ _ _ _ 12);
            [|reflexivity|lia|lia|simpl; lia].
          done.
        * by exists (ETH_P_802_3 / 256), (ETH_P_802_3 mod 256). }
  destruct Hsniff as (hi & lo & Hsniff). mrun Hsniff.
  set (skb5 := with_buf _ skb).
  destruct (eth_type_trans_ok skb5 s) as [p Hett].
  { unfold skb_ok. simpl. rewrite Hbuf, !length_app in Hroom.
    rewrite !length_app. simpl in *. unfold ETH_HLEN in *. lia. }
  { done. }
  mrun Hett. by exists p, hi, lo.
Qed.

(** ** The receive path *)

Section ReceiveProperties.

Lemma frame_split skb :
  skb_ok skb -> ETH_HLEN < len skb ->
  exists pre hdr post,
    buf skb = pre ++ hdr ++ post /\ length hdr = 14%nat /\
    data skb = Z.of_nat (length pre).
Proof.
  intros (Hd & Hl & Hb) Hh. unfold ETH_HLEN in *.
  exists (take (Z.to_nat (data skb)) (buf skb)),
         (take 14 (drop (Z.to_nat (data skb)) (buf skb))),
         (drop 14 (drop (Z.to_nat (data skb)) (buf skb))).
  rewrite !take_drop. split_and!; [done| |].
  - rewrite length_take, length_drop. lia.
  - rewrite length_take. lia.
Qed.

Lemma vlan_devs_load_traced c i e s :
  vlan_devs_load i s = Done e s ->
  vlan_devs_load i (traced c s) = Done e (traced c s).
Proof.
  intros (_ & Hi & l & Hl & He)%vlan_devs_load_inv.
  by apply (vlan_devs_load_ok _ l).
Qed.

(** [ipc_wwan_receive] is the accounting of the payload followed by the
    delivery of the frame [f], whose shape is given. *)
Lemma receive_composed s skb dss s1 :
  skb_data_ptr skb <> 0 -> skb_ok skb -> ETH_HLEN < len skb ->
  ipc_wwan_update_stats
    (ipc_wwan_vlan_to_mux_session_id (snd (vlan_get_tag skb)))
    (len skb - ETH_HLEN) false s = Done tt s1 ->
  exists f,
    ipc_wwan_receive skb dss s = Done 0 (traced (NetifRx f) s1) /\
    head f = head skb /\ data f = data skb + ETH_HLEN /\
    len f = len skb - ETH_HLEN /\ mac_header f = data skb /\
    vlan_present f = vlan_present skb /\ vlan_tci f = vlan_tci skb /\
    take 12 (drop (Z.to_nat (data skb)) (buf f))
    = rx_addresses (dev_addr (netdev (wwan s))) /\
    take (Z.to_nat (data skb)) (buf f) = take (Z.to_nat (data skb)) (buf skb) /\
    drop (Z.to_nat (data skb + ETH_HLEN)) (buf f)
    = drop (Z.to_nat (data skb + ETH_HLEN)) (buf skb).
Proof.
  intros Hptr Hskb Hhdr Hstats.
  destruct (frame_split skb Hskb Hhdr) as (pre & hdr & post & Hbuf & Hlen & Hdata).
  destruct (receive_run s skb dss pre hdr post) as (p & hi & lo & Hrun);
    [done|done|done|done|done|apply Hskb|].
  rewrite Hrun. unfold bind at 1. rewrite Hstats.
  eexists. split; [reflexivity|]. simpl.
  rewrite Hbuf, Hdata, Nat2Z.id.
  replace (Z.to_nat (Z.of_nat (length pre) + ETH_HLEN))
    with (length pre + 14)%nat by (unfold ETH_HLEN; lia).
  split_and!; try done.
  - by rewrite drop_app_length.
  - by rewrite !take_app_length.
  - rewrite <- !drop_drop, !drop_app_length.
    by rewrite (drop_app_length' _ _ 14) by done.
Qed.

(** X16.  [ipc_wwan_receive] on a frame with a data pointer, its
    14-byte header and at least one byte after it inside the buffer
    returns 0 and hands exactly one frame to the network stack, without
    freeing anything.  In the delivered frame the destination address is
    the address of the root device and the source address is the same
    with the low bit of its last byte flipped; the data pointer is
    advanced past the header, the length is reduced by 14, the MAC
    header is the old data pointer, and the VLAN tag, the bytes before
    the header and the payload are those of the frame received. *)
Theorem receive_delivers_frame s skb dss :
  skb_data_ptr skb <> 0 -> skb_ok skb -> ETH_HLEN < len skb ->
  table_ok (wwan s) ->
  exists s' f,
    ipc_wwan_receive skb dss s = Done 0 s' /\
    trace s' = trace s ++ [NetifRx f] /\
    take 12 (drop (Z.to_nat (data skb)) (buf f))
    = rx_addresses (dev_addr (netdev (wwan s))) /\
    data f = data skb + ETH_HLEN /\ len f = len skb - ETH_HLEN /\
    mac_header f = data skb /\
    vlan_get_tag f = vlan_get_tag skb /\
    take (Z.to_nat (data skb)) (buf f) = take (Z.to_nat (data skb)) (buf skb) /\
    skb_payload f = drop 14 (skb_payload skb).
Proof.
  intros Hptr Hskb Hhdr Hok.
  destruct (update_stats_total s
              (ipc_wwan_vlan_to_mux_session_id (snd (vlan_get_tag skb)))
              (len skb - ETH_HLEN) false Hok) as (s1 & Hstats & Htrace).
  destruct (receive_composed s skb dss s1 Hptr Hskb Hhdr Hstats)
    as (f & Hrun & _ & Hd & Hl & Hm & Hvp & Hvt & Haddr & Hpre & Hpost).
  exists (traced (NetifRx f) s1), f. simpl. rewrite Htrace.
  split_and!; try done.
  - unfold vlan_get_tag. by rewrite Hvp, Hvt.
  - unfold skb_payload. rewrite Hd, Hl, Hpost.
    destruct Hskb as (Hd0 & Hl0 & _). unfold ETH_HLEN in *.
    replace (Z.to_nat (data skb + 14)) with (Z.to_nat (data skb) + 14)%nat
      by lia.
    rewrite <- drop_drop, (take_drop_commute _ _ 14). do 2 f_equal. lia.
Qed.

(** X17.  When the frame carries a 16-bit tag that the lookup resolves
    to a slot below [max_devs], [ipc_wwan_receive] adds 1 to the
    receive packet counter and the length of the payload (the length of
    the frame less the 14 bytes of its header) to the receive byte
    counter, both modulo 2^64, in that slot and in the root device.
    The transmit counters, the tag and the channel id of the slot,
    every other slot and the session count are unchanged. *)
Theorem receive_accounts_payload s skb dss idx e :
  skb_data_ptr skb <> 0 -> skb_ok skb -> ETH_HLEN < len skb ->
  table_ok (wwan s) ->
  vlan_present skb = true -> 0 <= vlan_tci skb < 65536 ->
  ipc_wwan_get_vlan_devs_nr (vlan_tci skb) s = Done idx s ->
  0 <= idx < max_devs (wwan s) ->
  vlan_devs_load idx s = Done e s ->
  exists s' e',
    ipc_wwan_receive skb dss s = Done 0 s' /\
    vlan_devs_nr (wwan s') = vlan_devs_nr (wwan s) /\
    vlan_devs_load idx s' = Done e' s' /\
    vlan_id e' = vlan_id e /\ ch_id e' = ch_id e /\
    rx_packets (stats e') = (rx_packets (stats e) + 1) mod 2 ^ 64 /\
    rx_bytes (stats e') = (rx_bytes (stats e) + (len skb - 14)) mod 2 ^ 64 /\
    tx_packets (stats e') = tx_packets (stats e) /\
    tx_bytes (stats e') = tx_bytes (stats e) /\
    rx_packets (ndev_stats (netdev (wwan s')))
    = (rx_packets (ndev_stats (netdev (wwan s))) + 1) mod 2 ^ 64 /\
    rx_bytes (ndev_stats (netdev (wwan s')))
    = (rx_bytes (ndev_stats (netdev (wwan s))) + (len skb - 14)) mod 2 ^ 64 /\
    tx_packets (ndev_stats (netdev (wwan s')))
    = tx_packets (ndev_stats (netdev (wwan s))) /\
    tx_bytes (ndev_stats (netdev (wwan s')))
    = tx_bytes (ndev_stats (netdev (wwan s))) /\
    (forall j e'', j <> idx -> vlan_devs_load j s = Done e'' s ->
                   vlan_devs_load j s' = Done e'' s').
Proof.
  intros Hptr Hskb Hhdr Hok Htagged Htci Hfind Hidx Hload.
  assert (Htag : snd (vlan_get_tag skb) = vlan_tci skb).
  { unfold vlan_get_tag. by rewrite Htagged. }
  destruct (update_stats_found s
              (ipc_wwan_vlan_to_mux_session_id (snd (vlan_get_tag skb)))
              (len skb - ETH_HLEN) false idx e)
    as (s1 & Hstats & _ & Hnr & Hslot & Hroot & Hothers); try done.
  { by rewrite Htag, session_tag_id. }
  destruct (receive_composed s skb dss s1 Hptr Hskb Hhdr Hstats)
    as (f & Hrun & _).
  exists (traced (NetifRx f) s1),
    {| vlan_id := vlan_id e; ch_id := ch_id e;
       stats := count_rx (len skb - ETH_HLEN) (stats e) |}.
  simpl. rewrite Hroot. unfold to_ulong, ETH_HLEN. simpl.
  split_and!; try done.
  - by apply vlan_devs_load_traced.
  - intros j e'' Hj He''. by apply vlan_devs_load_traced, Hothers.
Qed.

(** X18.  When the lookup finds no session for the tag of the frame
    (for an untagged frame: for tag 0), [ipc_wwan_receive] still returns
    0 and delivers the frame, and leaves the table, the counters and
    the root device as they were. *)
Theorem receive_unknown_session s skb dss r :
  skb_data_ptr skb <> 0 -> skb_ok skb -> ETH_HLEN < len skb ->
  0 <= vlan_tci skb < 65536 ->
  ipc_wwan_get_vlan_devs_nr (snd (vlan_get_tag skb)) s = Done r s ->
  r < 0 ->
  exists s' f,
    ipc_wwan_receive skb dss s = Done 0 s' /\
    wwan s' = wwan s /\ trace s' = trace s ++ [NetifRx f].
Proof.
  intros Hptr Hskb Hhdr Htci Hfind Hr.
  assert (Htag : 0 <= snd (vlan_get_tag skb) < 65536).
  { unfold vlan_get_tag. destruct (vlan_present skb); simpl; lia. }
  destruct (receive_composed s skb dss s Hptr Hskb Hhdr) as (f & Hrun & _).
  { apply (update_stats_not_found _ _ _ _ r); [|done].
    by rewrite session_tag_id. }
  by exists (traced (NetifRx f) s), f.
Qed.

End ReceiveProperties.

(** ** The driver as a whole *)

Section DriverProperties.

Variable wwan_open_result : list call -> Z -> Z.
Variable wwan_transmit_result : list call -> Z -> Z -> sk_buff -> Z.
Variable dev_alloc_skb_result : list call -> Z -> option sk_buff.

Lemma sends_none t vid ch x :
  sends t = 0%nat -> WwanTransmit vid ch x ∉ t.
Proof.
  induction t as [|c t IH]; [by intros _ ?%elem_of_nil|].
  intros Hs [<- | Hin]%elem_of_cons; [done|].
  destruct c; simpl in Hs; try done; by apply IH.
Qed.

Lemma vlan_devs_load_same s0 s i e :
  wwan s0 = wwan s -> vlan_devs_load i s = Done e s ->
  vlan_devs_load i s0 = Done e s0.
Proof.
  intros Hw (_ & Hi & l & Hl & He)%vlan_devs_load_inv.
  apply (vlan_devs_load_ok _ l); [by rewrite Hw|done|done].
Qed.

(** Every way [ipc_wwan_transmit] returns, by what it adds to the
    trace: either the frame is freed and the transport is not called, or
    the frame goes to the transport on the channel of the slot the
    lookup found for its tag. *)
Lemma transmit_cases s skb r s' :
  ipc_wwan_transmit wwan_transmit_result dev_alloc_skb_result skb s
  = Done r s' ->
  (exists pre x,
     trace s' = trace s ++ pre ++ [KfreeSkb x] /\ sends pre = 0%nat) \/
  (exists pre idx e x post,
     trace s' = trace s ++ pre ++
                WwanTransmit (snd (vlan_get_tag skb)) (ch_id e) x :: post /\
     sends pre = 0%nat /\ sends post = 0%nat /\
     ipc_wwan_get_vlan_devs_nr (snd (vlan_get_tag skb)) s = Done idx s /\
     0 <= idx < max_devs (wwan s) /\
     vlan_devs_load idx s = Done e s /\ 0 <= ch_id e /\
     (0 < snd (vlan_get_tag skb) < 256 \/
      256 < snd (vlan_get_tag skb) < 512)).
Proof.
  set (tag := snd (vlan_get_tag skb)).
  assert (Hexit : forall x c s0 r0 pre,
    transmit_exit x c s0 = Done r0 s' ->
    trace s0 = trace s ++ pre -> sends pre = 0%nat ->
    exists pre x,
      trace s' = trace s ++ pre ++ [KfreeSkb x] /\ sends pre = 0%nat).
  { intros x c s0 r0 pre. rewrite transmit_exit_spec. intros [= _ <-] Ht Hs.
    exists pre, x. simpl. by rewrite Ht, <- app_assoc. }
  assert (Hsend : forall idx e hs x s0 pre,
    transmit_send wwan_transmit_result tag idx hs x s0 = Done r s' ->
    wwan s0 = wwan s -> trace s0 = trace s ++ pre ->
    vlan_devs_load idx s = Done e s ->
    exists post,
      trace s' = trace s ++ pre ++ WwanTransmit tag (ch_id e) x :: post /\
      sends post = 0%nat).
  { intros idx e hs x s0 pre Hrun Hw Ht Hload.
    apply (vlan_devs_load_same s0) in Hload; [|done].
    apply transmit_send_outcomes in Hrun as (e0 & Hload0 & Hcases).
    rewrite Hload in Hload0. injection Hload0 as <-.
    destruct Hcases as [[_ ->]|(_ & y & ->)].
    - exists []. simpl. by rewrite Ht, <- app_assoc.
    - exists [KfreeSkb (Some y)]. simpl. by rewrite Ht, <- !app_assoc. }
  unfold ipc_wwan_transmit. fold tag.
  destruct (Z.eqb_spec tag WWAN_ROOT_VLAN_TAG) as [|Hroot].
  { intros H. left. eapply (Hexit _ _ _ _ []); eauto. by rewrite app_nil_r. }
  intros ([[hs oip] skb1] & s1 & Hpull & Hrun)%bind_inv.
  apply pure_pull_header in Hpull as ->. simpl in Hrun.
  destruct (hs =? 0).
  { left. eapply (Hexit _ _ _ _ []); eauto. by rewrite app_nil_r. }
  apply bind_inv in Hrun as (idx & s1 & Hfind & Hrun).
  pose proof (pure_lookup _ _ _ _ Hfind) as ->.
  apply bind_inv in Hrun as (w & s1 & [= <- <-] & Hrun).
  apply bind_inv in Hrun as (unknown & s1 & Hunk & Hrun).
  destruct (Z.ltb_spec idx 0) as [|Hidx0]; simpl in Hunk.
  { injection Hunk as <- <-. left.
    eapply (Hexit _ _ _ _ []); eauto. by rewrite app_nil_r. }
  destruct (Z.leb_spec (max_devs (wwan s)) idx) as [|Hidx1].
  { injection Hunk as <- <-. left.
    eapply (Hexit _ _ _ _ []); eauto. by rewrite app_nil_r. }
  apply bind_inv in Hunk as (e & s2 & Hload & [= <- <-]).
  pose proof (pure_vlan_devs_load _ _ _ _ Hload) as ->.
  destruct (Z.ltb_spec (ch_id e) 0) as [|Hch].
  { left. eapply (Hexit _ _ _ _ []); eauto. by rewrite app_nil_r. }
  destruct (Z.ltb_spec 0 tag) as [Ht0|Ht0]; simpl in Hrun.
  - destruct (Z.ltb_spec tag 256) as [Ht1|Ht1]; simpl in Hrun.
    + destruct (negb _).
      { left. eapply (Hexit _ _ _ _ []); eauto. by rewrite app_nil_r. }
      right.
      destruct (Hsend idx e hs skb1 s [] Hrun) as (post & Htrace & Hpost);
        [done|by rewrite app_nil_r|done|].
      exists [], idx, e, skb1, post. split_and!; try done; lia.
    + destruct (Z.ltb_spec 256 tag) as [Ht2|Ht2]; simpl in Hrun.
      2:{ left. eapply (Hexit _ _ _ _ []); eauto. by rewrite app_nil_r. }
      destruct (Z.ltb_spec tag 512) as [Ht3|Ht3]; simpl in Hrun.
      2:{ left. eapply (Hexit _ _ _ _ []); eauto. by rewrite app_nil_r. }
      destruct (default false oip).
      { left. eapply (Hexit _ _ _ _ []); eauto. by rewrite app_nil_r. }
      apply bind_inv in Hrun as (a & s1 & Halign & Hrun).
      apply skb_align_outcomes in Halign as [[-> ->]| ->].
      { right.
        destruct (Hsend idx e hs skb1 s [] Hrun) as (post & Htrace & Hpost);
          [done|by rewrite app_nil_r|done|].
        exists [], idx, e, skb1, post. split_and!; try done; lia. }
      destruct a as [skb2|].
      * right.
        destruct (Hsend idx e hs skb2 _
                    [DevAllocSkb (len skb1 + (IPC_WWAN_ALIGN - 1))] Hrun)
          as (post & Htrace & Hpost); [done|done|done|].
        exists [DevAllocSkb (len skb1 + (IPC_WWAN_ALIGN - 1))],
          idx, e, skb2, post.
        split_and!; try done; lia.
      * left.
        eapply (Hexit _ _ _ _ [DevAllocSkb (len skb1 + (IPC_WWAN_ALIGN - 1))]);
          eauto.
  - assert (Hand : (256 <? tag) && (tag <? 512) = false).
    { destruct (Z.ltb_spec 256 tag); [lia|done]. }
    rewrite Hand in Hrun.
    left. eapply (Hexit _ _ _ _ []); eauto. by rewrite app_nil_r.
Qed.

(** X19.  [ipc_wwan_transmit] hands a frame to the transport only for
    a live session: whatever call of the transport it adds to the trace
    carries the tag of the frame, which is a data tag (1..255) or a
    control tag (257..511), and the channel id, not negative, that a
    live session of the table binds to this tag. *)
Theorem transmit_only_on_bound_channel s skb r s' vid ch x :
  table_ok (wwan s) ->
  ipc_wwan_transmit wwan_transmit_result dev_alloc_skb_result skb s
  = Done r s' ->
  WwanTransmit vid ch x ∈ trace s' -> WwanTransmit vid ch x ∉ trace s ->
  vid = snd (vlan_get_tag skb) /\
  (0 < vid < 256 \/ 256 < vid < 512) /\ 0 <= ch /\
  (vid, ch) ∈ bindings (wwan s).
Proof.
  intros Hok Hrun Hin Hnew.
  apply transmit_cases in Hrun
    as [(pre & y & Htrace & Hpre)
       |(pre & idx & e & y & post & Htrace & Hpre & Hpost & Hfind & Hidx
         & Hload & Hch & Htag)].
  - rewrite Htrace in Hin.
    apply elem_of_app in Hin as [Hin|Hin]; [done|].
    apply elem_of_app in Hin as [Hin|Hin]; [by apply sends_none in Hin|].
    by apply list_elem_of_singleton in Hin.
  - rewrite Htrace in Hin.
    apply elem_of_app in Hin as [Hin|Hin]; [done|].
    apply elem_of_app in Hin as [Hin|Hin]; [by apply sends_none in Hin|].
    apply elem_of_cons in Hin as [[= -> -> ->]|Hin];
      [|by apply sends_none in Hin].
    split_and!; try done.
    rewrite ipc_wwan_get_vlan_devs_nr_ok in Hfind by done.
    injection Hfind as Hfind.
    pose proof Hload as (_ & _ & l & Hl & He)%vlan_devs_load_inv.
    destruct (find_tag_live (wwan s) l (snd (vlan_get_tag skb)) Hl Hok)
      as (Hlt & e' & He' & Hvid); [lia|].
    rewrite Hfind, He in He'. injection He' as <-.
    unfold bindings.
    apply (list_elem_of_fmap_2' _ _ e); [|by rewrite Hvid].
    apply (list_elem_of_lookup_2 _ (Z.to_nat idx)).
    apply load_live_lookup; [lia|done].
Qed.

(** Every way [ipc_wwan_receive] returns: it frees the frame, or it
    accounts a session id and delivers a frame. *)
Lemma receive_effect s skb dss r s' :
  ipc_wwan_receive skb dss s = Done r s' ->
  (skb_data_ptr skb = 0 /\ r = -1 /\
   s' = traced (KfreeSkb (Some skb)) s) \/
  (skb_data_ptr skb <> 0 /\ r = 0 /\ exists id n s1 f,
     ipc_wwan_update_stats id n false s = Done tt s1 /\
     s' = traced (NetifRx f) s1).
Proof.
  unfold ipc_wwan_receive. destruct (Z.eqb_spec (skb_data_ptr skb) 0).
  { intros [= <- <-]. by left. }
  intros (w & s1 & [= <- <-] & Hrun)%bind_inv.
  apply bind_inv in Hrun as (skb1 & s1 & H1 & Hrun).
  apply pure_ether_addr_copy in H1 as ->.
  apply bind_inv in Hrun as (skb2 & s1 & H1 & Hrun).
  apply pure_ether_addr_copy in H1 as ->.
  apply bind_inv in Hrun as (b & s1 & H1 & Hrun).
  apply pure_skb_load in H1 as ->.
  apply bind_inv in Hrun as (skb3 & s1 & H1 & Hrun).
  apply pure_skb_store in H1 as ->.
  apply bind_inv in Hrun as (skb4 & s1 & H1 & Hrun).
  apply pure_skb_store_be16 in H1 as ->.
  apply bind_inv in Hrun as (skb5 & s1 & H1 & Hrun).
  assert (s1 = s) as ->.
  { destruct dss; simpl in H1; [by injection H1|].
    apply bind_inv in H1 as (b0 & s2 & H1 & H2).
    apply pure_skb_load in H1 as ->.
    repeat case_match;
      first [by apply pure_skb_store_be16 in H2 | by injection H2]. }
  clear H1. apply bind_inv in Hrun as ([p skb6] & s1 & H1 & Hrun).
  apply pure_eth_type_trans in H1 as ->.
  apply bind_inv in Hrun as ([] & s1 & H1 & Hrun).
  injection Hrun as <- <-. right. split_and!; [done|done|]. eauto 6.
Qed.

(** The invariants on the live sessions only read their tags and
    channel ids. *)
Lemma Forall_bindings (Q : Z * Z -> Prop) l :
  Forall (fun e => Q (vlan_id e, ch_id e)) l <->
  Forall Q ((fun e => (vlan_id e, ch_id e)) <$> l).
Proof.
  induction l as [|e l IH]; simpl; [by split; constructor|].
  rewrite !Forall_cons, IH. done.
Qed.

Lemma bindings_inv w w' :
  bindings w' = bindings w ->
  (live_channels_valid w -> live_channels_valid w') /\
  (live_tags_valid w -> live_tags_valid w').
Proof.
  unfold bindings, live_channels_valid, live_tags_valid. intros Hb.
  split; intros H.
  - apply (Forall_bindings (fun p => 0 <= p.2)).
    rewrite Hb. by apply (Forall_bindings (fun p => 0 <= p.2)).
  - apply (Forall_bindings (fun p => p.1 <> WWAN_ROOT_VLAN_TAG /\
                                     p.1 <> IPC_WWAN_DSS_ID_4 /\ p.1 < 512)).
    rewrite Hb.
    by apply (Forall_bindings (fun p => p.1 <> WWAN_ROOT_VLAN_TAG /\
                                        p.1 <> IPC_WWAN_DSS_ID_4 /\ p.1 < 512)).
Qed.

Lemma update_stats_inv s id n tx u s' :
  driver_inv (wwan s) ->
  ipc_wwan_update_stats id n tx s = Done u s' ->
  driver_inv (wwan s') /\
  max_devs (wwan s') = max_devs (wwan s) /\
  max_ip_devs (wwan s') = max_ip_devs (wwan s) /\
  dev_addr (netdev (wwan s')) = dev_addr (netdev (wwan s)) /\
  bindings (wwan s') = bindings (wwan s) /\
  trace s' = trace s.
Proof.
  intros ((Hok & Hch) & Hsized & Htags) Hrun.
  apply update_stats_effect in Hrun
    as (Hok' & Hsized' & Htrace & _ & Hmax & Hip & Haddr & Hb); [|done].
  destruct (bindings_inv _ _ Hb) as [Hch' Htags'].
  unfold driver_inv, wwan_inv. split_and!; auto.
Qed.

Lemma add_vlan_trace s vid r s' :
  table_ok (wwan s) ->
  ipc_wwan_add_vlan wwan_open_result vid s = Done r s' ->
  exists ext, trace s' = trace s ++ ext.
Proof.
  intros Hok Hadd.
  assert (Hsame : forall x, Done r s' = Done x s ->
            exists ext, trace s' = trace s ++ ext).
  { intros x [= _ ->]. exists []. by rewrite app_nil_r. }
  destruct (vlan_devs (wwan s)) as [l|] eqn:Hl.
  2:{ rewrite add_vlan_rejected in Hadd by auto. eauto. }
  destruct (decide (512 <= vid)).
  { rewrite add_vlan_rejected in Hadd by auto. eauto. }
  destruct (decide (vid = WWAN_ROOT_VLAN_TAG)) as [->|Hvid].
  { rewrite (add_vlan_root _ s l) in Hadd by done. eauto. }
  pose proof Hok as Hnr. unfold table_ok in Hnr. rewrite Hl in Hnr.
  destruct (decide (vlan_devs_nr (wwan s) < Z.of_nat (length l)))
    as [Hroom|Hfull].
  2:{ rewrite (add_vlan_overrun _ s l) in Hadd by (done || lia). done. }
  destruct (lookup_lt_is_Some_2 l (Z.to_nat (vlan_devs_nr (wwan s))))
    as [e He]; [lia|].
  destruct (decide (0 <= wwan_open_result (trace s) vid)) as [Hc|Hc].
  - rewrite (add_vlan_ok _ s l vid e) in Hadd by (done || lia).
    injection Hadd as <- <-. by eexists.
  - rewrite (add_vlan_open_failed _ s l vid e) in Hadd by (done || lia).
    injection Hadd as <- <-. by eexists.
Qed.

(** One call into the driver keeps the invariant. *)
Lemma enter_effect c s r s' :
  driver_inv (wwan s) ->
  enter wwan_open_result wwan_transmit_result dev_alloc_skb_result c s
  = Done r s' ->
  driver_inv (wwan s') /\
  max_devs (wwan s') = max_devs (wwan s) /\
  max_ip_devs (wwan s') = max_ip_devs (wwan s) /\
  dev_addr (netdev (wwan s')) = dev_addr (netdev (wwan s)) /\
  exists ext, trace s' = trace s ++ ext.
Proof.
  intros Hinv. pose proof Hinv as ((Hok & Hch) & Hsized & Htags).
  assert (Hsame : forall s0, wwan s0 = wwan s ->
    driver_inv (wwan s0) /\
    max_devs (wwan s0) = max_devs (wwan s) /\
    max_ip_devs (wwan s0) = max_ip_devs (wwan s) /\
    dev_addr (netdev (wwan s0)) = dev_addr (netdev (wwan s))).
  { by intros s0 ->. }
  destruct c as [vid|vid|skb|skb dss|id n tx]; simpl.
  - unfold ipc_wwan_vlan_rx_add_vid.
    destruct (Z.eqb_spec vid IPC_WWAN_DSS_ID_4) as [|Hdss]; simpl.
    { intros [= <- <-]. split_and!; try done. exists []. by rewrite app_nil_r. }
    intros Hadd.
    destruct (add_vlan_effect wwan_open_result s vid r s' Hok Hadd)
      as (Hok' & Hmax & Hip & Hdev & Hsized' & Hcases).
    rewrite Hdev.
    destruct Hcases
      as [(_ & Hvid0 & Hvid1 & Hopen & Htrace & _ & _ & st & Hlive)
         |(Hlive & _ & _ & Htrace)].
    + unfold driver_inv, wwan_inv, live_channels_valid, live_tags_valid.
      rewrite Hlive, !Forall_app, !Forall_singleton. simpl.
      split_and!; eauto.
    + unfold driver_inv, wwan_inv, live_channels_valid, live_tags_valid.
      rewrite Hlive. split_and!; eauto using add_vlan_trace.
  - unfold ipc_wwan_vlan_rx_kill_vid.
    destruct (Z.eqb_spec vid WWAN_ROOT_VLAN_TAG); simpl.
    { intros [= <- <-]. split_and!; try done. exists []. by rewrite app_nil_r. }
    intros Hrem.
    destruct (remove_vlan_effect s vid r s' Hok Hrem)
      as [[_ ->]
         |(_ & Hok' & Hmax & Hip & Hdev & Hsized' & _ & i & e & _ & _ & _ & _
           & Htrace & Hlive)].
    { split_and!; try done. exists []. by rewrite app_nil_r. }
    rewrite Hdev.
    unfold driver_inv, wwan_inv, live_channels_valid, live_tags_valid.
    rewrite Hlive. split_and!; eauto using Forall_delete.
  - intros Htx.
    apply transmit_effect in Htx as (Hw & _ & ext & Htrace & _).
    destruct (Hsame s' Hw) as (? & ? & ? & ?). split_and!; eauto.
  - intros [(_ & _ & ->)|(_ & _ & id & n & s1 & f & Hstats & ->)]%receive_effect.
    { destruct (Hsame (traced (KfreeSkb (Some skb)) s) eq_refl) as (? & ? & ? & ?).
      split_and!; eauto. }
    apply update_stats_inv in Hstats as (? & ? & ? & ? & _ & Htrace); [|done].
    simpl. rewrite Htrace. split_and!; eauto.
  - intros ([] & s1 & Hstats & [= <- <-])%bind_inv.
    apply update_stats_inv in Hstats as (? & ? & ? & ? & _ & Htrace); [|done].
    split_and!; try done. exists []. by rewrite app_nil_r.
Qed.

(** X20.  Whatever calls the network stack and the transport make into
    the driver (adding and killing VLAN ids, transmitting, receiving,
    accounting), in whatever order and with whatever results, as long
    as none of them runs off the table or off the buffer of a frame,
    a device that satisfies the invariant keeps it: the session count
    stays within the table, the table keeps the size [max_devs], every
    live session
    has a channel id that is not negative and a tag other than 0 and
    IPC_WWAN_DSS_ID_4 and below 512, [max_devs], [max_ip_devs] and the
    address of the root device keep their values, the trace only grows,
    and each call has returned a result. *)
Theorem entries_keep_invariant cs s rs s' :
  driver_inv (wwan s) ->
  enter_all wwan_open_result wwan_transmit_result dev_alloc_skb_result cs s
  = Done rs s' ->
  driver_inv (wwan s') /\
  length rs = length cs /\
  max_devs (wwan s') = max_devs (wwan s) /\
  max_ip_devs (wwan s') = max_ip_devs (wwan s) /\
  dev_addr (netdev (wwan s')) = dev_addr (netdev (wwan s)) /\
  exists ext, trace s' = trace s ++ ext.
Proof.
  revert s rs. induction cs as [|c cs IH]; intros s rs Hinv; simpl.
  { intros [= <- <-]. split_and!; try done. exists []. by rewrite app_nil_r. }
  intros (r & s1 & Hc & Hrun)%bind_inv.
  apply bind_inv in Hrun as (rs' & s2 & Hcs & [= <- <-]).
  apply enter_effect in Hc as (Hinv1 & Hmax1 & Hip1 & Haddr1 & ext1 & Ht1);
    [|done].
  apply IH in Hcs as (Hinv2 & Hlen & Hmax2 & Hip2 & Haddr2 & ext2 & Ht2);
    [|done].
  split_and!; try done; try congruence.
  - simpl. by rewrite Hlen.
  - exists (ext1 ++ ext2). by rewrite Ht2, Ht1, <- app_assoc.
Qed.

(** One call into a driver that has no table changes nothing of the
    root device. *)
Lemma enter_without_table c s r s' :
  vlan_devs (wwan s) = None ->
  enter wwan_open_result wwan_transmit_result dev_alloc_skb_result c s
  = Done r s' ->
  wwan s' = wwan s /\ result_without_table c r /\
  exists ext, trace s' = trace s ++ ext /\
              Forall (fun c => transport_call c = false) ext.
Proof.
  intros Hnone.
  assert (Hok : table_ok (wwan s)) by (unfold table_ok; by rewrite Hnone).
  assert (Hlive : live_sessions (wwan s) = [])
    by (unfold live_sessions; by rewrite Hnone).
  assert (Hfind : forall tag,
    ipc_wwan_get_vlan_devs_nr tag s = Done (- EINVAL) s).
  { intros tag. rewrite ipc_wwan_get_vlan_devs_nr_ok by done.
    by rewrite Hlive. }
  assert (Hstats : forall id n tx, ipc_wwan_update_stats id n tx s = Done tt s).
  { intros id n tx. by apply (update_stats_not_found _ _ _ _ (- EINVAL)). }
  assert (Hnil : exists ext, trace s = trace s ++ ext /\
                   Forall (fun c => transport_call c = false) ext).
  { exists []. by rewrite app_nil_r. }
  assert (Hone : forall c, transport_call c = false ->
            exists ext, trace (traced c s) = trace s ++ ext /\
              Forall (fun c => transport_call c = false) ext).
  { intros c0 Hc0. exists [c0]. split; [done|]. by apply Forall_singleton. }
  destruct c as [vid|vid|skb|skb dss|id n tx]; simpl.
  - unfold ipc_wwan_vlan_rx_add_vid.
    destruct (vid =? IPC_WWAN_DSS_ID_4); simpl; [by intros [= <- <-]|].
    rewrite (add_vlan_rejected wwan_open_result) by auto.
    by intros [= <- <-].
  - unfold ipc_wwan_vlan_rx_kill_vid.
    destruct (vid =? WWAN_ROOT_VLAN_TAG); simpl; [by intros [= <- <-]|].
    unfold ipc_wwan_remove_vlan, bind. rewrite Hfind. simpl.
    by intros [= <- <-].
  - unfold ipc_wwan_transmit.
    destruct (_ =? WWAN_ROOT_VLAN_TAG).
    { rewrite transmit_exit_spec. intros [= <- <-]. split_and!; auto. }
    intros ([[hs oip] skb1] & s1 & Hpull & Hrun)%bind_inv.
    apply pure_pull_header in Hpull as ->. simpl in Hrun.
    destruct (hs =? 0).
    { rewrite transmit_exit_spec in Hrun. injection Hrun as <- <-.
      split_and!; auto. }
    revert Hrun. unfold bind at 1. rewrite Hfind.
    unfold bind at 1, get_wwan at 1. cbv beta iota.
    replace (- EINVAL <? 0) with true by done. simpl.
    unfold bind at 1, ret at 1. cbv beta iota.
    rewrite transmit_exit_spec. intros [= <- <-]. split_and!; auto.
  - intros [(Hptr & -> & ->)|(Hptr & -> & id & n & s1 & f & Hs & ->)]%receive_effect.
    { rewrite Hptr. split_and!; [done|done|].
      by apply (Hone (KfreeSkb (Some skb))). }
    rewrite Hstats in Hs. injection Hs as <-.
    destruct (Z.eqb_spec (skb_data_ptr skb) 0); [done|].
    split_and!; [done|done|]. by apply (Hone (NetifRx f)).
  - intros ([] & s1 & Hs & [= <- <-])%bind_inv.
    rewrite Hstats in Hs. by injection Hs as <-.
Qed.

(** X21.  When the allocation of the table failed at initialisation the
    driver goes on without it, and no call then changes the root device:
    no session is added, no counter moves, and the transport is asked
    neither to open or close a channel nor to take a frame.  Adding a
    VLAN id fails with -EINVAL (IPC_WWAN_DSS_ID_4 apart, which is
    accepted and ignored), killing one fails with -EINVAL (the root tag
    apart), every frame to transmit is dropped with -EINVAL, and every
    frame received with a data pointer is still delivered. *)
Theorem no_table_no_sessions cs s rs s' :
  vlan_devs (wwan s) = None ->
  enter_all wwan_open_result wwan_transmit_result dev_alloc_skb_result cs s
  = Done rs s' ->
  wwan s' = wwan s /\
  Forall2 result_without_table cs rs /\
  exists ext, trace s' = trace s ++ ext /\
              Forall (fun c => transport_call c = false) ext.
Proof.
  revert s rs. induction cs as [|c cs IH]; intros s rs Hnone; simpl.
  { intros [= <- <-]. split_and!; try done. exists []. by rewrite app_nil_r. }
  intros (r & s1 & Hc & Hrun)%bind_inv.
  apply bind_inv in Hrun as (rs' & s2 & Hcs & [= <- <-]).
  apply enter_without_table in Hc as (Hw1 & Hr1 & ext1 & Ht1 & Hf1); [|done].
  apply IH in Hcs as (Hw2 & Hr2 & ext2 & Ht2 & Hf2); [|by rewrite Hw1].
  split_and!; [congruence | by constructor |].
  exists (ext1 ++ ext2). rewrite Ht2, Ht1, <- app_assoc.
  split; [done|]. by apply Forall_app.
Qed.

End DriverProperties.

(** ** Initialisation and the TX queues *)

Section InitProperties.

Variable IPC_MEM_MAX_CHANNELS : Z.

(** X22.  When [ipc_wwan_init] returns a root device, the device was
    allocated, the ops instance was there and the registration
    succeeded; the device is registered, has no live session, zeroed
    counters, the address given, [max_ip_devs = max_sessions] and
    [max_devs = max_sessions + IPC_MEM_MAX_CHANNELS], and it satisfies
    the invariant of the driver.  The result of the allocation of the
    table is not checked: the device is returned without a table when
    the allocation failed, and otherwise its table has [max_devs]
    zeroed entries. *)
Theorem init_establishes_invariant netdev_ok ops kcalloc_ok register_ok
    addr max_sessions w :
  ipc_wwan_init IPC_MEM_MAX_CHANNELS netdev_ok ops kcalloc_ok register_ok
    addr max_sessions = Some w ->
  (netdev_ok = true /\ ops = true /\ register_ok = true) /\
  driver_inv w /\ live_sessions w = [] /\ is_registered w = true /\
  max_devs w = max_sessions + IPC_MEM_MAX_CHANNELS /\
  max_ip_devs w = max_sessions /\
  dev_addr (netdev w) = addr /\ ndev_stats (netdev w) = zero_stats /\
  vlan_devs w =
  (if kcalloc_ok && (0 <=? max_sessions + IPC_MEM_MAX_CHANNELS)
   then Some (replicate (Z.to_nat (max_sessions + IPC_MEM_MAX_CHANNELS))
                zero_vlan_info)
   else None).
Proof.
  unfold ipc_wwan_init.
  destruct netdev_ok, ops, register_ok; simpl; try done.
  intros [= <-]. simpl.
  assert (Hlive : live_sessions
    {| vlan_devs :=
         if kcalloc_ok && (0 <=? max_sessions + IPC_MEM_MAX_CHANNELS)
         then Some (replicate (Z.to_nat (max_sessions + IPC_MEM_MAX_CHANNELS))
                      zero_vlan_info)
         else None;
       netdev := {| dev_addr := addr; ndev_stats := zero_stats |};
       vlan_devs_nr := 0;
       max_devs := max_sessions + IPC_MEM_MAX_CHANNELS;
       max_ip_devs := max_sessions; is_registered := true |} = []).
  { unfold live_sessions. simpl. by destruct (_ && _). }
  split_and!; try done.
  unfold driver_inv, wwan_inv, live_channels_valid, live_tags_valid.
  rewrite Hlive. unfold table_ok, table_sized. simpl.
  destruct kcalloc_ok; simpl; [|done].
  destruct (Z.leb_spec 0 (max_sessions + IPC_MEM_MAX_CHANNELS)); [|done].
  rewrite length_replicate. split_and!; (done || lia).
Qed.

(** X23.  On the root device [ipc_wwan_init] returns for
    [max_sessions >= 0], [ipc_wwan_select_queue] answers for every frame
    either the invalid queue 0xFFFF or the number of one of the
    [WWAN_MIN_TXQ + max_sessions] TX queues the device was allocated
    with. *)
Theorem select_queue_within_allocated netdev_ok ops kcalloc_ok register_ok
    addr max_sessions w skb :
  ipc_wwan_init IPC_MEM_MAX_CHANNELS netdev_ok ops kcalloc_ok register_ok
    addr max_sessions = Some w ->
  0 <= max_sessions ->
  ipc_wwan_select_queue w skb = 65535 \/
  0 <= ipc_wwan_select_queue w skb < WWAN_MIN_TXQ + max_sessions.
Proof.
  unfold ipc_wwan_init.
  destruct (_ || _); [done|]. destruct (negb register_ok); [done|].
  intros [= <-] Hmax.
  unfold ipc_wwan_select_queue, vlan_get_tag, WWAN_MIN_TXQ, WWAN_DEFAULT_TXQ,
    IMEM_WWAN_DATA_VLAN_ID_START. simpl.
  destruct (vlan_present skb); simpl; [|lia].
  destruct (Z.leb_spec 1 (vlan_tci skb)); simpl.
  - destruct (Z.leb_spec (vlan_tci skb) max_sessions); simpl; [lia|].
    destruct (_ || _); [lia | by left].
  - destruct (_ || _); [lia | by left].
Qed.

End InitProperties.

(** ** The administration of the root device *)

Section AdminProperties.

Lemma administer_effect c a r a' :
  administer c a = Some (r, a') ->
  (addr_len a' = addr_len a \/ addr_len a' = 1) /\
  length (tx_stopped a') = length (tx_stopped a) /\
  (mtu a' = mtu a \/
   IPC_MEM_MIN_MTU_SIZE <= mtu a' <= IPC_MEM_MAX_MTU_SIZE) /\
  running a' = running a /\ live_addr_change a' = live_addr_change a /\
  ndev_stats (ndev a') = ndev_stats (ndev a).
Proof.
  assert (Hmac : forall sock,
    ipc_wwan_change_mac_addr a sock = (r, a') ->
    (addr_len a' = addr_len a \/ addr_len a' = 1) /\
    length (tx_stopped a') = length (tx_stopped a) /\
    (mtu a' = mtu a \/
     IPC_MEM_MIN_MTU_SIZE <= mtu a' <= IPC_MEM_MAX_MTU_SIZE) /\
    running a' = running a /\ live_addr_change a' = live_addr_change a /\
    ndev_stats (ndev a') = ndev_stats (ndev a)).
  { intros sock. unfold ipc_wwan_change_mac_addr, eth_mac_addr.
    repeat case_match; intros [= <- <-]; simpl; auto 10. }
  destruct c as [| |new_mtu|sock|cmd ok sock|id on]; simpl.
  - unfold ipc_wwan_open. case_match; intros [= <- <-]; simpl;
      rewrite ?length_replicate; auto 10.
  - intros [= <- <-]. simpl. rewrite length_replicate. auto 10.
  - unfold ipc_wwan_change_mtu.
    destruct (Z.ltb_spec new_mtu IPC_MEM_MIN_MTU_SIZE); simpl;
      [intros [= <- <-]; auto 10|].
    destruct (Z.ltb_spec IPC_MEM_MAX_MTU_SIZE new_mtu);
      intros [= <- <-]; simpl; auto 10.
  - intros [= Hcall]. by apply (Hmac sock).
  - unfold ipc_wwan_ioctl. case_match; [intros [= <- <-]; auto 10|].
    intros [= Hcall]. by apply (Hmac sock).
  - destruct (ipc_wwan_tx_flowctrl a id on) as [a1|] eqn:Hfc; [|done].
    intros [= <- <-]. unfold ipc_wwan_tx_flowctrl in Hfc.
    destruct (_ <? _); [|done]. injection Hfc as <-. simpl.
    rewrite length_insert. auto 10.
Qed.

Lemma administer_all_effect cs a a' :
  administer_all cs a = Some a' ->
  (addr_len a' = addr_len a \/ addr_len a' = 1) /\
  length (tx_stopped a') = length (tx_stopped a) /\
  (mtu a' = mtu a \/
   IPC_MEM_MIN_MTU_SIZE <= mtu a' <= IPC_MEM_MAX_MTU_SIZE) /\
  running a' = running a /\ live_addr_change a' = live_addr_change a /\
  ndev_stats (ndev a') = ndev_stats (ndev a).
Proof.
  revert a. induction cs as [|c cs IH]; intros a; simpl.
  { intros [= <-]. auto 10. }
  destruct (administer c a) as [[r a1]|] eqn:Hc; [|done].
  intros (Hl2 & Hq2 & Hm2 & Hr2 & Hf2 & Hs2)%IH.
  apply administer_effect in Hc as (Hl1 & Hq1 & Hm1 & Hr1 & Hf1 & Hs1).
  split_and!; try congruence.
  - destruct Hl2 as [Hl2|Hl2]; [rewrite Hl2; done | by right].
  - destruct Hm2 as [Hm2|Hm2]; [rewrite Hm2; done | by right].
Qed.

(** X24.  Setting the all-zero address disables the root device for
    good: [ipc_wwan_change_mac_addr] accepts it and sets [addr_len] to
    1, no administration call of the driver sets [addr_len] back, and
    so, whatever calls follow, [ipc_wwan_open] then fails with -ENODEV
    and starts no queue. *)
Theorem zero_address_disables_open a sock_data cs a' :
  is_zero_ether_addr sock_data = true ->
  administer_all (NdoSetMacAddress sock_data :: cs) a = Some a' ->
  ipc_wwan_open a' = (- ENODEV, a').
Proof.
  intros Hzero. simpl. unfold ipc_wwan_change_mac_addr. rewrite Hzero.
  intros (Hlen & _)%administer_all_effect. simpl in Hlen.
  unfold ipc_wwan_open, ETH_ALEN.
  by destruct (Z.ltb_spec (addr_len a') 6); [|lia].
Qed.

(** X25.  Whatever administration calls are made, the number of TX
    queues, the counters of the root device, [netif_running] and
    IFF_LIVE_ADDR_CHANGE stay as they were, and the MTU is either the
    one the device had or lies between IPC_MEM_MIN_MTU_SIZE and
    IPC_MEM_MAX_MTU_SIZE. *)
Theorem admin_calls_keep_bounds cs a a' :
  administer_all cs a = Some a' ->
  length (tx_stopped a') = length (tx_stopped a) /\
  (mtu a' = mtu a \/
   IPC_MEM_MIN_MTU_SIZE <= mtu a' <= IPC_MEM_MAX_MTU_SIZE) /\
  running a' = running a /\ live_addr_change a' = live_addr_change a /\
  ndev_stats (ndev a') = ndev_stats (ndev a).
Proof. by intros (_ & H)%administer_all_effect. Qed.

(** X26.  Flow control acts on the queue the frames of the session
    use.  For a data tag T in 1..max_ip_devs, on a device with the
    [WWAN_MIN_TXQ + max_ip_devs] queues of the initialisation,
    [ipc_wwan_tx_flowctrl] on the session id of T succeeds;
    afterwards [ipc_wwan_is_tx_stopped] answers [on] for this session,
    the queue [ipc_wwan_select_queue] picks for a frame tagged T is
    stopped exactly when [on] is set, and the stop bits of all other
    queues are unchanged. *)
Theorem flowctrl_acts_on_selected_queue w skb a on T :
  vlan_present skb = true -> vlan_tci skb = T ->
  1 <= T <= max_ip_devs w -> T < 65536 ->
  Z.of_nat (length (tx_stopped a)) = WWAN_MIN_TXQ + max_ip_devs w ->
  exists a',
    ipc_wwan_tx_flowctrl a (ipc_wwan_vlan_to_mux_session_id T) on = Some a' /\
    ipc_wwan_is_tx_stopped a' (ipc_wwan_vlan_to_mux_session_id T) = Some on /\
    tx_stopped a' !! Z.to_nat (ipc_wwan_select_queue w skb) = Some on /\
    forall q, q <> Z.to_nat T -> tx_stopped a' !! q = tx_stopped a !! q.
Proof.
  intros Htagged Htci HT H16 Hq. unfold WWAN_MIN_TXQ in Hq.
  unfold ipc_wwan_tx_flowctrl, ipc_wwan_is_tx_stopped.
  rewrite session_tag_id by lia.
  destruct (Z.ltb_spec T (Z.of_nat (length (tx_stopped a)))); [|lia].
  eexists. split; [done|]. simpl.
  assert (Hsel : ipc_wwan_select_queue w skb = T).
  { unfold ipc_wwan_select_queue, vlan_get_tag, IMEM_WWAN_DATA_VLAN_ID_START.
    rewrite Htagged, Htci. simpl.
    destruct (Z.leb_spec 1 T); [|lia].
    by destruct (Z.leb_spec T (max_ip_devs w)); [|lia]. }
  rewrite Hsel. split_and!.
  - apply list_lookup_insert_eq. lia.
  - apply list_lookup_insert_eq. lia.
  - intros q Hne. by rewrite list_lookup_insert_ne.
Qed.

End AdminProperties.

(** ** The bounds of the table *)

Section BoundsProperties.

Variable wwan_open_result : list call -> Z -> Z.

(** X27.  While at least one slot of the table is free, the calls that
    work on the table stay inside it: adding a VLAN id, killing one and
    accounting all return, whatever the id and whatever the transport
    answers. *)
Theorem table_calls_stay_in_bounds s :
  table_ok (wwan s) ->
  (forall l, vlan_devs (wwan s) = Some l ->
             vlan_devs_nr (wwan s) < Z.of_nat (length l)) ->
  (forall vid, exists r s',
     ipc_wwan_vlan_rx_add_vid wwan_open_result vid s = Done r s') /\
  (forall vid, exists r s', ipc_wwan_vlan_rx_kill_vid vid s = Done r s') /\
  (forall id n tx, exists s', ipc_wwan_update_stats id n tx s = Done tt s').
Proof.
  intros Hok Hroom. split_and!.
  - intros vid. unfold ipc_wwan_vlan_rx_add_vid.
    destruct (vid =? IPC_WWAN_DSS_ID_4); simpl; [by eexists _, _|].
    destruct (vlan_devs (wwan s)) as [l|] eqn:Hl.
    2:{ rewrite add_vlan_rejected by auto. by eexists _, _. }
    destruct (decide (512 <= vid)).
    { rewrite add_vlan_rejected by auto. by eexists _, _. }
    destruct (decide (vid = WWAN_ROOT_VLAN_TAG)) as [->|Hvid].
    { rewrite (add_vlan_root _ s l) by done. by eexists _, _. }
    pose proof Hok as Hnr. unfold table_ok in Hnr. rewrite Hl in Hnr.
    specialize (Hroom l eq_refl).
    destruct (lookup_lt_is_Some_2 l (Z.to_nat (vlan_devs_nr (wwan s))))
      as [e He]; [lia|].
    destruct (decide (0 <= wwan_open_result (trace s) vid)).
    + rewrite (add_vlan_ok _ s l vid e) by (done || lia). by eexists _, _.
    + rewrite (add_vlan_open_failed _ s l vid e) by (done || lia).
      by eexists _, _.
  - intros vid. unfold ipc_wwan_vlan_rx_kill_vid.
    destruct (vid =? WWAN_ROOT_VLAN_TAG); simpl; [by eexists _, _|].
    destruct (decide (find_tag (live_sessions (wwan s)) 0 vid < 0)).
    { rewrite remove_vlan_not_found by done. by eexists _, _. }
    destruct (vlan_devs (wwan s)) as [l|] eqn:Hl.
    2:{ unfold live_sessions in *. rewrite Hl in *. simpl in *.
        unfold EINVAL in *. lia. }
    destruct (find_tag_live (wwan s) l vid Hl Hok) as (_ & e & He & _); [lia|].
    destruct (decide (ch_id e < 0)).
    { rewrite (remove_vlan_invalid_channel s l vid e) by (done || lia).
      by eexists _, _. }
    destruct (remove_vlan_live s l vid e) as (s' & Hrun & _);
      [done|done|by apply Hroom|lia|done|lia|].
    by eexists _, _.
  - intros id n tx.
    destruct (update_stats_total s id n tx Hok) as (s' & Hrun & _). eauto.
Qed.

(** X28.  On a table without a free slot both updates run off the
    table: adding a tag in 1..511 calls the transport's open and then
    writes the slot after the last one, and removing a live session
    with a valid channel does not return either, its re-alignment
    reading the slot after the last one. *)
Theorem full_table_overruns s l :
  vlan_devs (wwan s) = Some l ->
  vlan_devs_nr (wwan s) = Z.of_nat (length l) ->
  (forall vid, 0 < vid < 512 ->
     ipc_wwan_add_vlan wwan_open_result vid s =
     Fault (traced (WwanOpen vid) s)
       (VlanDevsIndex (Z.of_nat (length l)))) /\
  (forall vid idx e,
     ipc_wwan_get_vlan_devs_nr vid s = Done idx s -> 0 <= idx ->
     vlan_devs_load idx s = Done e s -> 0 <= ch_id e ->
     exists s' f, ipc_wwan_remove_vlan vid s = Fault s' f).
Proof.
  intros Hl Hfull.
  assert (Hok : table_ok (wwan s)).
  { unfold table_ok. rewrite Hl. lia. }
  split.
  - intros vid Hvid. rewrite <- Hfull.
    apply (add_vlan_overrun _ s l); [done|lia|lia|lia].
  - intros vid idx e Hfind Hidx Hload Hch.
    rewrite ipc_wwan_get_vlan_devs_nr_ok in Hfind by done.
    injection Hfind as Hfind.
    pose proof Hload as (_ & _ & l0 & Hl0 & He)%vlan_devs_load_inv.
    rewrite Hl in Hl0. injection Hl0 as <-.
    apply (remove_vlan_overrun s l vid e); try done; rewrite Hfind; done.
Qed.

End BoundsProperties.

(** ** The further properties at the example configurations *)

(** X1 for the first session of a fresh device. *)
Lemma add_then_lookup_witness :
  exists e,
    ipc_wwan_get_vlan_devs_nr 1 (ex_one_session 1)
    = Done (vlan_devs_nr (wwan (ex_sys 1))) (ex_one_session 1) /\
    vlan_devs_load (vlan_devs_nr (wwan (ex_sys 1))) (ex_one_session 1)
    = Done e (ex_one_session 1) /\
    vlan_id e = 1 /\
    ch_id e = ex_open (trace (ex_sys 1)) 1 /\
    0 <= ch_id e.
Proof.
  apply (add_then_lookup ex_open (ex_sys 1) 1 (ex_one_session 1));
    [by_eval | constructor | discriminate | vm_compute; reflexivity].
Defined.

(** X2 for session 1 when session 2 is added. *)
Lemma add_keeps_sessions_witness :
  ipc_wwan_get_vlan_devs_nr 1 (ex_two_sessions 2)
  = Done 0 (ex_two_sessions 2) /\
  vlan_devs_load 0 (ex_two_sessions 2)
  = Done {| vlan_id := 1; ch_id := 0; stats := zero_stats |}
      (ex_two_sessions 2).
Proof.
  apply (add_keeps_sessions ex_open (ex_one_session 2) 2 0
           (ex_two_sessions 2) 1 0);
    [by_eval | vm_compute; reflexivity | vm_compute; reflexivity | lia
    | vm_compute; reflexivity].
Defined.

(** X3 for the only session of a device. *)
Lemma remove_then_lookup_witness :
  ipc_wwan_get_vlan_devs_nr 1
    (after (ipc_wwan_remove_vlan 1 (ex_one_session 1)))
  = Done (- EINVAL) (after (ipc_wwan_remove_vlan 1 (ex_one_session 1))).
Proof.
  apply (remove_then_lookup (ex_one_session 1) 1);
    [by_eval | vm_compute; apply NoDup_singleton | vm_compute; reflexivity].
Defined.

(** X4 for session 2 when session 1 is removed. *)
Lemma remove_keeps_other_sessions_witness :
  exists idx',
    ipc_wwan_get_vlan_devs_nr 2
      (after (ipc_wwan_remove_vlan 1 (ex_two_sessions 2)))
    = Done idx' (after (ipc_wwan_remove_vlan 1 (ex_two_sessions 2))) /\
    vlan_devs_load idx' (after (ipc_wwan_remove_vlan 1 (ex_two_sessions 2)))
    = Done {| vlan_id := 2; ch_id := 1; stats := zero_stats |}
        (after (ipc_wwan_remove_vlan 1 (ex_two_sessions 2))) /\
    (idx' = 1 \/ idx' = 1 - 1).
Proof.
  apply (remove_keeps_other_sessions (ex_two_sessions 2) 1 0
           (after (ipc_wwan_remove_vlan 1 (ex_two_sessions 2))) 2 1);
    [by_eval | vm_compute; reflexivity | discriminate
    | vm_compute; reflexivity | lia | vm_compute; reflexivity].
Defined.

(** X5 for a tag no session has. *)
Lemma remove_unknown_tag_witness :
  ipc_wwan_remove_vlan 5 (ex_one_session 1)
  = Done (- EINVAL) (ex_one_session 1).
Proof.
  apply (remove_unknown_tag (ex_one_session 1) 5).
  - by_eval.
  - vm_compute. repeat constructor. discriminate.
Defined.

(** X6 for a transport that refuses the channel. *)
Lemma add_open_failure_witness :
  exists s',
    ipc_wwan_add_vlan ex_open_fail 1 (ex_sys 1) = Done (- ENODEV) s' /\
    trace s' = trace (ex_sys 1) ++ [WwanOpen 1] /\
    vlan_devs_nr (wwan s') = vlan_devs_nr (wwan (ex_sys 1)) /\
    live_sessions (wwan s') = live_sessions (wwan (ex_sys 1)).
Proof.
  apply (add_open_failure ex_open_fail (ex_sys 1)
           (replicate 9 zero_vlan_info) 1);
    [reflexivity | by_eval | by_eval | lia | by_eval].
Defined.

(** X7 for the tag 5 and the session id 4. *)
Lemma session_id_round_trip_witness :
  ipc_wwan_mux_session_to_vlan_tag (ipc_wwan_vlan_to_mux_session_id 5) = 5 /\
  ipc_wwan_vlan_to_mux_session_id (ipc_wwan_mux_session_to_vlan_tag 4) = 4.
Proof.
  split.
  - apply (proj1 session_id_round_trip 5). lia.
  - apply (proj2 session_id_round_trip 4). lia.
Defined.

(** X8 for 100 bytes transmitted on session id 0. *)
Lemma update_stats_adds_counts_witness :
  exists s' e',
    ipc_wwan_update_stats 0 100 true (ex_one_session 1) = Done tt s' /\
    trace s' = trace (ex_one_session 1) /\
    vlan_devs_nr (wwan s') = vlan_devs_nr (wwan (ex_one_session 1)) /\
    vlan_devs_load 0 s' = Done e' s' /\
    vlan_id e' = 1 /\ ch_id e' = 0 /\
    (tx_packets (stats e') = 1 /\
     tx_bytes (stats e') = 100 /\
     rx_packets (stats e') = 0 /\
     rx_bytes (stats e') = 0 /\
     tx_packets (ndev_stats (netdev (wwan s'))) = 1 /\
     tx_bytes (ndev_stats (netdev (wwan s'))) = 100 /\
     rx_packets (ndev_stats (netdev (wwan s'))) = 0 /\
     rx_bytes (ndev_stats (netdev (wwan s'))) = 0) /\
    dev_addr (netdev (wwan s')) = ex_addr /\
    (forall j e'', j <> 0 ->
       vlan_devs_load j (ex_one_session 1) = Done e'' (ex_one_session 1) ->
       vlan_devs_load j s' = Done e'' s').
Proof.
  apply (update_stats_adds_counts (ex_one_session 1) 0 100 true 0
           {| vlan_id := 1; ch_id := 0; stats := zero_stats |});
    [by_eval | vm_compute; reflexivity | by_eval | vm_compute; reflexivity].
Defined.

(** X9 for an IPv4 frame the transport accepts. *)
Lemma transmit_outcomes_witness :
  wwan (after (ipc_wwan_transmit ex_transmit ex_alloc
                 (ex_frame 1 ETH_P_IP [69; 0; 0; 20]) (ex_one_session 1)))
  = wwan (ex_one_session 1) /\
  (NETDEV_TX_OK = NETDEV_TX_OK \/ NETDEV_TX_OK = NETDEV_TX_BUSY \/
   NETDEV_TX_OK = - EINVAL \/ NETDEV_TX_OK = - EXDEV \/
   NETDEV_TX_OK = - EIO) /\
  exists ext,
    trace (after (ipc_wwan_transmit ex_transmit ex_alloc
                    (ex_frame 1 ETH_P_IP [69; 0; 0; 20]) (ex_one_session 1)))
    = trace (ex_one_session 1) ++ ext /\
    frees ext = (if NETDEV_TX_OK <? 0 then 1%nat else 0%nat) /\
    sends ext = (if NETDEV_TX_OK <? 0
                 then (if NETDEV_TX_OK =? - EIO then 1%nat else 0%nat)
                 else 1%nat).
Proof.
  apply (transmit_outcomes ex_transmit ex_alloc (ex_one_session 1)
           (ex_frame 1 ETH_P_IP [69; 0; 0; 20])).
  vm_compute. reflexivity.
Defined.

(** X10 for a frame tagged 5 when only session 1 is live. *)
Lemma transmit_unknown_session_witness :
  ipc_wwan_transmit ex_transmit ex_alloc
    (ex_frame 5 ETH_P_IP [69; 0; 0; 20]) (ex_one_session 1) =
  Done (- EINVAL)
    (traced (KfreeSkb (Some (with_data_len 16 4
               (ex_frame 5 ETH_P_IP [69; 0; 0; 20]))))
       (ex_one_session 1)).
Proof.
  apply (transmit_unknown_session ex_transmit ex_alloc (ex_one_session 1)
           (ex_frame 5 ETH_P_IP [69; 0; 0; 20]) 5 ETH_HLEN (Some true));
    [reflexivity | discriminate | vm_compute; reflexivity | discriminate
    | by_eval | vm_compute; repeat constructor; discriminate].
Defined.

(** X11 for a frame of ten bytes. *)
Lemma transmit_short_frame_witness :
  ipc_wwan_transmit ex_transmit ex_alloc
    (with_data_len 2 10 (ex_frame 1 ETH_P_IP [])) (ex_one_session 1) =
  Done (- EINVAL)
    (traced (KfreeSkb (Some (with_data_len 2 10 (ex_frame 1 ETH_P_IP []))))
       (ex_one_session 1)).
Proof.
  apply (transmit_short_frame ex_transmit ex_alloc (ex_one_session 1)
           (with_data_len 2 10 (ex_frame 1 ETH_P_IP [])));
    [discriminate | by_eval | by_eval | by_eval].
Defined.

(** X12 for an IPv4 frame on the data session 1. *)
Lemma transmit_sends_witness :
  ipc_wwan_transmit ex_transmit ex_alloc
    (ex_frame 1 ETH_P_IP [69; 0; 0; 20]) (ex_one_session 1) =
  (let r := ex_transmit (trace (ex_one_session 1)) 1
              (ch_id {| vlan_id := 1; ch_id := 0; stats := zero_stats |})
              (with_data_len 16 4 (ex_frame 1 ETH_P_IP [69; 0; 0; 20])) in
   if r =? 0 then
     Done NETDEV_TX_OK
       (traced (WwanTransmit 1
                  (ch_id {| vlan_id := 1; ch_id := 0; stats := zero_stats |})
                  (with_data_len 16 4 (ex_frame 1 ETH_P_IP [69; 0; 0; 20])))
          (ex_one_session 1))
   else if r =? -2 then
     Done NETDEV_TX_BUSY
       (traced (WwanTransmit 1
                  (ch_id {| vlan_id := 1; ch_id := 0; stats := zero_stats |})
                  (with_data_len 16 4 (ex_frame 1 ETH_P_IP [69; 0; 0; 20])))
          (ex_one_session 1))
   else
     Done (- EIO)
       (traced (KfreeSkb (Some (with_data_len 16 4
                  (ex_frame 1 ETH_P_IP [69; 0; 0; 20]))))
          (traced (WwanTransmit 1
                     (ch_id {| vlan_id := 1; ch_id := 0; stats := zero_stats |})
                     (with_data_len 16 4 (ex_frame 1 ETH_P_IP [69; 0; 0; 20])))
             (ex_one_session 1)))).
Proof.
  apply (transmit_sends ex_transmit ex_alloc (ex_one_session 1)
           (ex_frame 1 ETH_P_IP [69; 0; 0; 20]) 1 ETH_HLEN true
           (with_data_len 16 4 (ex_frame 1 ETH_P_IP [69; 0; 0; 20])) 0
           {| vlan_id := 1; ch_id := 0; stats := zero_stats |});
    [reflexivity | discriminate | vm_compute; reflexivity | by_eval
    | by_eval | reflexivity | left; lia | by_eval | discriminate].
Defined.

(** X13 for a control frame at an odd address and an allocator that is
    out of memory. *)
Lemma transmit_copy_out_of_memory_witness :
  ipc_wwan_transmit ex_transmit ex_alloc
    (ex_odd_frame 257 ETH_P_802_3 [1; 2; 3; 4]) (ex_control_session 1) =
  Done (- EINVAL)
    (traced (KfreeSkb None)
       (traced (DevAllocSkb
                  (len (with_data_len 16 4
                          (ex_odd_frame 257 ETH_P_802_3 [1; 2; 3; 4]))
                   + (IPC_WWAN_ALIGN - 1)))
          (ex_control_session 1))).
Proof.
  apply (transmit_copy_out_of_memory ex_transmit ex_alloc
           (ex_control_session 1)
           (ex_odd_frame 257 ETH_P_802_3 [1; 2; 3; 4]) 257 ETH_HLEN
           (with_data_len 16 4 (ex_odd_frame 257 ETH_P_802_3 [1; 2; 3; 4])) 0
           {| vlan_id := 257; ch_id := 0; stats := zero_stats |});
    [reflexivity | vm_compute; reflexivity | discriminate | by_eval | lia
    | discriminate | reflexivity].
Defined.

(** X14 for a control frame at an odd address that is copied. *)
Lemma transmit_control_frames_aligned_witness :
  exists ext,
    trace (after (ipc_wwan_transmit ex_transmit ex_alloc_ok
                    (ex_odd_frame 257 ETH_P_802_3 [1; 2; 3; 4])
                    (ex_control_session 1)))
    = trace (ex_control_session 1) ++ ext /\
    forall tag ch x,
      WwanTransmit tag ch x ∈ ext ->
      Z.land (skb_data_ptr x) (IPC_WWAN_ALIGN - 1) = 0.
Proof.
  apply (transmit_control_frames_aligned ex_transmit ex_alloc_ok
           (ex_control_session 1)
           (ex_odd_frame 257 ETH_P_802_3 [1; 2; 3; 4]) NETDEV_TX_OK);
    [vm_compute; reflexivity | by_eval].
Defined.

(** X15 for a payload of four bytes at an odd address. *)
Lemma skb_align_copies_witness :
  exists copy,
    ipc_wwan_skb_align ex_alloc_ok
      (with_data_len 16 4 (ex_odd_frame 257 ETH_P_802_3 [1; 2; 3; 4]))
      (ex_control_session 1) =
    Done (Some copy)
      (traced (DevAllocSkb (4 + (IPC_WWAN_ALIGN - 1)))
         (ex_control_session 1)) /\
    Z.land (skb_data_ptr copy) (IPC_WWAN_ALIGN - 1) = 0 /\
    head copy = 8193 /\
    len copy = 4 /\
    skb_payload copy = [1; 2; 3; 4].
Proof.
  apply (skb_align_copies ex_alloc_ok (ex_control_session 1)
           (with_data_len 16 4 (ex_odd_frame 257 ETH_P_802_3 [1; 2; 3; 4]))
           {| head := 8193; buf := replicate 7 0; data := 0; len := 0;
              mac_header := 0; protocol := 0; vlan_present := false;
              vlan_tci := 0 |});
    [discriminate | by_eval | reflexivity | reflexivity | by_eval | by_eval].
Defined.

(** X16 for an IPv4 payload received on session 1. *)
Lemma receive_delivers_frame_witness :
  exists s' f,
    ipc_wwan_receive (ex_frame 1 0 [69; 0; 0; 20]) false (ex_one_session 1)
    = Done 0 s' /\
    trace s' = trace (ex_one_session 1) ++ [NetifRx f] /\
    take 12 (drop (Z.to_nat (data (ex_frame 1 0 [69; 0; 0; 20]))) (buf f))
    = rx_addresses (dev_addr (netdev (wwan (ex_one_session 1)))) /\
    data f = data (ex_frame 1 0 [69; 0; 0; 20]) + ETH_HLEN /\
    len f = len (ex_frame 1 0 [69; 0; 0; 20]) - ETH_HLEN /\
    mac_header f = data (ex_frame 1 0 [69; 0; 0; 20]) /\
    vlan_get_tag f = vlan_get_tag (ex_frame 1 0 [69; 0; 0; 20]) /\
    take (Z.to_nat (data (ex_frame 1 0 [69; 0; 0; 20]))) (buf f)
    = take (Z.to_nat (data (ex_frame 1 0 [69; 0; 0; 20])))
        (buf (ex_frame 1 0 [69; 0; 0; 20])) /\
    skb_payload f = drop 14 (skb_payload (ex_frame 1 0 [69; 0; 0; 20])).
Proof.
  apply (receive_delivers_frame (ex_one_session 1)
           (ex_frame 1 0 [69; 0; 0; 20]) false);
    [discriminate | by_eval | by_eval | by_eval].
Defined.

(** X17 for four bytes of payload received on session 1. *)
Lemma receive_accounts_payload_witness :
  exists s' e',
    ipc_wwan_receive (ex_frame 1 0 [69; 0; 0; 20]) false (ex_one_session 1)
    = Done 0 s' /\
    vlan_devs_nr (wwan s') = vlan_devs_nr (wwan (ex_one_session 1)) /\
    vlan_devs_load 0 s' = Done e' s' /\
    vlan_id e' = 1 /\ ch_id e' = 0 /\
    rx_packets (stats e') = 1 /\
    rx_bytes (stats e') = 4 /\
    tx_packets (stats e') = 0 /\
    tx_bytes (stats e') = 0 /\
    rx_packets (ndev_stats (netdev (wwan s'))) = 1 /\
    rx_bytes (ndev_stats (netdev (wwan s'))) = 4 /\
    tx_packets (ndev_stats (netdev (wwan s'))) = 0 /\
    tx_bytes (ndev_stats (netdev (wwan s'))) = 0 /\
    (forall j e'', j <> 0 ->
       vlan_devs_load j (ex_one_session 1) = Done e'' (ex_one_session 1) ->
       vlan_devs_load j s' = Done e'' s').
Proof.
  apply (receive_accounts_payload (ex_one_session 1)
           (ex_frame 1 0 [69; 0; 0; 20]) false 0
           {| vlan_id := 1; ch_id := 0; stats := zero_stats |});
    [discriminate | by_eval | by_eval | by_eval | reflexivity | by_eval
    | vm_compute; reflexivity | by_eval | vm_compute; reflexivity].
Defined.

(** X18 for a frame tagged 5 when only session 1 is live. *)
Lemma receive_unknown_session_witness :
  exists s' f,
    ipc_wwan_receive (ex_frame 5 0 [69; 0; 0; 20]) false (ex_one_session 1)
    = Done 0 s' /\
    wwan s' = wwan (ex_one_session 1) /\
    trace s' = trace (ex_one_session 1) ++ [NetifRx f].
Proof.
  apply (receive_unknown_session (ex_one_session 1)
           (ex_frame 5 0 [69; 0; 0; 20]) false (- EINVAL));
    [discriminate | by_eval | by_eval | by_eval | vm_compute; reflexivity
    | by_eval].
Defined.

(** X19 for the frame the transport got on session 1. *)
Lemma transmit_only_on_bound_channel_witness :
  1 = snd (vlan_get_tag (ex_frame 1 ETH_P_IP [69; 0; 0; 20])) /\
  (0 < 1 < 256 \/ 256 < 1 < 512) /\ 0 <= 0 /\
  (1, 0) ∈ bindings (wwan (ex_one_session 1)).
Proof.
  apply (transmit_only_on_bound_channel ex_transmit ex_alloc
           (ex_one_session 1) (ex_frame 1 ETH_P_IP [69; 0; 0; 20])
           NETDEV_TX_OK
           (after (ipc_wwan_transmit ex_transmit ex_alloc
                     (ex_frame 1 ETH_P_IP [69; 0; 0; 20]) (ex_one_session 1)))
           1 0 (with_data_len 16 4 (ex_frame 1 ETH_P_IP [69; 0; 0; 20]))).
  - by_eval.
  - vm_compute. reflexivity.
  - vm_compute. repeat constructor.
  - vm_compute. intros H. inversion H as [|? ? ? H']. inversion H'.
Defined.

(** X20 for a run of the six kinds of calls on a fresh device. *)
Lemma entries_keep_invariant_witness :
  driver_inv
    (wwan (after (enter_all ex_open ex_transmit ex_alloc
                    [RxAddVid 1; RxAddVid 261;
                     StartXmit (ex_frame 1 ETH_P_IP [69; 0; 0; 20]);
                     Receive (ex_frame 1 0 [69; 0; 0; 20]) false;
                     UpdateStats 0 10 true; RxKillVid 1] (ex_sys 2)))) /\
  length [0; 0; 0; 0; 0; 0] = 6%nat /\
  max_devs
    (wwan (after (enter_all ex_open ex_transmit ex_alloc
                    [RxAddVid 1; RxAddVid 261;
                     StartXmit (ex_frame 1 ETH_P_IP [69; 0; 0; 20]);
                     Receive (ex_frame 1 0 [69; 0; 0; 20]) false;
                     UpdateStats 0 10 true; RxKillVid 1] (ex_sys 2))))
  = max_devs (wwan (ex_sys 2)) /\
  max_ip_devs
    (wwan (after (enter_all ex_open ex_transmit ex_alloc
                    [RxAddVid 1; RxAddVid 261;
                     StartXmit (ex_frame 1 ETH_P_IP [69; 0; 0; 20]);
                     Receive (ex_frame 1 0 [69; 0; 0; 20]) false;
                     UpdateStats 0 10 true; RxKillVid 1] (ex_sys 2))))
  = max_ip_devs (wwan (ex_sys 2)) /\
  dev_addr (netdev
    (wwan (after (enter_all ex_open ex_transmit ex_alloc
                    [RxAddVid 1; RxAddVid 261;
                     StartXmit (ex_frame 1 ETH_P_IP [69; 0; 0; 20]);
                     Receive (ex_frame 1 0 [69; 0; 0; 20]) false;
                     UpdateStats 0 10 true; RxKillVid 1] (ex_sys 2)))))
  = dev_addr (netdev (wwan (ex_sys 2))) /\
  exists ext,
    trace (after (enter_all ex_open ex_transmit ex_alloc
                    [RxAddVid 1; RxAddVid 261;
                     StartXmit (ex_frame 1 ETH_P_IP [69; 0; 0; 20]);
                     Receive (ex_frame 1 0 [69; 0; 0; 20]) false;
                     UpdateStats 0 10 true; RxKillVid 1] (ex_sys 2)))
    = trace (ex_sys 2) ++ ext.
Proof.
  apply (entries_keep_invariant ex_open ex_transmit ex_alloc
           [RxAddVid 1; RxAddVid 261;
            StartXmit (ex_frame 1 ETH_P_IP [69; 0; 0; 20]);
            Receive (ex_frame 1 0 [69; 0; 0; 20]) false;
            UpdateStats 0 10 true; RxKillVid 1] (ex_sys 2)
           [0; 0; 0; 0; 0; 0]).
  - unfold driver_inv, wwan_inv.
    split_and!; [by_eval | constructor | by_eval | constructor].
  - vm_compute. reflexivity.
Defined.

(** X21 for a device whose table could not be allocated. *)
Lemma no_table_no_sessions_witness :
  wwan (after (enter_all ex_open ex_transmit ex_alloc
                 [RxAddVid 1; StartXmit (ex_frame 1 ETH_P_IP [69; 0; 0; 20]);
                  Receive (ex_frame 1 0 [69; 0; 0; 20]) false] ex_no_table))
  = wwan ex_no_table /\
  Forall2 result_without_table
    [RxAddVid 1; StartXmit (ex_frame 1 ETH_P_IP [69; 0; 0; 20]);
     Receive (ex_frame 1 0 [69; 0; 0; 20]) false]
    [- EINVAL; - EINVAL; 0] /\
  exists ext,
    trace (after (enter_all ex_open ex_transmit ex_alloc
                    [RxAddVid 1;
                     StartXmit (ex_frame 1 ETH_P_IP [69; 0; 0; 20]);
                     Receive (ex_frame 1 0 [69; 0; 0; 20]) false]
                    ex_no_table))
    = trace ex_no_table ++ ext /\
    Forall (fun c => transport_call c = false) ext.
Proof.
  apply (no_table_no_sessions ex_open ex_transmit ex_alloc
           [RxAddVid 1; StartXmit (ex_frame 1 ETH_P_IP [69; 0; 0; 20]);
            Receive (ex_frame 1 0 [69; 0; 0; 20]) false] ex_no_table
           [- EINVAL; - EINVAL; 0]);
    [reflexivity | vm_compute; reflexivity].
Defined.

(** X22 for the device of the examples. *)
Lemma init_establishes_invariant_witness :
  (true = true /\ true = true /\ true = true) /\
  driver_inv (ex_wwan 1) /\ live_sessions (ex_wwan 1) = [] /\
  is_registered (ex_wwan 1) = true /\
  max_devs (ex_wwan 1) = 1 + 8 /\
  max_ip_devs (ex_wwan 1) = 1 /\
  dev_addr (netdev (ex_wwan 1)) = ex_addr /\
  ndev_stats (netdev (ex_wwan 1)) = zero_stats /\
  vlan_devs (ex_wwan 1) =
  (if true && (0 <=? 1 + 8)
   then Some (replicate (Z.to_nat (1 + 8)) zero_vlan_info)
   else None).
Proof.
  apply (init_establishes_invariant 8 true true true true ex_addr 1
           (ex_wwan 1)).
  reflexivity.
Defined.

(** X23 for a frame tagged 3 on a device of eight sessions. *)
Lemma select_queue_within_allocated_witness :
  ipc_wwan_select_queue (ex_wwan 8) (ex_frame 3 ETH_P_IP [69; 0; 0; 20])
  = 65535 \/
  0 <= ipc_wwan_select_queue (ex_wwan 8) (ex_frame 3 ETH_P_IP [69; 0; 0; 20])
    < WWAN_MIN_TXQ + 8.
Proof.
  apply (select_queue_within_allocated 8 true true true true ex_addr 8
           (ex_wwan 8) (ex_frame 3 ETH_P_IP [69; 0; 0; 20]));
    [reflexivity | lia].
Defined.

(** X24 for a zero address followed by a valid one. *)
Lemma zero_address_disables_open_witness :
  ipc_wwan_open
    (default (ex_admin 1)
       (administer_all
          [NdoSetMacAddress (replicate 14 0);
           NdoDoIoctl SIOCSIFHWADDR true (ex_addr ++ replicate 8 0);
           NdoOpen] (ex_admin 1)))
  = (- ENODEV,
     default (ex_admin 1)
       (administer_all
          [NdoSetMacAddress (replicate 14 0);
           NdoDoIoctl SIOCSIFHWADDR true (ex_addr ++ replicate 8 0);
           NdoOpen] (ex_admin 1))).
Proof.
  apply (zero_address_disables_open (ex_admin 1) (replicate 14 0)
           [NdoDoIoctl SIOCSIFHWADDR true (ex_addr ++ replicate 8 0);
            NdoOpen]);
    [reflexivity | vm_compute; reflexivity].
Defined.

(** X25 for an MTU change, flow control and a stop. *)
Lemma admin_calls_keep_bounds_witness :
  length (tx_stopped
    (default (ex_admin 4)
       (administer_all [NdoChangeMtu 9000; NdoOpen; TxFlowctrl 2 true; NdoStop]
          (ex_admin 4))))
  = length (tx_stopped (ex_admin 4)) /\
  (mtu (default (ex_admin 4)
          (administer_all
             [NdoChangeMtu 9000; NdoOpen; TxFlowctrl 2 true; NdoStop]
             (ex_admin 4)))
   = mtu (ex_admin 4) \/
   IPC_MEM_MIN_MTU_SIZE
   <= mtu (default (ex_admin 4)
             (administer_all
                [NdoChangeMtu 9000; NdoOpen; TxFlowctrl 2 true; NdoStop]
                (ex_admin 4)))
   <= IPC_MEM_MAX_MTU_SIZE) /\
  running (default (ex_admin 4)
             (administer_all
                [NdoChangeMtu 9000; NdoOpen; TxFlowctrl 2 true; NdoStop]
                (ex_admin 4)))
  = running (ex_admin 4) /\
  live_addr_change
    (default (ex_admin 4)
       (administer_all [NdoChangeMtu 9000; NdoOpen; TxFlowctrl 2 true; NdoStop]
          (ex_admin 4)))
  = live_addr_change (ex_admin 4) /\
  ndev_stats (ndev
    (default (ex_admin 4)
       (administer_all [NdoChangeMtu 9000; NdoOpen; TxFlowctrl 2 true; NdoStop]
          (ex_admin 4))))
  = ndev_stats (ndev (ex_admin 4)).
Proof.
  apply (admin_calls_keep_bounds
           [NdoChangeMtu 9000; NdoOpen; TxFlowctrl 2 true; NdoStop]
           (ex_admin 4)).
  vm_compute. reflexivity.
Defined.

(** X26 for the data session of tag 3 on a device of eight sessions. *)
Lemma flowctrl_acts_on_selected_queue_witness :
  exists a',
    ipc_wwan_tx_flowctrl (ex_admin 8) (ipc_wwan_vlan_to_mux_session_id 3) true
    = Some a' /\
    ipc_wwan_is_tx_stopped a' (ipc_wwan_vlan_to_mux_session_id 3)
    = Some true /\
    tx_stopped a' !!
      Z.to_nat (ipc_wwan_select_queue (ex_wwan 8)
                  (ex_frame 3 ETH_P_IP [69; 0; 0; 20]))
    = Some true /\
    forall q, q <> Z.to_nat 3 ->
              tx_stopped a' !! q = tx_stopped (ex_admin 8) !! q.
Proof.
  apply (flowctrl_acts_on_selected_queue (ex_wwan 8)
           (ex_frame 3 ETH_P_IP [69; 0; 0; 20]) (ex_admin 8) true 3);
    [reflexivity | reflexivity | by_eval | lia | reflexivity].
Defined.

(** X27 for a device with one session and eight free slots. *)
Lemma table_calls_stay_in_bounds_witness :
  (forall vid, exists r s',
     ipc_wwan_vlan_rx_add_vid ex_open vid (ex_one_session 1) = Done r s') /\
  (forall vid, exists r s',
     ipc_wwan_vlan_rx_kill_vid vid (ex_one_session 1) = Done r s') /\
  (forall id n tx, exists s',
     ipc_wwan_update_stats id n tx (ex_one_session 1) = Done tt s').
Proof.
  apply (table_calls_stay_in_bounds ex_open (ex_one_session 1)).
  - by_eval.
  - intros l Hl. vm_compute in Hl. injection Hl as <-. by_eval.
Defined.

(** X28 for a table of a single slot that session 1 occupies. *)
Lemma full_table_overruns_witness :
  ipc_wwan_add_vlan ex_open 2 (ex_one_session (-7)) =
  Fault (traced (WwanOpen 2) (ex_one_session (-7)))
    (VlanDevsIndex
       (Z.of_nat (length [{| vlan_id := 1; ch_id := 0;
                             stats := zero_stats |}]))) /\
  exists s' f, ipc_wwan_remove_vlan 1 (ex_one_session (-7)) = Fault s' f.
Proof.
  split.
  - apply (proj1 (full_table_overruns ex_open (ex_one_session (-7))
                    [{| vlan_id := 1; ch_id := 0; stats := zero_stats |}]
                    eq_refl eq_refl) 2).
    lia.
  - apply (proj2 (full_table_overruns ex_open (ex_one_session (-7))
                    [{| vlan_id := 1; ch_id := 0; stats := zero_stats |}]
                    eq_refl eq_refl) 1 0
             {| vlan_id := 1; ch_id := 0; stats := zero_stats |});
      [vm_compute; reflexivity | lia | vm_compute; reflexivity | by_eval].
Defined.
